(** * Managed Kafka translation layer (yandex/mdb_kafka_structures.go)

    A shallow embedding of the expand / flatten / diff helpers of the Kafka
    cluster resource, and the properties of its specification stated over
    that embedding.

    Conventions of the embedding:
    - Go's [int] and [int64] are [Z]; on the 64-bit targets of the provider
      the conversions [int64(v.(int))] and [int(x)] keep the value.
    - A [(T, error)] result is a [result T]; a [*wrappers.Int64Value] or
      [*wrappers.BoolValue] is an [option]; a nil slice and an empty slice
      are both [[]].
    - [retErr *error] of the scalar extractors is threaded as state. *)

From Stdlib Require Import ZArith Ascii String DecimalString DecimalPos DecimalZ.
From stdpp Require Import base option list sorting lexico gmap strings.

Local Open Scope Z_scope.

(** ** Errors *)

Inductive NumErr :=
  | ErrSyntax
  | ErrRange.

(** [NumError] is strconv's [*NumError]; [EnumValueError attr got] stands for
    the enumeration parsers' "value for 'attr' must be one of ..., not `got`"
    (the rendered list of keys comes from helpers outside this file);
    [ErrorString] is a plain [fmt.Errorf] message. *)
Inductive error :=
  | NumError (Func Num : string) (Err : NumErr)
  | EnumValueError (attr got : string)
  | ErrorString (msg : string).

Inductive result (A : Type) :=
  | Ok (a : A)
  | Err (e : error).
Arguments Ok {A} a.
Arguments Err {A} e.

Definition is_Err {A} (r : result A) : Prop :=
  match r with Err _ => True | Ok _ => False end.

#[global] Instance NumErr_eq_dec : EqDecision NumErr.
Proof. solve_decision. Defined.

#[global] Instance error_eq_dec : EqDecision error.
Proof. solve_decision. Defined.

(** ** strconv *)

Module strconv.

Definition maxUint64 : Z := 2 ^ 64 - 1.

(** The loop of [ParseUint(s, 10, 64)] over the bytes of [s], [n] being the
    value read so far; [inl] is the kind of failure. *)
Fixpoint parse_digits (s : string) (n : Z) : NumErr + Z :=
  match s with
  | EmptyString => inr n
  | String c s' =>
      let b := Z.of_N (N_of_ascii c) in
      if (48 <=? b) && (b <=? 57) then
        let d := b - 48 in
        if n >=? maxUint64 / 10 + 1 then inl ErrRange
        else
          let n1 := n * 10 + d in
          if n1 >? maxUint64 then inl ErrRange else parse_digits s' n1
      else inl ErrSyntax
  end.

Definition ParseUint (s : string) : NumErr + Z :=
  match s with
  | EmptyString => inl ErrSyntax
  | _ => parse_digits s 0
  end.

(** [strconv.ParseInt(s, 10, 64)]. *)
Definition ParseInt (s0 : string) : result Z :=
  match s0 with
  | EmptyString => Err (NumError "ParseInt" s0 ErrSyntax)
  | String c rest =>
      let '(neg, s) :=
        if Ascii.eqb c "+" then (false, rest)
        else if Ascii.eqb c "-" then (true, rest)
        else (false, s0) in
      match ParseUint s with
      | inl ErrSyntax => Err (NumError "ParseInt" s0 ErrSyntax)
      | inl ErrRange => Err (NumError "ParseInt" s0 ErrRange)
      | inr un =>
          let cutoff := 2 ^ 63 in
          if negb neg && (un >=? cutoff) then Err (NumError "ParseInt" s0 ErrRange)
          else if neg && (un >? cutoff) then Err (NumError "ParseInt" s0 ErrRange)
          else Ok (if neg then - un else un)
      end
  end.

(** [strconv.FormatInt(i, 10)]. *)
Definition FormatInt (i : Z) : string :=
  NilZero.string_of_int (Z.to_int i).

End strconv.

(** ** sort *)

Module sort.

Section insertion.
Context {A : Type} (less : A → A → bool).

(** One pass of the inner loop of the package's insertion sort: [x] sits
    right after the already ordered prefix, given here last element first,
    and is swapped leftwards as long as it is [less] than its left
    neighbour. *)
Fixpoint sift (x : A) (rprefix : list A) : list A :=
  match rprefix with
  | [] => [x]
  | y :: ys => if less x y then y :: sift x ys else x :: y :: ys
  end.

(** [sort.Slice(data, less)], as the insertion sort that the package runs on
    short slices (of at most twelve elements since Go 1.19).  On longer
    slices the package switches to pattern-defeating quicksort; both yield
    the same slice whenever elements that [less] does not separate are
    equal. *)
Definition Slice (data : list A) : list A :=
  reverse (foldl (λ acc x, sift x acc) [] data).

End insertion.

(** [sort.Strings]. *)
Definition Strings (l : list string) : list string := Slice String.ltb l.

End sort.

(** ** strings *)

Module strings.
(** [strings.Join(elems, sep)]. *)
Fixpoint Join (elems : list string) (sep : string) : string :=
  match elems with
  | [] => ""
  | [e] => e
  | e :: rest => e +:+ sep +:+ Join rest sep
  end.

(** [strings.HasPrefix(s, prefix)]. *)
Definition HasPrefix (s pre : string) : bool := String.prefix pre s.
End strings.

(** ** The configuration-tree accessor

    [schema.ResourceData] of the plugin SDK.  The resource schema fixes the
    type of every attribute, so the tree is stored per attribute type, keyed
    by the full path; a set of strings is kept as the slice its [List()]
    yields, and a list of nested blocks as the number of its blocks (their
    contents live at the paths below). *)
Record ResourceData := {
  rd_string : gmap string string;
  rd_int : gmap string Z;
  rd_bool : gmap string bool;
  rd_set : gmap string (list string);
  rd_list : gmap string (list string);
  rd_block : gmap string nat;
}.

(** [d.GetOk(path)]: the value (the zero value of the attribute's type when it
    is not set) and whether it is set to something other than that zero
    value.  One accessor per attribute type, the type assertion
    [v.(string)], [v.(int)], ... of the caller being part of it. *)
Definition GetOk_string (d : ResourceData) (path : string) : string * bool :=
  match rd_string d !! path with
  | Some s => (s, negb (String.eqb s ""))
  | None => ("", false)
  end.

Definition GetOk_int (d : ResourceData) (path : string) : Z * bool :=
  match rd_int d !! path with
  | Some i => (i, negb (i =? 0))
  | None => (0, false)
  end.

Definition GetOk_bool (d : ResourceData) (path : string) : bool * bool :=
  match rd_bool d !! path with
  | Some b => (b, b)
  | None => (false, false)
  end.

Definition GetOk_set (d : ResourceData) (path : string) : list string * bool :=
  match rd_set d !! path with
  | Some l => (l, negb (Nat.eqb (length l) 0))
  | None => ([], false)
  end.

Definition GetOk_list (d : ResourceData) (path : string) : list string * bool :=
  match rd_list d !! path with
  | Some l => (l, negb (Nat.eqb (length l) 0))
  | None => ([], false)
  end.

Definition GetOk_block (d : ResourceData) (path : string) : nat * bool :=
  match rd_block d !! path with
  | Some n => (n, negb (Nat.eqb n 0))
  | None => (0%nat, false)
  end.

(** [d.GetOkExists(path)] on a block list: set at all, zero value or not. *)
Definition GetOkExists_block (d : ResourceData) (path : string) : nat * bool :=
  match rd_block d !! path with
  | Some n => (n, true)
  | None => (0%nat, false)
  end.

(** [d.Get(path).(string)]. *)
Definition Get_string (d : ResourceData) (path : string) : string :=
  fst (GetOk_string d path).

(** A value held in an [interface{}], for the comparisons the code makes on
    untyped values. *)
Inductive iface :=
  | IString (s : string)
  | IInt (i : Z).

Definition iface_eqb (a b : iface) : bool :=
  match a, b with
  | IString s, IString t => String.eqb s t
  | IInt i, IInt j => i =? j
  | _, _ => false
  end.

(** ** Enumeration tables *)

Definition Topic_CleanupPolicy_value : gmap string Z :=
  <["CLEANUP_POLICY_UNSPECIFIED" := 0]>
  (<["CLEANUP_POLICY_DELETE" := 1]>
  (<["CLEANUP_POLICY_COMPACT" := 2]>
  (<["CLEANUP_POLICY_COMPACT_AND_DELETE" := 3]> ∅))).

(** The name/ordinal tables of the generated API bindings (package [kafka]
    of go-genproto), which are not part of this repository: they are taken
    as a parameter of the development. *)
Record KafkaProto := {
  Cluster_Environment_value : gmap string Z;
  CompressionType_value : gmap string Z;
  CompressionType_name : gmap Z string;
  SaslMechanism_value : gmap string Z;
  SaslMechanism_name : gmap Z string;
  Permission_AccessRole_value : gmap string Z;
  Permission_AccessRole_name : gmap Z string;
  WeeklyMaintenanceWindow_WeekDay_value : gmap string Z;
  WeeklyMaintenanceWindow_WeekDay_name : gmap Z string;
}.

(** [String()] of a generated enumeration: the name of the ordinal, or its
    decimal representation when the table has none. *)
Definition enum_String (names : gmap Z string) (v : Z) : string :=
  match names !! v with
  | Some n => n
  | None => strconv.FormatInt v
  end.

(** Go's two-valued map index [v, ok := m[k]]. *)
Definition map_index {K} `{Countable K} (m : gmap K Z) (k : K) : Z * bool :=
  match m !! k with
  | Some v => (v, true)
  | None => (0, false)
  end.

(** ** Monads of the embedding *)

#[global] Instance result_ret : MRet result := λ A a, Ok a.
#[global] Instance result_bind : MBind result :=
  λ A B f r, match r with Ok a => f a | Err e => Err e end.

(** A computation that reads and writes the caller's [retErr] variable. *)
Definition RetErr (A : Type) : Type := option error → A * option error.

#[global] Instance RetErr_ret : MRet RetErr := λ A a retErr, (a, retErr).
#[global] Instance RetErr_bind : MBind RetErr :=
  λ A B f m retErr, let '(a, retErr') := m retErr in f a retErr'.

(** ** Payload records *)

(** [KafkaConfig]; [kafka.KafkaConfig2_8] and [kafka.KafkaConfig3] of the API
    bindings carry the same fields, so the three share this record and the
    engine-version shape is the tag of [ConfigSpec_Kafka_KafkaConfig]
    below.  The two slices that the code tests against nil are options. *)
Record KafkaConfig := {
  CompressionType : Z;
  LogFlushIntervalMessages : option Z;
  LogFlushIntervalMs : option Z;
  LogFlushSchedulerIntervalMs : option Z;
  LogRetentionBytes : option Z;
  LogRetentionHours : option Z;
  LogRetentionMinutes : option Z;
  LogRetentionMs : option Z;
  LogSegmentBytes : option Z;
  LogPreallocate : option bool;
  SocketSendBufferBytes : option Z;
  SocketReceiveBufferBytes : option Z;
  AutoCreateTopicsEnable : option bool;
  NumPartitions : option Z;
  DefaultReplicationFactor : option Z;
  MessageMaxBytes : option Z;
  ReplicaFetchMaxBytes : option Z;
  SslCipherSuites : option (list string);
  OffsetsRetentionMinutes : option Z;
  SaslEnabledMechanisms : option (list Z);
}.

Record TopicConfig := {
  CleanupPolicy : string;
  tc_CompressionType : Z;
  DeleteRetentionMs : option Z;
  FileDeleteDelayMs : option Z;
  FlushMessages : option Z;
  FlushMs : option Z;
  MinCompactionLagMs : option Z;
  RetentionBytes : option Z;
  RetentionMs : option Z;
  MaxMessageBytes : option Z;
  MinInsyncReplicas : option Z;
  SegmentBytes : option Z;
  Preallocate : option bool;
}.

Record Resources := {
  ResourcePresetId : string;
  DiskSize : Z;
  DiskTypeId : string;
}.

(** The oneof [kafka_config] of [ConfigSpec_Kafka]: which of the two
    engine-version shapes is populated. *)
Inductive ConfigSpec_Kafka_KafkaConfig :=
  | KafkaConfig_2_8 (cfg : KafkaConfig)
  | KafkaConfig_3 (cfg : KafkaConfig).

Record ConfigSpec_Kafka := {
  Kafka_Resources : Resources;
  Kafka_KafkaConfig : option ConfigSpec_Kafka_KafkaConfig;
}.

Record ConfigSpec_Zookeeper := { Zookeeper_Resources : Resources }.
Record ConfigSpec_KRaft := { KRaft_Resources : Resources }.
Record Access := { DataTransfer : bool }.
Record ConfigSpec_RestAPIConfig := { Enabled : bool }.

Record DiskSizeAutoscaling := {
  PlannedUsageThreshold : Z;
  EmergencyUsageThreshold : Z;
  DiskSizeLimit : Z;
}.

Record ConfigSpec := {
  Version : string;
  Kafka : ConfigSpec_Kafka;
  Zookeeper : option ConfigSpec_Zookeeper;
  ZoneId : list string;
  BrokersCount : option Z;
  AssignPublicIp : bool;
  SchemaRegistry : bool;
  ConfigSpec_Access : option Access;
  RestApiConfig : option ConfigSpec_RestAPIConfig;
  ConfigSpec_DiskSizeAutoscaling : option DiskSizeAutoscaling;
  Kraft : option ConfigSpec_KRaft;
}.

Record Permission := {
  TopicName : string;
  Role : Z;
  AllowHosts : list string;
}.

(** [kafka.User] (read side) and [kafka.UserSpec] (write side). *)
Record User := {
  User_Name : string;
  User_Permissions : list Permission;
}.

Record UserSpec := {
  Name : string;
  Password : string;
  Permissions : list Permission;
}.

(** The oneof [policy] of [MaintenanceWindow]. *)
Inductive MaintenanceWindow_Policy :=
  | MaintenanceWindow_Anytime
  | MaintenanceWindow_WeeklyMaintenanceWindow (Day : Z) (Hour : Z).

Record MaintenanceWindow := { Policy : option MaintenanceWindow_Policy }.

(** A declarative [permission] block, [map[string]interface{}]: each of the
    three keys may be missing. *)
Record PermissionBlock := {
  pb_topic_name : option string;
  pb_role : option string;
  pb_allow_hosts : option (list string);
}.

(** A value of a flattened declarative map. *)
Inductive Value :=
  | VString (s : string)
  | VInt (i : Z)
  | VBool (b : bool)
  | VStrings (l : list string).

(** Modelled from the spec: [toBytes] and [toGigabytes], helpers of the
    repository that live outside this file; sizes cross the boundary "in
    gigabyte units with a fixed conversion factor (1 GiB = 2^30 bytes)". *)
Definition toBytes (gigabytesCount : Z) : Z := gigabytesCount * 2 ^ 30.
Definition toGigabytes (bytesCount : Z) : Z := bytesCount ÷ 2 ^ 30.

(** [if o != nil { res[key] = v }]. *)
Definition set_present (key : string) (o : option Value) (res : gmap string Value)
  : gmap string Value :=
  match o with
  | Some v => <[key := v]> res
  | None => res
  end.

Definition formatInt64Value (w : option Z) : option Value :=
  (λ v, VString (strconv.FormatInt v)) <$> w.

Definition boolValue (w : option bool) : option Value := VBool <$> w.

Definition kafkaConfigPath : string := "config.0.kafka.0.kafka_config.0".

(** [convertStringSet]: the strings of a set, in the order of its [List()]. *)
Definition convertStringSet (schemaSet : list string) : list string := schemaSet.

Definition parseSetToStringArray (set : list string) : list string :=
  convertStringSet set.

Definition parseKafkaPermissionAllowHosts (allowHosts : list string) : list string :=
  let res := parseSetToStringArray allowHosts in
  if Nat.eqb (length res) 0 then [] else sort.Strings res.

Definition parseSslCipherSuites (sslCipherSuites : list string) : list string :=
  parseSetToStringArray sslCipherSuites.

Definition parseKafkaTopicCleanupPolicy (e : string) : result Z :=
  let '(v, ok) := map_index Topic_CleanupPolicy_value e in
  if negb ok || String.eqb e "CLEANUP_POLICY_UNSPECIFIED"
  then Err (EnumValueError "cleanup_policy" e)
  else Ok v.

(** Go's [<] on strings, bytewise, as a strict order. *)
#[global] Instance string_lexico : Lexico string := λ s t, String.ltb s t = true.

Section Translation.
Context (kafka : KafkaProto).

(** *** Enumeration parsers *)

Definition parseKafkaEnv (e : string) : result Z :=
  let '(v, ok) := map_index (Cluster_Environment_value kafka) e in
  if negb ok then Err (EnumValueError "environment" e) else Ok v.

Definition parseKafkaCompression (e : string) : result Z :=
  let '(v, ok) := map_index (CompressionType_value kafka) e in
  if negb ok || String.eqb e "COMPRESSION_TYPE_UNSPECIFIED"
  then Err (EnumValueError "compression_type" e)
  else Ok v.

Definition parseKafkaSaslMechanism (e : string) : result Z :=
  let '(v, ok) := map_index (SaslMechanism_value kafka) e in
  if negb ok || String.eqb e "SASL_MECHANISM_UNSPECIFIED"
  then Err (EnumValueError "sasl_mechanism" e)
  else Ok v.

Definition parseKafkaPermissionRole (e : string) : result Z :=
  let '(v, ok) := map_index (Permission_AccessRole_value kafka) e in
  if negb ok then Err (EnumValueError "role" e) else Ok v.

(** *** Scalar config extractors *)

Definition parseIntKafkaConfigParam (d : ResourceData) (paramName : string)
  : RetErr (option Z) :=
  λ retErr,
    let '(v, ok) := GetOk_string d (kafkaConfigPath +:+ "." +:+ paramName) in
    if negb ok then (None, retErr)
    else
      match strconv.ParseInt v with
      | Err err =>
          (* if *retErr != nil { *retErr = err } *)
          (None, match retErr with Some _ => Some err | None => retErr end)
      | Ok i => (Some i, retErr)
      end.

Fixpoint parseSaslEnabledMechanisms_loop (sliceOfMechanisms : list string)
    (res : list Z) : result (list Z) :=
  match sliceOfMechanisms with
  | [] => Ok res
  | mechanismString :: rest =>
      mechanismSpec ← parseKafkaSaslMechanism mechanismString;
      parseSaslEnabledMechanisms_loop rest (res ++ [mechanismSpec])
  end.

Definition parseSaslEnabledMechanisms (saslEnabledMechanisms : list string)
  : result (list Z) :=
  parseSaslEnabledMechanisms_loop (convertStringSet saslEnabledMechanisms) [].

(** The fifteen integer parameters of [parseKafkaConfig], in source order,
    all sharing one [retErr]. *)
Definition parseKafkaConfig_ints (d : ResourceData)
  : RetErr (option (list string) → option bool → option (list Z) → Z → KafkaConfig) :=
  logFlushIntervalMessages ← parseIntKafkaConfigParam d "log_flush_interval_messages";
  logFlushIntervalMs ← parseIntKafkaConfigParam d "log_flush_interval_ms";
  logFlushSchedulerIntervalMs ← parseIntKafkaConfigParam d "log_flush_scheduler_interval_ms";
  logRetentionBytes ← parseIntKafkaConfigParam d "log_retention_bytes";
  logRetentionHours ← parseIntKafkaConfigParam d "log_retention_hours";
  logRetentionMinutes ← parseIntKafkaConfigParam d "log_retention_minutes";
  logRetentionMs ← parseIntKafkaConfigParam d "log_retention_ms";
  logSegmentBytes ← parseIntKafkaConfigParam d "log_segment_bytes";
  socketSendBufferBytes ← parseIntKafkaConfigParam d "socket_send_buffer_bytes";
  socketReceiveBufferBytes ← parseIntKafkaConfigParam d "socket_receive_buffer_bytes";
  numPartitions ← parseIntKafkaConfigParam d "num_partitions";
  defaultReplicationFactor ← parseIntKafkaConfigParam d "default_replication_factor";
  messageMaxBytes ← parseIntKafkaConfigParam d "message_max_bytes";
  replicaFetchMaxBytes ← parseIntKafkaConfigParam d "replica_fetch_max_bytes";
  offsetsRetentionMinutes ← parseIntKafkaConfigParam d "offsets_retention_minutes";
  mret (λ sslCipherSuites autoCreateTopicsEnable saslEnabledMechanisms compressionType,
    {| CompressionType := compressionType;
       LogFlushIntervalMessages := logFlushIntervalMessages;
       LogFlushIntervalMs := logFlushIntervalMs;
       LogFlushSchedulerIntervalMs := logFlushSchedulerIntervalMs;
       LogRetentionBytes := logRetentionBytes;
       LogRetentionHours := logRetentionHours;
       LogRetentionMinutes := logRetentionMinutes;
       LogRetentionMs := logRetentionMs;
       LogSegmentBytes := logSegmentBytes;
       LogPreallocate := None;
       SocketSendBufferBytes := socketSendBufferBytes;
       SocketReceiveBufferBytes := socketReceiveBufferBytes;
       AutoCreateTopicsEnable := autoCreateTopicsEnable;
       NumPartitions := numPartitions;
       DefaultReplicationFactor := defaultReplicationFactor;
       MessageMaxBytes := messageMaxBytes;
       ReplicaFetchMaxBytes := replicaFetchMaxBytes;
       SslCipherSuites := sslCipherSuites;
       OffsetsRetentionMinutes := offsetsRetentionMinutes;
       SaslEnabledMechanisms := saslEnabledMechanisms |}).

Definition parseKafkaConfig (d : ResourceData) : result KafkaConfig :=
  compressionType ←
    (let '(v, ok) := GetOk_string d (kafkaConfigPath +:+ ".compression_type") in
     if ok then parseKafkaCompression v else Ok 0);
  (* var retErr error *)
  let '(res, retErr) := parseKafkaConfig_ints d None in
  let autoCreateTopicsEnable :=
    let '(v, ok) := GetOk_bool d (kafkaConfigPath +:+ ".auto_create_topics_enable") in
    if ok then Some v else None in
  let sslCipherSuites :=
    let '(v, ok) := GetOk_set d (kafkaConfigPath +:+ ".ssl_cipher_suites") in
    if ok then Some (sort.Strings (parseSslCipherSuites v)) else None in
  saslEnabledMechanisms ←
    (let '(v, ok) := GetOk_set d (kafkaConfigPath +:+ ".sasl_enabled_mechanisms") in
     if ok then mechanisms ← parseSaslEnabledMechanisms v; Ok (Some mechanisms)
     else Ok None);
  match retErr with
  | Some err => Err err
  | None => Ok (res sslCipherSuites autoCreateTopicsEnable saslEnabledMechanisms compressionType)
  end.

Definition expandKafkaConfig2_8 (d : ResourceData) : result KafkaConfig :=
  kafkaConfig ← parseKafkaConfig d;
  Ok {| CompressionType := CompressionType kafkaConfig;
        LogFlushIntervalMessages := LogFlushIntervalMessages kafkaConfig;
        LogFlushIntervalMs := LogFlushIntervalMs kafkaConfig;
        LogFlushSchedulerIntervalMs := LogFlushSchedulerIntervalMs kafkaConfig;
        LogRetentionBytes := LogRetentionBytes kafkaConfig;
        LogRetentionHours := LogRetentionHours kafkaConfig;
        LogRetentionMinutes := LogRetentionMinutes kafkaConfig;
        LogRetentionMs := LogRetentionMs kafkaConfig;
        LogSegmentBytes := LogSegmentBytes kafkaConfig;
        LogPreallocate := LogPreallocate kafkaConfig;
        SocketSendBufferBytes := SocketSendBufferBytes kafkaConfig;
        SocketReceiveBufferBytes := SocketReceiveBufferBytes kafkaConfig;
        AutoCreateTopicsEnable := AutoCreateTopicsEnable kafkaConfig;
        NumPartitions := NumPartitions kafkaConfig;
        DefaultReplicationFactor := DefaultReplicationFactor kafkaConfig;
        MessageMaxBytes := MessageMaxBytes kafkaConfig;
        ReplicaFetchMaxBytes := ReplicaFetchMaxBytes kafkaConfig;
        SslCipherSuites := SslCipherSuites kafkaConfig;
        OffsetsRetentionMinutes := OffsetsRetentionMinutes kafkaConfig;
        SaslEnabledMechanisms := SaslEnabledMechanisms kafkaConfig |}.

Definition expandKafkaConfig3x (d : ResourceData) : result KafkaConfig :=
  kafkaConfig ← parseKafkaConfig d;
  Ok {| CompressionType := CompressionType kafkaConfig;
        LogFlushIntervalMessages := LogFlushIntervalMessages kafkaConfig;
        LogFlushIntervalMs := LogFlushIntervalMs kafkaConfig;
        LogFlushSchedulerIntervalMs := LogFlushSchedulerIntervalMs kafkaConfig;
        LogRetentionBytes := LogRetentionBytes kafkaConfig;
        LogRetentionHours := LogRetentionHours kafkaConfig;
        LogRetentionMinutes := LogRetentionMinutes kafkaConfig;
        LogRetentionMs := LogRetentionMs kafkaConfig;
        LogSegmentBytes := LogSegmentBytes kafkaConfig;
        LogPreallocate := LogPreallocate kafkaConfig;
        SocketSendBufferBytes := SocketSendBufferBytes kafkaConfig;
        SocketReceiveBufferBytes := SocketReceiveBufferBytes kafkaConfig;
        AutoCreateTopicsEnable := AutoCreateTopicsEnable kafkaConfig;
        NumPartitions := NumPartitions kafkaConfig;
        DefaultReplicationFactor := DefaultReplicationFactor kafkaConfig;
        MessageMaxBytes := MessageMaxBytes kafkaConfig;
        ReplicaFetchMaxBytes := ReplicaFetchMaxBytes kafkaConfig;
        SslCipherSuites := SslCipherSuites kafkaConfig;
        OffsetsRetentionMinutes := OffsetsRetentionMinutes kafkaConfig;
        SaslEnabledMechanisms := SaslEnabledMechanisms kafkaConfig |}.

(** *** Topic config extractors *)

Definition parseIntTopicConfigParam (d : ResourceData) (paramPath : string)
  : RetErr (option Z) :=
  λ retErr,
    let '(str, ok) := GetOk_string d paramPath in
    if negb ok then (None, retErr)
    else if String.eqb str "" then (None, retErr)
    else
      match strconv.ParseInt str with
      | Err err =>
          (* if *retErr != nil { *retErr = err } *)
          (None, match retErr with Some _ => Some err | None => retErr end)
      | Ok i => (Some i, retErr)
      end.

Definition parseKafkaTopicConfig_ints (d : ResourceData) (key : string → string)
  : RetErr (string → Z → option bool → TopicConfig) :=
  deleteRetentionMs ← parseIntTopicConfigParam d (key "delete_retention_ms");
  fileDeleteDelayMs ← parseIntTopicConfigParam d (key "file_delete_delay_ms");
  flushMessages ← parseIntTopicConfigParam d (key "flush_messages");
  flushMs ← parseIntTopicConfigParam d (key "flush_ms");
  minCompactionLagMs ← parseIntTopicConfigParam d (key "min_compaction_lag_ms");
  retentionBytes ← parseIntTopicConfigParam d (key "retention_bytes");
  retentionMs ← parseIntTopicConfigParam d (key "retention_ms");
  maxMessageBytes ← parseIntTopicConfigParam d (key "max_message_bytes");
  minInsyncReplicas ← parseIntTopicConfigParam d (key "min_insync_replicas");
  segmentBytes ← parseIntTopicConfigParam d (key "segment_bytes");
  mret (λ cleanupPolicy compressionType preallocate,
    {| CleanupPolicy := cleanupPolicy;
       tc_CompressionType := compressionType;
       DeleteRetentionMs := deleteRetentionMs;
       FileDeleteDelayMs := fileDeleteDelayMs;
       FlushMessages := flushMessages;
       FlushMs := flushMs;
       MinCompactionLagMs := minCompactionLagMs;
       RetentionBytes := retentionBytes;
       RetentionMs := retentionMs;
       MaxMessageBytes := maxMessageBytes;
       MinInsyncReplicas := minInsyncReplicas;
       SegmentBytes := segmentBytes;
       Preallocate := preallocate |}).

Definition parseKafkaTopicConfig (d : ResourceData) (topicConfigPrefix : string)
  : result TopicConfig :=
  let key := λ key : string, topicConfigPrefix +:+ key in
  cleanupPolicy ←
    (let cleanupPolicy := Get_string d (key "cleanup_policy") in
     if negb (String.eqb cleanupPolicy "")
     then _ ← parseKafkaTopicCleanupPolicy cleanupPolicy; Ok cleanupPolicy
     else Ok "");
  compressionType ←
    (let compressionType := Get_string d (key "compression_type") in
     if negb (String.eqb compressionType "")
     then parseKafkaCompression compressionType
     else Ok 0);
  (* var retErr error *)
  let '(res, retErr) := parseKafkaTopicConfig_ints d key None in
  let preallocate :=
    let '(preallocateRaw, ok) := GetOk_bool d (key "preallocate") in
    if ok then Some preallocateRaw else None in
  match retErr with
  | Some err => Err err
  | None => Ok (res cleanupPolicy compressionType preallocate)
  end.

(** *** Cluster config *)

Definition expandKafkaResources (d : ResourceData) (rootKey : string) : Resources :=
  {| ResourcePresetId :=
       (let '(v, ok) := GetOk_string d (rootKey +:+ ".resource_preset_id") in
        if ok then v else "");
     DiskSize :=
       (let '(v, ok) := GetOk_int d (rootKey +:+ ".disk_size") in
        if ok then toBytes v else 0);
     DiskTypeId :=
       (let '(v, ok) := GetOk_string d (rootKey +:+ ".disk_type_id") in
        if ok then v else "") |}.

Definition expandKafkaAccess (d : ResourceData) : option Access :=
  let '(_, ok) := GetOkExists_block d "config.0.access" in
  if negb ok then None
  else
    Some {| DataTransfer :=
              (let '(v, ok) := GetOk_bool d "config.0.access.0.data_transfer" in
               if ok then v else false) |}.

Definition expandKafkaRestAPI (d : ResourceData) : option ConfigSpec_RestAPIConfig :=
  let '(_, ok) := GetOkExists_block d "config.0.rest_api" in
  if negb ok then None
  else
    Some {| Enabled :=
              (let '(v, ok) := GetOk_bool d "config.0.rest_api.0.enabled" in
               if ok then v else false) |}.

Definition expandKafkaDiskSizeAutoscaling (d : ResourceData) : option DiskSizeAutoscaling :=
  let '(_, ok) := GetOkExists_block d "config.0.disk_size_autoscaling" in
  if negb ok then None
  else
    Some {| DiskSizeLimit :=
              (let '(v, ok) := GetOk_int d "config.0.disk_size_autoscaling.0.disk_size_limit" in
               if ok then toBytes v else 0);
            PlannedUsageThreshold :=
              (let '(v, ok) := GetOk_int d "config.0.disk_size_autoscaling.0.planned_usage_threshold" in
               if ok then v else 0);
            EmergencyUsageThreshold :=
              (let '(v, ok) := GetOk_int d "config.0.disk_size_autoscaling.0.emergency_usage_threshold" in
               if ok then v else 0) |}.

Definition errMustSpecifyVersion : error :=
  ErrorString "you must specify version of Kafka".
Definition errVersionNotSupported : error :=
  ErrorString "this version of Kafka not supported by Terraform provider".

Definition expandKafkaConfigSpec (d : ResourceData) : result ConfigSpec :=
  let version :=
    let '(v, ok) := GetOk_string d "config.0.version" in if ok then v else "" in
  let brokersCount :=
    let '(v, ok) := GetOk_int d "config.0.brokers_count" in
    if ok then Some v else None in
  let assignPublicIp :=
    let '(v, ok) := GetOk_bool d "config.0.assign_public_ip" in if ok then v else false in
  let schemaRegistry :=
    let '(v, ok) := GetOk_bool d "config.0.schema_registry" in if ok then v else false in
  let zoneId :=
    let '(zones, ok) := GetOk_list d "config.0.zones" in if ok then zones else [] in
  let resources := expandKafkaResources d "config.0.kafka.0.resources.0" in
  kafkaConfig ←
    (if strings.HasPrefix version "3" then
       cfg ← expandKafkaConfig3x d; Ok (KafkaConfig_3 cfg)
     else if String.eqb version "2.8" then
       cfg ← expandKafkaConfig2_8 d; Ok (KafkaConfig_2_8 cfg)
     else if String.eqb version "" then Err errMustSpecifyVersion
     else Err errVersionNotSupported);
  let zookeeper :=
    let '(_, ok) := GetOk_block d "config.0.zookeeper" in
    if ok
    then Some {| Zookeeper_Resources := expandKafkaResources d "config.0.zookeeper.0.resources.0" |}
    else None in
  let kraft :=
    let '(_, ok) := GetOk_block d "config.0.kraft" in
    if ok
    then Some {| KRaft_Resources := expandKafkaResources d "config.0.kraft.0.resources.0" |}
    else None in
  Ok {| Version := version;
        Kafka := {| Kafka_Resources := resources; Kafka_KafkaConfig := Some kafkaConfig |};
        Zookeeper := zookeeper;
        ZoneId := zoneId;
        BrokersCount := brokersCount;
        AssignPublicIp := assignPublicIp;
        SchemaRegistry := schemaRegistry;
        ConfigSpec_Access := expandKafkaAccess d;
        RestApiConfig := expandKafkaRestAPI d;
        ConfigSpec_DiskSizeAutoscaling := expandKafkaDiskSizeAutoscaling d;
        Kraft := kraft |}.

(** *** Permissions *)

Definition Permission_AccessRole_String (r : Z) : string :=
  enum_String (Permission_AccessRole_name kafka) r.

Definition AllowHostsSortedToStr (allowHosts : list string) : string :=
  if Nat.eqb (length allowHosts) 0 then ""
  else strings.Join (sort.Strings allowHosts) ",".

(** The [less] closure of [sortPermissions]. *)
Definition permissionLess (permFirst permSecond : Permission) : bool :=
  String.ltb (TopicName permFirst) (TopicName permSecond)
  || (String.eqb (TopicName permFirst) (TopicName permSecond)
      && String.ltb (Permission_AccessRole_String (Role permFirst))
                    (Permission_AccessRole_String (Role permSecond)))
  || (String.eqb (TopicName permFirst) (TopicName permSecond)
      && String.eqb (Permission_AccessRole_String (Role permFirst))
                    (Permission_AccessRole_String (Role permSecond))
      && String.ltb (AllowHostsSortedToStr (AllowHosts permFirst))
                    (AllowHostsSortedToStr (AllowHosts permSecond))).

Definition sortPermissions (permissions : list Permission) : list Permission :=
  sort.Slice permissionLess permissions.

(** The tuple [sortPermissions] orders by: topic name, role string, and the
  sorted hosts joined by commas. *)
Definition permKey (p : Permission) : string * (string * string) :=
(TopicName p,
 (Permission_AccessRole_String (Role p),
  AllowHostsSortedToStr (AllowHosts p))).

(** Lexicographic "not after" on the tuples of two permissions. *)
Definition permission_le (p q : Permission) : Prop :=
permKey p = permKey q ∨ lexico (permKey p) (permKey q).

(** The body of the loop of [expandKafkaPermissions] for one block. *)
Definition expandKafkaPermission (m : PermissionBlock) : result Permission :=
  let topicName := match pb_topic_name m with Some v => v | None => "" end in
  role ← match pb_role m with
         | Some v => parseKafkaPermissionRole v
         | None => Ok 0
         end;
  let allowHosts :=
    match pb_allow_hosts m with
    | Some v => parseKafkaPermissionAllowHosts v
    | None => []
    end in
  Ok {| TopicName := topicName; Role := role; AllowHosts := allowHosts |}.

Fixpoint expandKafkaPermissions_loop (ps : list PermissionBlock)
    (res : list Permission) : result (list Permission) :=
  match ps with
  | [] => Ok res
  | p :: rest =>
      permission ← expandKafkaPermission p;
      expandKafkaPermissions_loop rest (res ++ [permission])
  end.

(** [expandKafkaPermissions(ps)], on the slice that [ps.List()] yields. *)
Definition expandKafkaPermissions (ps : list PermissionBlock)
  : result (list Permission) :=
  res ← expandKafkaPermissions_loop ps [];
  Ok (sortPermissions res).

(** *** Maintenance window *)

(** [day value should be one of ("MON", "TUE", "WED", "THU", "FRI", "SAT", "SUN")] *)
Definition errWeekDay : error :=
  let quote := String (ascii_of_nat 34) "" in
  ErrorString
    ("day value should be one of ("
     +:+ strings.Join ((λ day, quote +:+ day +:+ quote)
                         <$> ["MON"; "TUE"; "WED"; "THU"; "FRI"; "SAT"; "SUN"]) ", "
     +:+ ")").

Definition expandKafkaMaintenanceWindow (d : ResourceData)
  : result (option MaintenanceWindow) :=
  let '(_, ok) := GetOk_block d "maintenance_window" in
  if negb ok then Ok None
  else
    let '(typeMW, _) := GetOk_string d "maintenance_window.0.type" in
    if iface_eqb (IString typeMW) (IString "ANYTIME") then
      let '(hour, ok) := GetOk_int d "maintenance_window.0.hour" in
      if ok && negb (iface_eqb (IInt hour) (IString "")) then
        Err (ErrorString "hour should not be set, when using ANYTIME")
      else
        let '(day, ok) := GetOk_string d "maintenance_window.0.day" in
        if ok && negb (iface_eqb (IString day) (IString "")) then
          Err (ErrorString "day should not be set, when using ANYTIME")
        else Ok (Some {| Policy := Some MaintenanceWindow_Anytime |})
    else if iface_eqb (IString typeMW) (IString "WEEKLY") then
      let '(hour, ok) := GetOk_int d "maintenance_window.0.hour" in
      if negb ok then
        Err (ErrorString "hour should be set when using WEEKLY maintenance")
      else
        let dayString := Get_string d "maintenance_window.0.day" in
        let '(day, ok) :=
          map_index (WeeklyMaintenanceWindow_WeekDay_value kafka) dayString in
        if negb ok || (day =? 0) then
          Err errWeekDay
        else
          Ok (Some {| Policy :=
                        Some (MaintenanceWindow_WeeklyMaintenanceWindow day hour) |})
    else Err (ErrorString "maintenance_window.0.type should be ANYTIME or WEEKLY").

(** *** Flattening *)

Definition flattenKafkaDiskSizeAutoscaling (p : option DiskSizeAutoscaling)
  : list (gmap string Value) :=
  match p with
  | None => []
  | Some p =>
      let out : gmap string Value := ∅ in
      let out := <["disk_size_limit" := VInt (toGigabytes (DiskSizeLimit p))]> out in
      let out := <["planned_usage_threshold" := VInt (PlannedUsageThreshold p)]> out in
      let out := <["emergency_usage_threshold" := VInt (EmergencyUsageThreshold p)]> out in
      [out]
  end.

Definition convertSaslEnabledMechanismsToStrings (mechanisms : list Z) : list string :=
  enum_String (SaslMechanism_name kafka) <$> mechanisms.

Definition flattenKafkaConfigSettings (kafkaConfig : KafkaConfig)
  : result (gmap string Value) :=
  let res : gmap string Value := ∅ in
  let res := set_present "compression_type"
    (if CompressionType kafkaConfig =? 0 then None
     else Some (VString (enum_String (CompressionType_name kafka) (CompressionType kafkaConfig))))
    res in
  let res := set_present "log_flush_interval_messages"
    (formatInt64Value (LogFlushIntervalMessages kafkaConfig)) res in
  let res := set_present "log_flush_interval_ms"
    (formatInt64Value (LogFlushIntervalMs kafkaConfig)) res in
  let res := set_present "log_flush_scheduler_interval_ms"
    (formatInt64Value (LogFlushSchedulerIntervalMs kafkaConfig)) res in
  let res := set_present "log_retention_bytes"
    (formatInt64Value (LogRetentionBytes kafkaConfig)) res in
  let res := set_present "log_retention_hours"
    (formatInt64Value (LogRetentionHours kafkaConfig)) res in
  let res := set_present "log_retention_minutes"
    (formatInt64Value (LogRetentionMinutes kafkaConfig)) res in
  let res := set_present "log_retention_ms"
    (formatInt64Value (LogRetentionMs kafkaConfig)) res in
  let res := set_present "log_segment_bytes"
    (formatInt64Value (LogSegmentBytes kafkaConfig)) res in
  let res := set_present "socket_send_buffer_bytes"
    (formatInt64Value (SocketSendBufferBytes kafkaConfig)) res in
  let res := set_present "socket_receive_buffer_bytes"
    (formatInt64Value (SocketReceiveBufferBytes kafkaConfig)) res in
  let res := set_present "auto_create_topics_enable"
    (boolValue (AutoCreateTopicsEnable kafkaConfig)) res in
  let res := set_present "num_partitions"
    (formatInt64Value (NumPartitions kafkaConfig)) res in
  let res := set_present "default_replication_factor"
    (formatInt64Value (DefaultReplicationFactor kafkaConfig)) res in
  let res := set_present "message_max_bytes"
    (formatInt64Value (MessageMaxBytes kafkaConfig)) res in
  let res := set_present "replica_fetch_max_bytes"
    (formatInt64Value (ReplicaFetchMaxBytes kafkaConfig)) res in
  let res := set_present "ssl_cipher_suites"
    (VStrings <$> SslCipherSuites kafkaConfig) res in
  let res := set_present "offsets_retention_minutes"
    (formatInt64Value (OffsetsRetentionMinutes kafkaConfig)) res in
  let res := set_present "sasl_enabled_mechanisms"
    ((λ ms, VStrings (convertSaslEnabledMechanismsToStrings ms))
       <$> SaslEnabledMechanisms kafkaConfig) res in
  Ok res.

Definition flattenKafkaTopicConfig (topicConfig : TopicConfig) : gmap string Value :=
  let res : gmap string Value := ∅ in
  let res := set_present "compression_type"
    (if tc_CompressionType topicConfig =? 0 then None
     else Some (VString (enum_String (CompressionType_name kafka) (tc_CompressionType topicConfig))))
    res in
  let res := set_present "delete_retention_ms"
    (formatInt64Value (DeleteRetentionMs topicConfig)) res in
  let res := set_present "file_delete_delay_ms"
    (formatInt64Value (FileDeleteDelayMs topicConfig)) res in
  let res := set_present "flush_messages"
    (formatInt64Value (FlushMessages topicConfig)) res in
  let res := set_present "flush_ms"
    (formatInt64Value (FlushMs topicConfig)) res in
  let res := set_present "min_compaction_lag_ms"
    (formatInt64Value (MinCompactionLagMs topicConfig)) res in
  let res := set_present "retention_bytes"
    (formatInt64Value (RetentionBytes topicConfig)) res in
  let res := set_present "retention_ms"
    (formatInt64Value (RetentionMs topicConfig)) res in
  let res := set_present "max_message_bytes"
    (formatInt64Value (MaxMessageBytes topicConfig)) res in
  let res := set_present "min_insync_replicas"
    (formatInt64Value (MinInsyncReplicas topicConfig)) res in
  let res := set_present "segment_bytes"
    (formatInt64Value (SegmentBytes topicConfig)) res in
  let res := set_present "preallocate"
    (boolValue (Preallocate topicConfig)) res in
  res.

End Translation.

(** *** User diffing *)

(** [kafkaUsersDiff]: the two [map[string]bool] of the source hold only
    [true], the final loop ranges over [toDelete].  Go visits the keys of a
    map in an unspecified order; the model lists them in the order of
    [map_to_list], and the properties below speak of membership only. *)
Definition kafkaUsersDiff (currUsers : list User) (targetUsers : list UserSpec)
  : list string * list UserSpec :=
  let '(toDelete, m) :=
    foldl (λ '(toDelete, m) user,
             (<[User_Name user := true]> toDelete, <[User_Name user := true]> m))
          ((∅ : gmap string bool), (∅ : gmap string bool)) currUsers in
  let '(toDelete, toAdd) :=
    foldl (λ '(toDelete, toAdd) user,
             let toDelete := delete (Name user) toDelete in
             match m !! Name user with
             | None => (toDelete, toAdd ++ [user])
             | Some _ => (toDelete, toAdd)
             end)
          (toDelete, []) targetUsers in
  let toDel := (map_to_list toDelete).*1 in
  (toDel, toAdd).

(** ** Users *)

(** A declarative [user] block, [map[string]interface{}]: each of the three
    keys may be missing; the permission set is given as the slice its
    [List()] yields. *)
Record UserBlock := {
  ub_name : option string;
  ub_password : option string;
  ub_permission : option (list PermissionBlock);
}.

(** [kafkaUsersPasswords]. *)
Definition kafkaUsersPasswords (users : list UserSpec) : gmap string string :=
  foldl (λ res u, <[Name u := Password u]> res) ∅ users.

Section TranslationUsers.
Context (kafka : KafkaProto).

(** [hashcode.String], of the provider's internal hashcode package. *)
Context (hashcode_String : string → Z).

Definition userPermissionToStr (permission : Permission) : string :=
  TopicName permission +:+ ":"
  +:+ Permission_AccessRole_String kafka (Role permission) +:+ ":["
  +:+ AllowHostsSortedToStr (AllowHosts permission) +:+ "]".

Definition UserPermissionsToStr (permissions : list Permission) : string :=
  let permissions := sortPermissions kafka permissions in
  strings.Join (userPermissionToStr <$> permissions) ",".

(** The string [kafkaUserPermissionHash] writes to its buffer. *)
Definition kafkaUserPermissionHash_buf (m : PermissionBlock) : string :=
  let buf := "" in
  let buf := match pb_topic_name m with Some n => buf +:+ n +:+ "-" | None => buf end in
  let buf := match pb_role m with Some r => buf +:+ r +:+ "-" | None => buf end in
  let buf :=
    match pb_allow_hosts m with
    | Some allowHosts =>
        buf +:+ AllowHostsSortedToStr (parseKafkaPermissionAllowHosts allowHosts) +:+ "-"
    | None => buf
    end in
  buf.

Definition kafkaUserPermissionHash (v : PermissionBlock) : Z :=
  hashcode_String (kafkaUserPermissionHash_buf v).

(** The string [kafkaUserHash] writes to its buffer; the error of
    [expandKafkaPermissions] is dropped and leaves a nil slice. *)
Definition kafkaUserHash_buf (m : UserBlock) : string :=
  let buf := "" in
  let buf := match ub_name m with Some n => buf +:+ n +:+ "-" | None => buf end in
  let buf := match ub_password m with Some p => buf +:+ p +:+ "-" | None => buf end in
  let buf :=
    match ub_permission m with
    | Some ps =>
        let permissions :=
          match expandKafkaPermissions kafka ps with
          | Ok permissions => permissions
          | Err _ => []
          end in
        buf +:+ UserPermissionsToStr permissions +:+ "-"
    | None => buf
    end in
  buf.

Definition kafkaUserHash (v : UserBlock) : Z :=
  hashcode_String (kafkaUserHash_buf v).

Definition expandKafkaUser (m : UserBlock) : result UserSpec :=
  let name := match ub_name m with Some v => v | None => "" end in
  let password := match ub_password m with Some v => v | None => "" end in
  permissions ← match ub_permission m with
                | Some v => expandKafkaPermissions kafka v
                | None => Ok []
                end;
  Ok {| Name := name; Password := password; Permissions := permissions |}.

Fixpoint expandKafkaUsers_loop (users : list UserBlock) (res : list UserSpec)
  : result (list UserSpec) :=
  match users with
  | [] => Ok res
  | u :: rest =>
      user ← expandKafkaUser u;
      expandKafkaUsers_loop rest (res ++ [user])
  end.

(** [expandKafkaUsers], on the slice that [users.List()] yields. *)
Definition expandKafkaUsers (users : list UserBlock) : result (list UserSpec) :=
  res ← expandKafkaUsers_loop users [];
  Ok (sort.Slice (λ a b, String.ltb (Name a) (Name b)) res).

(** ** Maintenance window, flattening and validation *)

(** [("MON", "TUE", "WED", "THU", "FRI", "SAT", "SUN")] *)
Definition weekDayTokens : string :=
  let quote := String (ascii_of_nat 34) "" in
  "(" +:+ strings.Join ((λ day, quote +:+ day +:+ quote)
                          <$> ["MON"; "TUE"; "WED"; "THU"; "FRI"; "SAT"; "SUN"]) ", "
  +:+ ")".

(** [kafkaMaintenanceWindowSchemaValidateFunc(v, k)]: warnings and errors. *)
Definition kafkaMaintenanceWindowSchemaValidateFunc (v k : string)
  : list string * list error :=
  let dayString := v in
  let '(day, ok) := map_index (WeeklyMaintenanceWindow_WeekDay_value kafka) dayString in
  if negb ok || (day =? 0) then
    ([], [ErrorString ("expected " +:+ k +:+ " value should be one of " +:+ weekDayTokens
                       +:+ ". Current value is " +:+ v)])
  else ([], []).

Definition flattenKafkaMaintenanceWindow (mw : option MaintenanceWindow)
  : result (list (gmap string Value)) :=
  let maintenanceWindow : gmap string Value := ∅ in
  match mw with
  | None => Ok [maintenanceWindow]
  | Some mw =>
      match Policy mw with
      | Some MaintenanceWindow_Anytime =>
          let maintenanceWindow := <["type" := VString "ANYTIME"]> maintenanceWindow in
          Ok [maintenanceWindow]
      | Some (MaintenanceWindow_WeeklyMaintenanceWindow day hour) =>
          let maintenanceWindow := <["type" := VString "WEEKLY"]> maintenanceWindow in
          let maintenanceWindow := <["hour" := VInt hour]> maintenanceWindow in
          let maintenanceWindow :=
            <["day" := VString
                         (match WeeklyMaintenanceWindow_WeekDay_name kafka !! day with
                          | Some name => name
                          | None => ""
                          end)]> maintenanceWindow in
          Ok [maintenanceWindow]
      | None => Err (ErrorString "unsupported Kafka maintenance policy type")
      end
  end.

End TranslationUsers.

(** ** Access policy, REST API and resources, flattening *)

Definition flattenKafkaAccess (c : option ConfigSpec) : list (gmap string Value) :=
  let out : gmap string Value := ∅ in
  let out :=
    match c with
    | Some c =>
        match ConfigSpec_Access c with
        | Some access => <["data_transfer" := VBool (DataTransfer access)]> out
        | None => out
        end
    | None => out
    end in
  [out].

Definition flattenKafkaRestAPI (c : option ConfigSpec) : list (gmap string Value) :=
  let out : gmap string Value := ∅ in
  let out :=
    match c with
    | Some c =>
        match RestApiConfig c with
        | Some restApi => <["enabled" := VBool (Enabled restApi)]> out
        | None => out
        end
    | None => out
    end in
  [out].

(** ** Nested declarative values *)

(** A value of a flattened map that may hold nested blocks: a plain value, or
    a list of blocks ([[]map[string]interface{}]). *)
#[warnings="-register-all"]
Inductive Attr :=
  | AValue (v : Value)
  | ABlocks (blocks : list (gmap string Attr)).

(** A flat map as a block. *)
Definition block_of (m : gmap string Value) : gmap string Attr := AValue <$> m.

(** ** Cluster config, flattening *)

Definition flattenKafkaResources (r : Resources) : result (gmap string Value) :=
  let res : gmap string Value := ∅ in
  let res := <["resource_preset_id" := VString (ResourcePresetId r)]> res in
  let res := <["disk_type_id" := VString (DiskTypeId r)]> res in
  let res := <["disk_size" := VInt (toGigabytes (DiskSize r))]> res in
  Ok res.

Section FlattenConfig.
Context (kafka : KafkaProto).

Definition flattenKafkaConfig2_8Settings (r : KafkaConfig) : result (gmap string Value) :=
  flattenKafkaConfigSettings kafka r.

Definition flattenKafkaConfig3Settings (r : KafkaConfig) : result (gmap string Value) :=
  flattenKafkaConfigSettings kafka r.

(** [flattenKafkaConfig(cluster)], on the [Config] of the cluster.  The
    function dereferences [cluster.Config.Kafka] and every resources message
    without a nil test; the records hold them by value, so it is modelled on
    the clusters where these pointers are set. *)
Definition flattenKafkaConfig (Config : ConfigSpec) : result (list (gmap string Attr)) :=
  kafkaResources ← flattenKafkaResources (Kafka_Resources (Kafka Config));
  kafkaConfig ←
    match Kafka_KafkaConfig (Kafka Config) with
    | Some (KafkaConfig_2_8 cfg) => flattenKafkaConfig2_8Settings cfg
    | Some (KafkaConfig_3 cfg) => flattenKafkaConfig3Settings cfg
    | None => Ok ∅
    end;
  let config : gmap string Attr := ∅ in
  let config :=
    <["brokers_count" := AValue (VInt (default 0 (BrokersCount Config)))]> config in
  let config := <["assign_public_ip" := AValue (VBool (AssignPublicIp Config))]> config in
  let config := <["schema_registry" := AValue (VBool (SchemaRegistry Config))]> config in
  let config := <["zones" := AValue (VStrings (ZoneId Config))]> config in
  let config := <["version" := AValue (VString (Version Config))]> config in
  let config :=
    <["kafka" := ABlocks [ <["kafka_config" := ABlocks [block_of kafkaConfig]]>
                           (<["resources" := ABlocks [block_of kafkaResources]]> ∅) ]]>
      config in
  config ←
    match Zookeeper Config with
    | Some zookeeper =>
        zkResources ← flattenKafkaResources (Zookeeper_Resources zookeeper);
        Ok (<["zookeeper" := ABlocks [ <["resources" := ABlocks [block_of zkResources]]> ∅ ]]>
              config)
    | None => Ok config
    end;
  config ←
    match Kraft Config with
    | Some kraft =>
        kRaftResources ← flattenKafkaResources (KRaft_Resources kraft);
        Ok (<["kraft" := ABlocks [ <["resources" := ABlocks [block_of kRaftResources]]> ∅ ]]>
              config)
    | None => Ok config
    end;
  let config :=
    match ConfigSpec_Access Config with
    | Some _ => <["access" := ABlocks (block_of <$> flattenKafkaAccess (Some Config))]> config
    | None => config
    end in
  let config :=
    match RestApiConfig Config with
    | Some _ => <["rest_api" := ABlocks (block_of <$> flattenKafkaRestAPI (Some Config))]> config
    | None => config
    end in
  let config :=
    <["disk_size_autoscaling" :=
        ABlocks (block_of <$> flattenKafkaDiskSizeAutoscaling (ConfigSpec_DiskSizeAutoscaling Config))]>
      config in
  Ok [config].

End FlattenConfig.

(** ** Topics, flattening and expansion *)

Definition Topic_CleanupPolicy_name : gmap Z string :=
  <[0 := "CLEANUP_POLICY_UNSPECIFIED"]>
  (<[1 := "CLEANUP_POLICY_DELETE"]>
  (<[2 := "CLEANUP_POLICY_COMPACT"]>
  (<[3 := "CLEANUP_POLICY_COMPACT_AND_DELETE"]> ∅))).

(** [kafka.TopicConfig2_8] and [kafka.TopicConfig3]: the fields that the
    interface [TopicConfigSpec] reads, held as a [TopicConfig] whose own
    [CleanupPolicy] string plays no part, and the cleanup policy ordinal. *)
Record TopicConfigPb := {
  Pb_CleanupPolicy : Z;
  Pb_Spec : TopicConfig;
}.

(** The oneof [topic_config] of [Topic]. *)
Inductive Topic_TopicConfig :=
  | Topic_TopicConfig_2_8 (cfg : TopicConfigPb)
  | Topic_TopicConfig_3 (cfg : TopicConfigPb).

Record Topic := {
  Topic_Name : string;
  Topic_Partitions : option Z;
  Topic_ReplicationFactor : option Z;
  Topic_Config : option Topic_TopicConfig;
}.

Section Topics.
Context (kafka : KafkaProto).

(** The cleanup policy tables of the two engine-version shapes, of the
    generated API bindings. *)
Context (TopicConfig2_8_CleanupPolicy_value TopicConfig3_CleanupPolicy_value : gmap string Z).
Context (TopicConfig2_8_CleanupPolicy_name TopicConfig3_CleanupPolicy_name : gmap Z string).

Definition copyTopicConfig (topicConfig : TopicConfig) : TopicConfig :=
  {| CleanupPolicy := "";
     tc_CompressionType := tc_CompressionType topicConfig;
     DeleteRetentionMs := DeleteRetentionMs topicConfig;
     FileDeleteDelayMs := FileDeleteDelayMs topicConfig;
     FlushMessages := FlushMessages topicConfig;
     FlushMs := FlushMs topicConfig;
     MinCompactionLagMs := MinCompactionLagMs topicConfig;
     RetentionBytes := RetentionBytes topicConfig;
     RetentionMs := RetentionMs topicConfig;
     MaxMessageBytes := MaxMessageBytes topicConfig;
     MinInsyncReplicas := MinInsyncReplicas topicConfig;
     SegmentBytes := SegmentBytes topicConfig;
     Preallocate := Preallocate topicConfig |}.

Definition expandKafkaTopicConfig2_8 (d : ResourceData) (topicConfigPrefix : string)
  : result TopicConfigPb :=
  topicConfig ← parseKafkaTopicConfig kafka d topicConfigPrefix;
  Ok {| Pb_CleanupPolicy :=
          (map_index TopicConfig2_8_CleanupPolicy_value (CleanupPolicy topicConfig)).1;
        Pb_Spec := copyTopicConfig topicConfig |}.

Definition expandKafkaTopicConfig3x (d : ResourceData) (topicConfigPrefix : string)
  : result TopicConfigPb :=
  topicConfig ← parseKafkaTopicConfig kafka d topicConfigPrefix;
  Ok {| Pb_CleanupPolicy :=
          (map_index TopicConfig3_CleanupPolicy_value (CleanupPolicy topicConfig)).1;
        Pb_Spec := copyTopicConfig topicConfig |}.

Definition flattenKafkaTopicConfig2_8 (topicConfig : TopicConfigPb) : gmap string Value :=
  let res := flattenKafkaTopicConfig kafka (Pb_Spec topicConfig) in
  if negb (Pb_CleanupPolicy topicConfig =? 0)
  then <["cleanup_policy" :=
           VString (enum_String TopicConfig2_8_CleanupPolicy_name (Pb_CleanupPolicy topicConfig))]>
         res
  else res.

Definition flattenKafkaTopicConfig3 (topicConfig : TopicConfigPb) : gmap string Value :=
  let res := flattenKafkaTopicConfig kafka (Pb_Spec topicConfig) in
  if negb (Pb_CleanupPolicy topicConfig =? 0)
  then <["cleanup_policy" :=
           VString (enum_String TopicConfig3_CleanupPolicy_name (Pb_CleanupPolicy topicConfig))]>
         res
  else res.

(** The body of the loop of [flattenKafkaTopics] for one topic; a nil topic
    reads as the zero value of every field. *)
Definition flattenKafkaTopic (d : option Topic) : gmap string Attr :=
  let m : gmap string Attr := ∅ in
  let m := <["name" := AValue (VString (default "" (Topic_Name <$> d)))]> m in
  let m := <["partitions" := AValue (VInt (default 0 (d ≫= Topic_Partitions)))]> m in
  let m :=
    <["replication_factor" := AValue (VInt (default 0 (d ≫= Topic_ReplicationFactor)))]> m in
  let cfg : gmap string Value :=
    match d ≫= Topic_Config with
    | Some (Topic_TopicConfig_2_8 c) => flattenKafkaTopicConfig2_8 c
    | Some (Topic_TopicConfig_3 c) => flattenKafkaTopicConfig3 c
    | None => ∅
    end in
  if negb (Nat.eqb (size cfg) 0)
  then <["topic_config" := ABlocks [block_of cfg]]> m
  else m.

Definition flattenKafkaTopics (topics : list (option Topic)) : list (gmap string Attr) :=
  flattenKafkaTopic <$> topics.

End Topics.

(** ** Connectors, flattening *)

(** What a function that reads fields through a pointer without a nil test
    does: it returns, it returns an error, or it panics on a nil pointer. *)
Inductive outcome (A : Type) :=
  | Returned (a : A)
  | Errored (e : error)
  | Panicked.
Arguments Returned {A} a.
Arguments Errored {A} e.
Arguments Panicked {A}.

#[global] Instance outcome_ret : MRet outcome := λ A a, Returned a.
#[global] Instance outcome_bind : MBind outcome :=
  λ A B f m, match m with
             | Returned a => f a
             | Errored e => Errored e
             | Panicked => Panicked
             end.

(** The fields of the generated connector messages that the flatteners
    read. *)
Record ExternalClusterConnection := {
  BootstrapServers : string;
  SaslUsername : string;
  ecc_SaslMechanism : string;
  SecurityProtocol : string;
}.

(** The oneof [cluster_connection] of [ClusterConnection]; the wrapper of an
    external cluster holds a pointer. *)
Inductive isClusterConnection_ClusterConnection :=
  | ClusterConnection_ThisCluster
  | ClusterConnection_ExternalCluster (ExternalCluster : option ExternalClusterConnection).

Record ClusterConnection := {
  Alias : string;
  cc_ClusterConnection : option isClusterConnection_ClusterConnection;
}.

Record ConnectorConfigMirrorMaker := {
  SourceCluster : option ClusterConnection;
  TargetCluster : option ClusterConnection;
  mm_Topics : string;
  mm_ReplicationFactor : option Z;
}.

Record ExternalS3Storage := {
  AccessKeyId : string;
  Endpoint : string;
  Region : string;
}.

(** The oneof [storage] of [S3Connection]: the one member the bindings
    have. *)
Inductive isS3Connection_Storage :=
  | S3Connection_ExternalS3 (ExternalS3 : option ExternalS3Storage).

Record S3Connection := {
  BucketName : string;
  Storage : option isS3Connection_Storage;
}.

Record ConnectorConfigS3Sink := {
  s3_Topics : string;
  FileCompressionType : string;
  FileMaxRecords : option Z;
  s3_S3Connection : option S3Connection;
}.

Section Connectors.

(** [strconv.Quote], which [%q] of [fmt.Errorf] applies to the alias. *)
Context (strconv_Quote : string → string).

Definition errClusterConnectionType (alias : string) : error :=
  ErrorString ("cluster connection type of mirrormaker's cluster with alias "
               +:+ strconv_Quote alias +:+ " not specified").

Definition errS3ConnectionType : error :=
  ErrorString "this s3 connection type of s3-sink connector is not supported by current version of terraform provider".

Definition flattenKafkaExternalClusterConnection (ecc : option ExternalClusterConnection)
  : outcome (gmap string Value) :=
  match ecc with
  | None => Panicked
  | Some ecc =>
      Returned (<["bootstrap_servers" := VString (BootstrapServers ecc)]>
               (<["sasl_username" := VString (SaslUsername ecc)]>
               (<["sasl_mechanism" := VString (ecc_SaslMechanism ecc)]>
               (<["security_protocol" := VString (SecurityProtocol ecc)]> ∅))))
  end.

Definition flattenKafkaClusterConnection (cc : option ClusterConnection)
  : outcome (gmap string Attr) :=
  match cc with
  | None => Panicked
  | Some cc =>
      let config : gmap string Attr := <["alias" := AValue (VString (Alias cc))]> ∅ in
      match cc_ClusterConnection cc with
      | Some ClusterConnection_ThisCluster =>
          Returned (<["this_cluster" := ABlocks [∅]]> config)
      | Some (ClusterConnection_ExternalCluster ecc) =>
          external ← flattenKafkaExternalClusterConnection ecc;
          Returned (<["external_cluster" := ABlocks [block_of external]]> config)
      | None => Errored (errClusterConnectionType (Alias cc))
      end
  end.

Definition flattenKafkaConnectorMirrormaker (mm : option ConnectorConfigMirrorMaker)
  : outcome (list (gmap string Attr)) :=
  match mm with
  | None => Panicked
  | Some mm =>
      let config : gmap string Attr :=
        <["topics" := AValue (VString (mm_Topics mm))]>
        (<["replication_factor" := AValue (VInt (default 0 (mm_ReplicationFactor mm)))]> ∅) in
      sourceCluster ← flattenKafkaClusterConnection (SourceCluster mm);
      targetCluster ← flattenKafkaClusterConnection (TargetCluster mm);
      let config := <["source_cluster" := ABlocks [sourceCluster]]> config in
      let config := <["target_cluster" := ABlocks [targetCluster]]> config in
      Returned [config]
  end.

Definition flattenExternalS3Storage (externalS3 : option ExternalS3Storage)
  : outcome (gmap string Value) :=
  match externalS3 with
  | None => Panicked
  | Some externalS3 =>
      Returned (<["access_key_id" := VString (AccessKeyId externalS3)]>
               (<["endpoint" := VString (Endpoint externalS3)]>
               (<["region" := VString (Region externalS3)]> ∅)))
  end.

Definition flattenS3Connection (s3Conn : option S3Connection) : outcome (gmap string Attr) :=
  match s3Conn with
  | None => Panicked
  | Some s3Conn =>
      let config : gmap string Attr := <["bucket_name" := AValue (VString (BucketName s3Conn))]> ∅ in
      match Storage s3Conn with
      | Some (S3Connection_ExternalS3 externalS3) =>
          external ← flattenExternalS3Storage externalS3;
          Returned (<["external_s3" := ABlocks [block_of external]]> config)
      | None => Errored errS3ConnectionType
      end
  end.

Definition flattenKafkaConnectorS3Sink (s3Sink : option ConnectorConfigS3Sink)
  : outcome (list (gmap string Attr)) :=
  match s3Sink with
  | None => Panicked
  | Some s3Sink =>
      let config : gmap string Attr :=
        <["topics" := AValue (VString (s3_Topics s3Sink))]>
        (<["file_compression_type" := AValue (VString (FileCompressionType s3Sink))]>
        (<["file_max_records" := AValue (VInt (default 0 (FileMaxRecords s3Sink)))]> ∅)) in
      s3Connection ← flattenS3Connection (s3_S3Connection s3Sink);
      let config := <["s3_connection" := ABlocks [s3Connection]]> config in
      Returned [config]
  end.

End Connectors.

(** ** An instance of the API tables

    The members of the generated tables that the provider's documentation and
    examples name, with the ordinals of the API definition; every table has its
    reserved zero member. *)
Definition kafka_pb : KafkaProto :=
  {| Cluster_Environment_value :=
       list_to_map [("ENVIRONMENT_UNSPECIFIED", 0); ("PRODUCTION", 1); ("PRESTABLE", 2)];
     CompressionType_value :=
       list_to_map [("COMPRESSION_TYPE_UNSPECIFIED", 0);
                    ("COMPRESSION_TYPE_UNCOMPRESSED", 1);
                    ("COMPRESSION_TYPE_ZSTD", 2);
                    ("COMPRESSION_TYPE_LZ4", 3);
                    ("COMPRESSION_TYPE_SNAPPY", 4);
                    ("COMPRESSION_TYPE_GZIP", 5);
                    ("COMPRESSION_TYPE_PRODUCER", 6)];
     CompressionType_name :=
       list_to_map [(0, "COMPRESSION_TYPE_UNSPECIFIED");
                    (1, "COMPRESSION_TYPE_UNCOMPRESSED");
                    (2, "COMPRESSION_TYPE_ZSTD");
                    (3, "COMPRESSION_TYPE_LZ4");
                    (4, "COMPRESSION_TYPE_SNAPPY");
                    (5, "COMPRESSION_TYPE_GZIP");
                    (6, "COMPRESSION_TYPE_PRODUCER")];
     SaslMechanism_value :=
       list_to_map [("SASL_MECHANISM_UNSPECIFIED", 0);
                    ("SASL_MECHANISM_SCRAM_SHA_256", 1);
                    ("SASL_MECHANISM_SCRAM_SHA_512", 2)];
     SaslMechanism_name :=
       list_to_map [(0, "SASL_MECHANISM_UNSPECIFIED");
                    (1, "SASL_MECHANISM_SCRAM_SHA_256");
                    (2, "SASL_MECHANISM_SCRAM_SHA_512")];
     Permission_AccessRole_value :=
       list_to_map [("ACCESS_ROLE_UNSPECIFIED", 0);
                    ("ACCESS_ROLE_PRODUCER", 1);
                    ("ACCESS_ROLE_CONSUMER", 2);
                    ("ACCESS_ROLE_ADMIN", 3)];
     Permission_AccessRole_name :=
       list_to_map [(0, "ACCESS_ROLE_UNSPECIFIED");
                    (1, "ACCESS_ROLE_PRODUCER");
                    (2, "ACCESS_ROLE_CONSUMER");
                    (3, "ACCESS_ROLE_ADMIN")];
     WeeklyMaintenanceWindow_WeekDay_value :=
       list_to_map [("WEEK_DAY_UNSPECIFIED", 0); ("MON", 1); ("TUE", 2); ("WED", 3);
                    ("THU", 4); ("FRI", 5); ("SAT", 6); ("SUN", 7)];
     WeeklyMaintenanceWindow_WeekDay_name :=
       list_to_map [(0, "WEEK_DAY_UNSPECIFIED"); (1, "MON"); (2, "TUE"); (3, "WED");
                    (4, "THU"); (5, "FRI"); (6, "SAT"); (7, "SUN")] |}.

(** * Definitions used to state the properties *)

(** A tree with a Kafka server parameter that is not a number followed by
    one that is, and a tree with two such topic parameters. *)
Definition d_bad_kafka_int : ResourceData :=
  {| rd_string := {[ "config.0.kafka.0.kafka_config.0.log_flush_interval_messages" := "abc";
                     "config.0.kafka.0.kafka_config.0.num_partitions" := "12" ]};
     rd_int := ∅; rd_bool := ∅; rd_set := ∅; rd_list := ∅; rd_block := ∅ |}.

Definition d_bad_topic_int : ResourceData :=
  {| rd_string := {[ "topic.0.topic_config.0.retention_ms" := "12x";
                     "topic.0.topic_config.0.segment_bytes" := "1024" ]};
     rd_int := ∅; rd_bool := ∅; rd_set := ∅; rd_list := ∅; rd_block := ∅ |}.

(** The tree [d] with the string attribute at [path] removed. *)
Definition unset_string (d : ResourceData) (path : string) : ResourceData :=
  {| rd_string := delete path (rd_string d);
     rd_int := rd_int d; rd_bool := rd_bool d; rd_set := rd_set d;
     rd_list := rd_list d; rd_block := rd_block d |}.

(** A tree that declares nothing but the Kafka version. *)
Definition d_version (version : string) : ResourceData :=
  {| rd_string := {[ "config.0.version" := version ]};
     rd_int := ∅; rd_bool := ∅; rd_set := ∅; rd_list := ∅; rd_block := ∅ |}.

(** A weekly maintenance window on Monday at hour 3. *)
Definition d_weekly_mon_3 : ResourceData :=
  {| rd_string := {[ "maintenance_window.0.type" := "WEEKLY";
                     "maintenance_window.0.day" := "MON" ]};
     rd_int := {[ "maintenance_window.0.hour" := 3 ]};
     rd_bool := ∅; rd_set := ∅; rd_list := ∅;
     rd_block := {[ "maintenance_window" := 1%nat ]} |}.

(** The integer at [path], zero when it is not set. *)
Definition Get_int (d : ResourceData) (path : string) : Z := (GetOk_int d path).1.

(** The integer-as-string parameters of the Kafka server config. *)
Inductive KafkaIntParam :=
  | log_flush_interval_messages
  | log_flush_interval_ms
  | log_flush_scheduler_interval_ms
  | log_retention_bytes
  | log_retention_hours
  | log_retention_minutes
  | log_retention_ms
  | log_segment_bytes
  | socket_send_buffer_bytes
  | socket_receive_buffer_bytes
  | num_partitions
  | default_replication_factor
  | message_max_bytes
  | replica_fetch_max_bytes
  | offsets_retention_minutes.

Definition kafkaIntParam_name (p : KafkaIntParam) : string :=
  match p with
  | log_flush_interval_messages => "log_flush_interval_messages"
  | log_flush_interval_ms => "log_flush_interval_ms"
  | log_flush_scheduler_interval_ms => "log_flush_scheduler_interval_ms"
  | log_retention_bytes => "log_retention_bytes"
  | log_retention_hours => "log_retention_hours"
  | log_retention_minutes => "log_retention_minutes"
  | log_retention_ms => "log_retention_ms"
  | log_segment_bytes => "log_segment_bytes"
  | socket_send_buffer_bytes => "socket_send_buffer_bytes"
  | socket_receive_buffer_bytes => "socket_receive_buffer_bytes"
  | num_partitions => "num_partitions"
  | default_replication_factor => "default_replication_factor"
  | message_max_bytes => "message_max_bytes"
  | replica_fetch_max_bytes => "replica_fetch_max_bytes"
  | offsets_retention_minutes => "offsets_retention_minutes"
  end.

Definition kafkaIntParam_get (p : KafkaIntParam) : KafkaConfig → option Z :=
  match p with
  | log_flush_interval_messages => LogFlushIntervalMessages
  | log_flush_interval_ms => LogFlushIntervalMs
  | log_flush_scheduler_interval_ms => LogFlushSchedulerIntervalMs
  | log_retention_bytes => LogRetentionBytes
  | log_retention_hours => LogRetentionHours
  | log_retention_minutes => LogRetentionMinutes
  | log_retention_ms => LogRetentionMs
  | log_segment_bytes => LogSegmentBytes
  | socket_send_buffer_bytes => SocketSendBufferBytes
  | socket_receive_buffer_bytes => SocketReceiveBufferBytes
  | num_partitions => NumPartitions
  | default_replication_factor => DefaultReplicationFactor
  | message_max_bytes => MessageMaxBytes
  | replica_fetch_max_bytes => ReplicaFetchMaxBytes
  | offsets_retention_minutes => OffsetsRetentionMinutes
  end.

(** The integer-as-string parameters of a topic config. *)
Inductive TopicIntParam :=
  | delete_retention_ms
  | file_delete_delay_ms
  | flush_messages
  | flush_ms
  | min_compaction_lag_ms
  | retention_bytes
  | retention_ms
  | max_message_bytes
  | min_insync_replicas
  | segment_bytes.

Definition topicIntParam_name (p : TopicIntParam) : string :=
  match p with
  | delete_retention_ms => "delete_retention_ms"
  | file_delete_delay_ms => "file_delete_delay_ms"
  | flush_messages => "flush_messages"
  | flush_ms => "flush_ms"
  | min_compaction_lag_ms => "min_compaction_lag_ms"
  | retention_bytes => "retention_bytes"
  | retention_ms => "retention_ms"
  | max_message_bytes => "max_message_bytes"
  | min_insync_replicas => "min_insync_replicas"
  | segment_bytes => "segment_bytes"
  end.

Definition topicIntParam_get (p : TopicIntParam) : TopicConfig → option Z :=
  match p with
  | delete_retention_ms => DeleteRetentionMs
  | file_delete_delay_ms => FileDeleteDelayMs
  | flush_messages => FlushMessages
  | flush_ms => FlushMs
  | min_compaction_lag_ms => MinCompactionLagMs
  | retention_bytes => RetentionBytes
  | retention_ms => RetentionMs
  | max_message_bytes => MaxMessageBytes
  | min_insync_replicas => MinInsyncReplicas
  | segment_bytes => SegmentBytes
  end.

(** A Kafka server config whose only populated field is the log_preallocate
    wrapper. *)
Definition kafkaConfig_log_preallocate : KafkaConfig :=
  {| CompressionType := 0;
     LogFlushIntervalMessages := None; LogFlushIntervalMs := None;
     LogFlushSchedulerIntervalMs := None; LogRetentionBytes := None;
     LogRetentionHours := None; LogRetentionMinutes := None;
     LogRetentionMs := None; LogSegmentBytes := None;
     LogPreallocate := Some true;
     SocketSendBufferBytes := None; SocketReceiveBufferBytes := None;
     AutoCreateTopicsEnable := None; NumPartitions := None;
     DefaultReplicationFactor := None; MessageMaxBytes := None;
     ReplicaFetchMaxBytes := None; SslCipherSuites := None;
     OffsetsRetentionMinutes := None; SaslEnabledMechanisms := None |}.

(** A tree whose only Kafka server parameter is a retention of zero, and the
    config it parses to. *)
Definition d_retention_zero : ResourceData :=
  {| rd_string := {[ "config.0.kafka.0.kafka_config.0.log_retention_ms" := "0" ]};
     rd_int := ∅; rd_bool := ∅; rd_set := ∅; rd_list := ∅; rd_block := ∅ |}.

Definition kafkaConfig_retention_zero : KafkaConfig :=
  {| CompressionType := 0;
     LogFlushIntervalMessages := None; LogFlushIntervalMs := None;
     LogFlushSchedulerIntervalMs := None; LogRetentionBytes := None;
     LogRetentionHours := None; LogRetentionMinutes := None;
     LogRetentionMs := Some 0; LogSegmentBytes := None;
     LogPreallocate := None;
     SocketSendBufferBytes := None; SocketReceiveBufferBytes := None;
     AutoCreateTopicsEnable := None; NumPartitions := None;
     DefaultReplicationFactor := None; MessageMaxBytes := None;
     ReplicaFetchMaxBytes := None; SslCipherSuites := None;
     OffsetsRetentionMinutes := None; SaslEnabledMechanisms := None |}.

(** Two blocks on the same topic and role, one with the single host "a,b",
    the other with the two hosts "a" and "b": their tuples coincide. *)
Definition block_one_host : PermissionBlock :=
  {| pb_topic_name := Some "events"; pb_role := Some "ACCESS_ROLE_CONSUMER";
     pb_allow_hosts := Some ["a,b"] |}.
Definition block_two_hosts : PermissionBlock :=
  {| pb_topic_name := Some "events"; pb_role := Some "ACCESS_ROLE_CONSUMER";
     pb_allow_hosts := Some ["b"; "a"] |}.

(** Two blocks with different tuples, and the permissions they expand to. *)
Definition block_events : PermissionBlock :=
  {| pb_topic_name := Some "events"; pb_role := Some "ACCESS_ROLE_PRODUCER";
     pb_allow_hosts := Some ["host2.db.yandex.net"; "host1.db.yandex.net"] |}.
Definition block_audit : PermissionBlock :=
  {| pb_topic_name := Some "audit"; pb_role := Some "ACCESS_ROLE_CONSUMER";
     pb_allow_hosts := None |}.
Definition permission_events : Permission :=
  {| TopicName := "events"; Role := 1;
     AllowHosts := ["host1.db.yandex.net"; "host2.db.yandex.net"] |}.
Definition permission_audit : Permission :=
  {| TopicName := "audit"; Role := 2; AllowHosts := [] |}.

(** ** Further definitions used to state the properties *)

(** The value of the digits of [d] read after the value [n]. *)
Fixpoint digits_value (d : Decimal.uint) (n : Z) : Z :=
  match d with
  | Decimal.Nil => n
  | Decimal.D0 l => digits_value l (n * 10 + 0)
  | Decimal.D1 l => digits_value l (n * 10 + 1)
  | Decimal.D2 l => digits_value l (n * 10 + 2)
  | Decimal.D3 l => digits_value l (n * 10 + 3)
  | Decimal.D4 l => digits_value l (n * 10 + 4)
  | Decimal.D5 l => digits_value l (n * 10 + 5)
  | Decimal.D6 l => digits_value l (n * 10 + 6)
  | Decimal.D7 l => digits_value l (n * 10 + 7)
  | Decimal.D8 l => digits_value l (n * 10 + 8)
  | Decimal.D9 l => digits_value l (n * 10 + 9)
  end.

(** The string of a permission is a function of its sort tuple. *)
Definition tupleToStr (key : string * (string * string)) : string :=
  key.1 +:+ ":" +:+ key.2.1 +:+ ":[" +:+ key.2.2 +:+ "]".

(** The string a flattened map holds under [key], if it holds a string. *)
Definition string_attr (res : gmap string Value) (key : string) : option string :=
  match res !! key with
  | Some (VString s) => Some s
  | _ => None
  end.

(** The tree [d] with the set attribute at [path] set to [l]. *)
Definition with_set (d : ResourceData) (path : string) (l : list string) : ResourceData :=
  {| rd_string := rd_string d; rd_int := rd_int d; rd_bool := rd_bool d;
     rd_set := <[path := l]> (rd_set d);
     rd_list := rd_list d; rd_block := rd_block d |}.

(** What [flattenKafkaClusterConnection] returns for a cluster connection
    whose connection type is set: a block [m] with the alias and, for this
    cluster, one empty this_cluster block and no external_cluster; for an
    external cluster, no this_cluster and one external_cluster block whose
    keys are the four of the connection.  No block answers a connection with
    no type or with a nil external cluster. *)
Definition cluster_block (cc : ClusterConnection) (m : gmap string Attr) : Prop :=
  m !! "alias" = Some (AValue (VString (Alias cc)))
  ∧ match cc_ClusterConnection cc with
    | Some ClusterConnection_ThisCluster =>
        m !! "this_cluster" = Some (ABlocks [∅]) ∧ m !! "external_cluster" = None
    | Some (ClusterConnection_ExternalCluster (Some ecc)) =>
        m !! "this_cluster" = None
        ∧ ∃ external,
            m !! "external_cluster" = Some (ABlocks [external])
            ∧ external !! "bootstrap_servers" = Some (AValue (VString (BootstrapServers ecc)))
            ∧ external !! "sasl_username" = Some (AValue (VString (SaslUsername ecc)))
            ∧ external !! "sasl_mechanism" = Some (AValue (VString (ecc_SaslMechanism ecc)))
            ∧ external !! "security_protocol"
              = Some (AValue (VString (SecurityProtocol ecc)))
            ∧ ∀ key, is_Some (external !! key)
                     ↔ key ∈ ["bootstrap_servers"; "sasl_username"; "sasl_mechanism";
                              "security_protocol"]
    | Some (ClusterConnection_ExternalCluster None) | None => False
    end.

(** A cluster connection that flattens: it is set and so is its connection
    type, to this cluster or to an external cluster that is not nil. *)
Definition cluster_typed (cc : option ClusterConnection) : Prop :=
  ∃ c, cc = Some c
       ∧ (cc_ClusterConnection c = Some ClusterConnection_ThisCluster
          ∨ ∃ ecc, cc_ClusterConnection c
                   = Some (ClusterConnection_ExternalCluster (Some ecc))).

(** A cluster connection whose flattening dereferences a nil pointer: the
    connection itself, or the external cluster its wrapper holds. *)
Definition cluster_nil (cc : option ClusterConnection) : Prop :=
  match cc with
  | None => True
  | Some cc => cc_ClusterConnection cc = Some (ClusterConnection_ExternalCluster None)
  end.

(** A cluster connection with no connection type. *)
Definition cluster_untyped (cc : option ClusterConnection) (alias : string) : Prop :=
  ∃ c, cc = Some c ∧ cc_ClusterConnection c = None ∧ Alias c = alias.

(** Nothing of a topic config is set. *)
Definition topicConfig_unset (c : TopicConfigPb) : Prop :=
  Pb_CleanupPolicy c = 0
  ∧ tc_CompressionType (Pb_Spec c) = 0
  ∧ (∀ p, topicIntParam_get p (Pb_Spec c) = None)
  ∧ Preallocate (Pb_Spec c) = None.

(** A topic config whose only field is a segment size of 1024 bytes. *)
Definition topicConfig_segment_1024 : TopicConfig :=
  {| CleanupPolicy := ""; tc_CompressionType := 0;
     DeleteRetentionMs := None; FileDeleteDelayMs := None; FlushMessages := None;
     FlushMs := None; MinCompactionLagMs := None; RetentionBytes := None;
     RetentionMs := None; MaxMessageBytes := None; MinInsyncReplicas := None;
     SegmentBytes := Some 1024; Preallocate := None |}.

(** A topic whose config declares the compacting cleanup policy only. *)
Definition d_topic_compact : ResourceData :=
  {| rd_string := {[ "topic.0.topic_config.0.cleanup_policy" := "CLEANUP_POLICY_COMPACT" ]};
     rd_int := ∅; rd_bool := ∅; rd_set := ∅; rd_list := ∅; rd_block := ∅ |}.



(** A tree with a disk autoscaling block: a limit of 100 gigabytes and the
    thresholds 70 and 90. *)
Definition d_disk_size_autoscaling : ResourceData :=
  {| rd_string := ∅;
     rd_int := {[ "config.0.disk_size_autoscaling.0.disk_size_limit" := 100;
                  "config.0.disk_size_autoscaling.0.planned_usage_threshold" := 70;
                  "config.0.disk_size_autoscaling.0.emergency_usage_threshold" := 90 ]};
     rd_bool := ∅; rd_set := ∅; rd_list := ∅;
     rd_block := {[ "config.0.disk_size_autoscaling" := 1%nat ]} |}.

(** * Properties *)

(** ** Enumeration parsers *)

Section EnumerationParsers.
Context (kafka : KafkaProto).

Lemma parseKafkaCompression_unspecified :
  parseKafkaCompression kafka "COMPRESSION_TYPE_UNSPECIFIED"
  = Err (EnumValueError "compression_type" "COMPRESSION_TYPE_UNSPECIFIED").
Proof.
  unfold parseKafkaCompression.
  destruct (map_index _ _) as [v ok]. by rewrite orb_true_r.
Qed.

Lemma parseKafkaSaslMechanism_unspecified :
  parseKafkaSaslMechanism kafka "SASL_MECHANISM_UNSPECIFIED"
  = Err (EnumValueError "sasl_mechanism" "SASL_MECHANISM_UNSPECIFIED").
Proof.
  unfold parseKafkaSaslMechanism.
  destruct (map_index _ _) as [v ok]. by rewrite orb_true_r.
Qed.

Lemma parseKafkaTopicCleanupPolicy_unspecified :
  parseKafkaTopicCleanupPolicy "CLEANUP_POLICY_UNSPECIFIED"
  = Err (EnumValueError "cleanup_policy" "CLEANUP_POLICY_UNSPECIFIED").
Proof. reflexivity. Qed.

(** The environment and permission-role parsers accept exactly the keys of
    their table. *)
Lemma parseKafkaEnv_Ok e v :
  parseKafkaEnv kafka e = Ok v ↔ Cluster_Environment_value kafka !! e = Some v.
Proof.
  unfold parseKafkaEnv, map_index.
  destruct (_ !! e); simpl; split; congruence.
Qed.

Lemma parseKafkaPermissionRole_Ok e v :
  parseKafkaPermissionRole kafka e = Ok v
  ↔ Permission_AccessRole_value kafka !! e = Some v.
Proof.
  unfold parseKafkaPermissionRole, map_index.
  destruct (_ !! e); simpl; split; congruence.
Qed.

End EnumerationParsers.

(** C2. Of the five enumeration parsers, those of the compression type, the
    SASL mechanism and the topic cleanup policy reject the reserved
    "unspecified" member of their table; those of the deployment environment
    and of the permission role return its ordinal, zero, without an error. *)
Theorem C2_unspecified_sentinel :
  is_Err (parseKafkaCompression kafka_pb "COMPRESSION_TYPE_UNSPECIFIED")
  ∧ is_Err (parseKafkaSaslMechanism kafka_pb "SASL_MECHANISM_UNSPECIFIED")
  ∧ is_Err (parseKafkaTopicCleanupPolicy "CLEANUP_POLICY_UNSPECIFIED")
  ∧ Cluster_Environment_value kafka_pb !! "ENVIRONMENT_UNSPECIFIED" = Some 0
  ∧ parseKafkaEnv kafka_pb "ENVIRONMENT_UNSPECIFIED" = Ok 0
  ∧ Permission_AccessRole_value kafka_pb !! "ACCESS_ROLE_UNSPECIFIED" = Some 0
  ∧ parseKafkaPermissionRole kafka_pb "ACCESS_ROLE_UNSPECIFIED" = Ok 0.
Proof.
  rewrite parseKafkaCompression_unspecified, parseKafkaSaslMechanism_unspecified,
    parseKafkaTopicCleanupPolicy_unspecified.
  repeat split; by vm_compute.
Qed.

(** ** Scalar extractors *)

Section ScalarExtractors.
Context (kafka : KafkaProto).

(** A [retErr] that is nil when an extractor is entered is nil when it
    returns: the guard [*retErr != nil] never lets the first failure in. *)
Lemma parseIntKafkaConfigParam_retErr_nil d paramName :
  (parseIntKafkaConfigParam d paramName None).2 = None.
Proof.
  unfold parseIntKafkaConfigParam.
  destruct (GetOk_string d _) as [v []]; simpl; [|done].
  by destruct (strconv.ParseInt v).
Qed.

Lemma parseIntTopicConfigParam_retErr_nil d paramPath :
  (parseIntTopicConfigParam d paramPath None).2 = None.
Proof.
  unfold parseIntTopicConfigParam.
  destruct (GetOk_string d _) as [v []]; simpl; [|done].
  destruct (String.eqb v ""); [done|].
  by destruct (strconv.ParseInt v).
Qed.

Lemma RetErr_bind_nil {A B} (m : RetErr A) (f : A → RetErr B) :
  (m None).2 = None → (m ≫= f) None = f (m None).1 None.
Proof.
  unfold mbind, RetErr_bind. destruct (m None) as [a s]; simpl. by intros ->.
Qed.

Lemma parseKafkaConfig_ints_retErr_nil d :
  (parseKafkaConfig_ints d None).2 = None.
Proof.
  unfold parseKafkaConfig_ints.
  repeat (rewrite RetErr_bind_nil by apply parseIntKafkaConfigParam_retErr_nil).
  reflexivity.
Qed.

Lemma parseKafkaTopicConfig_ints_retErr_nil d key :
  (parseKafkaTopicConfig_ints d key None).2 = None.
Proof.
  unfold parseKafkaTopicConfig_ints.
  repeat (rewrite RetErr_bind_nil by apply parseIntTopicConfigParam_retErr_nil).
  reflexivity.
Qed.

Lemma parseSaslEnabledMechanisms_loop_Err l acc e :
  parseSaslEnabledMechanisms_loop kafka l acc = Err e →
  ∃ got, e = EnumValueError "sasl_mechanism" got.
Proof.
  revert acc. induction l as [|m l IH]; intros acc; simpl; [done|].
  unfold parseKafkaSaslMechanism at 1.
  destruct (map_index _ m) as [v ok].
  destruct (negb ok || _); simpl; [|by apply IH].
  intros [= <-]. by eexists.
Qed.

(** Whatever [parseKafkaConfig] fails with, it is the rejection of an
    enumeration token and never the failure of an integer conversion. *)
Lemma parseKafkaConfig_Err d e :
  parseKafkaConfig kafka d = Err e → ∃ attr got, e = EnumValueError attr got.
Proof.
  unfold parseKafkaConfig.
  pose proof (parseKafkaConfig_ints_retErr_nil d) as Hnil.
  destruct (parseKafkaConfig_ints d None) as [res retErr]. simpl in Hnil. subst retErr.
  assert (∀ r : result Z,
    (∀ e', r = Err e' → ∃ attr got, e' = EnumValueError attr got) →
    ∀ k : Z → result KafkaConfig,
    (∀ c e', k c = Err e' → ∃ attr got, e' = EnumValueError attr got) →
    (r ≫= k) = Err e → ∃ attr got, e = EnumValueError attr got) as Hbind.
  { intros [c|e'] Hr k Hk; simpl; [apply Hk|]. intros [= <-]. by apply Hr. }
  apply Hbind.
  - destruct (GetOk_string d _) as [v []]; [|done].
    unfold parseKafkaCompression. destruct (map_index _ v) as [c ok].
    destruct (negb ok || _); [|done]. intros e' [= <-]. by do 2 eexists.
  - intros c e'.
    destruct (GetOk_bool d _) as [b okb], (GetOk_set d (_ +:+ ".ssl_cipher_suites")) as [ss oks].
    destruct (GetOk_set d _) as [ms [|]]; simpl; [|done].
    unfold parseSaslEnabledMechanisms.
    destruct (parseSaslEnabledMechanisms_loop _ _ _) as [l|e''] eqn:Hl; simpl; [done|].
    intros [= <-]. apply parseSaslEnabledMechanisms_loop_Err in Hl as [got ->].
    by do 2 eexists.
Qed.

End ScalarExtractors.

(** C1. On a tree in which an integer-as-string field does not parse
    ("abc" for log_flush_interval_messages, "12x" for a topic's retention_ms)
    neither extraction pass returns an error: the failing field comes back
    absent inside a successful result, next to the fields extracted after
    it. *)
Theorem C1_conversion_failure_is_dropped :
  is_Err (strconv.ParseInt "abc")
  ∧ (∃ res, parseKafkaConfig kafka_pb d_bad_kafka_int = Ok res
            ∧ LogFlushIntervalMessages res = None
            ∧ NumPartitions res = Some 12)
  ∧ is_Err (strconv.ParseInt "12x")
  ∧ (∃ res, parseKafkaTopicConfig kafka_pb d_bad_topic_int "topic.0.topic_config.0." = Ok res
            ∧ RetentionMs res = None
            ∧ SegmentBytes res = Some 1024).
Proof.
  split; [exact I|]. split; [eexists; repeat split; by vm_compute|].
  split; [exact I|]. eexists; repeat split; by vm_compute.
Qed.

(** C9. A topic-config integer parameter that is present in the tree as the
    empty string is extracted as the absent marker, with [retErr] left as it
    was: exactly what the extractor does on the tree without the attribute. *)
Theorem C9_empty_string_is_absent (d : ResourceData) (paramPath : string)
    (retErr : option error) :
  rd_string d !! paramPath = Some "" →
  parseIntTopicConfigParam d paramPath retErr = (None, retErr)
  ∧ parseIntTopicConfigParam d paramPath retErr
    = parseIntTopicConfigParam (unset_string d paramPath) paramPath retErr.
Proof.
  intros Hd. unfold parseIntTopicConfigParam, GetOk_string; simpl.
  by rewrite Hd, lookup_delete_eq.
Qed.

Lemma C9_empty_string_is_absent_witness :
  parseIntTopicConfigParam
    {| rd_string := {[ "topic.0.topic_config.0.flush_ms" := "" ]};
       rd_int := ∅; rd_bool := ∅; rd_set := ∅; rd_list := ∅; rd_block := ∅ |}
    "topic.0.topic_config.0.flush_ms" None
  = (None, None).
Proof.
  exact (proj1 (C9_empty_string_is_absent
    {| rd_string := {[ "topic.0.topic_config.0.flush_ms" := "" ]};
       rd_int := ∅; rd_bool := ∅; rd_set := ∅; rd_list := ∅; rd_block := ∅ |}
    "topic.0.topic_config.0.flush_ms" None eq_refl)).
Defined.

(** ** Version dispatch *)

Section VersionDispatch.
Context (kafka : KafkaProto).

Lemma GetOk_string_value d path :
  (let '(v, ok) := GetOk_string d path in if ok then v else "") = Get_string d path.
Proof.
  unfold Get_string, GetOk_string.
  destruct (rd_string d !! path) as [s|]; simpl; [|done].
  by destruct (String.eqb_spec s "").
Qed.

(** C3. [expandKafkaConfigSpec] dispatches on the declared version: "2.8"
    populates the 2.8-shaped Kafka config and a version starting with "3" the
    3.x-shaped one (each with what the corresponding builder returns, whose
    error is passed on); the empty version fails with "you must specify
    version" and every other version with "not supported"; on success
    exactly one of the two shapes is populated. *)
Theorem C3_version_dispatch (d : ResourceData) :
  let version := Get_string d "config.0.version" in
  (version = "2.8" →
     match expandKafkaConfig2_8 kafka d with
     | Ok cfg => ∃ spec, expandKafkaConfigSpec kafka d = Ok spec
                         ∧ Version spec = "2.8"
                         ∧ Kafka_KafkaConfig (Kafka spec) = Some (KafkaConfig_2_8 cfg)
     | Err e => expandKafkaConfigSpec kafka d = Err e
     end)
  ∧ (strings.HasPrefix version "3" = true →
     match expandKafkaConfig3x kafka d with
     | Ok cfg => ∃ spec, expandKafkaConfigSpec kafka d = Ok spec
                         ∧ Version spec = version
                         ∧ Kafka_KafkaConfig (Kafka spec) = Some (KafkaConfig_3 cfg)
     | Err e => expandKafkaConfigSpec kafka d = Err e
     end)
  ∧ (version = "" → expandKafkaConfigSpec kafka d = Err errMustSpecifyVersion)
  ∧ (strings.HasPrefix version "3" = false → version ≠ "2.8" → version ≠ "" →
     expandKafkaConfigSpec kafka d = Err errVersionNotSupported)
  ∧ (∀ spec, expandKafkaConfigSpec kafka d = Ok spec →
     ∃ cfg, Kafka_KafkaConfig (Kafka spec) = Some (KafkaConfig_2_8 cfg)
            ∨ Kafka_KafkaConfig (Kafka spec) = Some (KafkaConfig_3 cfg)).
Proof.
  intros version. unfold expandKafkaConfigSpec.
  rewrite GetOk_string_value. fold version.
  repeat split.
  - intros ->. change (strings.HasPrefix "2.8" "3") with false.
    change (String.eqb "2.8" "2.8") with true. cbv iota.
    destruct (expandKafkaConfig2_8 kafka d) as [cfg|e]; simpl; eauto.
  - intros ->.
    destruct (expandKafkaConfig3x kafka d) as [cfg|e]; simpl; eauto.
  - intros ->. reflexivity.
  - intros -> Hne28 Hne.
    apply String.eqb_neq in Hne28 as ->. apply String.eqb_neq in Hne as ->.
    reflexivity.
  - intros spec.
    destruct (strings.HasPrefix version "3").
    + destruct (expandKafkaConfig3x kafka d) as [cfg|e]; simpl; [|done].
      intros [= <-]. eauto.
    + destruct (String.eqb version "2.8").
      * destruct (expandKafkaConfig2_8 kafka d) as [cfg|e]; simpl; [|done].
        intros [= <-]. eauto.
      * by destruct (String.eqb version "").
Qed.

End VersionDispatch.

Lemma C3_version_dispatch_witness :
  expandKafkaConfigSpec kafka_pb (d_version "") = Err errMustSpecifyVersion
  ∧ expandKafkaConfigSpec kafka_pb (d_version "1.0") = Err errVersionNotSupported.
Proof.
  split.
  - exact (proj1 (proj2 (proj2 (C3_version_dispatch kafka_pb (d_version "")))) eq_refl).
  - apply (proj1 (proj2 (proj2 (proj2 (C3_version_dispatch kafka_pb (d_version "1.0")))))).
    + reflexivity.
    + discriminate.
    + discriminate.
Defined.

Example expandKafkaConfigSpec_2_8 :
  ∃ spec cfg, expandKafkaConfigSpec kafka_pb (d_version "2.8") = Ok spec
    ∧ Kafka_KafkaConfig (Kafka spec) = Some (KafkaConfig_2_8 cfg).
Proof. do 2 eexists. split; by vm_compute. Qed.

Example expandKafkaConfigSpec_3_0 :
  ∃ spec cfg, expandKafkaConfigSpec kafka_pb (d_version "3.0") = Ok spec
    ∧ Kafka_KafkaConfig (Kafka spec) = Some (KafkaConfig_3 cfg).
Proof. do 2 eexists. split; by vm_compute. Qed.

Example expandKafkaConfigSpec_3_5 :
  ∃ spec cfg, expandKafkaConfigSpec kafka_pb (d_version "3.5") = Ok spec
    ∧ Kafka_KafkaConfig (Kafka spec) = Some (KafkaConfig_3 cfg).
Proof. do 2 eexists. split; by vm_compute. Qed.

(** ** Maintenance window *)

Lemma GetOk_string_eq d path :
  GetOk_string d path
  = (Get_string d path, negb (String.eqb (Get_string d path) "")).
Proof.
  unfold Get_string, GetOk_string. by destruct (rd_string d !! path).
Qed.

Section MaintenanceWindow.
Context (kafka : KafkaProto).

(** C6. With a maintenance_window block in the tree: type "ANYTIME" with the
    hour set (to a non-zero value) or the day set (to a non-empty string) is
    an error; type "WEEKLY" with day "MON" (ordinal 1) and hour 3 yields the
    weekly window of day 1 and hour 3; type "WEEKLY" with no day, or with a
    day of the reserved zero ordinal, is an error; any other type is an
    error. *)
Theorem C6_maintenance_window (d : ResourceData) (n : nat) :
  rd_block d !! "maintenance_window" = Some (S n) →
  let typeMW := Get_string d "maintenance_window.0.type" in
  let day := Get_string d "maintenance_window.0.day" in
  (typeMW = "ANYTIME" →
     (∀ hour, rd_int d !! "maintenance_window.0.hour" = Some hour → hour ≠ 0 →
        expandKafkaMaintenanceWindow kafka d
        = Err (ErrorString "hour should not be set, when using ANYTIME"))
     ∧ (day ≠ "" → is_Err (expandKafkaMaintenanceWindow kafka d)))
  ∧ (typeMW = "WEEKLY" →
     (WeeklyMaintenanceWindow_WeekDay_value kafka !! "MON" = Some 1 →
      day = "MON" → rd_int d !! "maintenance_window.0.hour" = Some 3 →
        expandKafkaMaintenanceWindow kafka d
        = Ok (Some {| Policy := Some (MaintenanceWindow_WeeklyMaintenanceWindow 1 3) |}))
     ∧ (WeeklyMaintenanceWindow_WeekDay_value kafka !! "" = None →
        rd_string d !! "maintenance_window.0.day" = None →
        is_Err (expandKafkaMaintenanceWindow kafka d))
     ∧ (WeeklyMaintenanceWindow_WeekDay_value kafka !! day = Some 0 →
        is_Err (expandKafkaMaintenanceWindow kafka d)))
  ∧ (typeMW ≠ "ANYTIME" → typeMW ≠ "WEEKLY" →
     expandKafkaMaintenanceWindow kafka d
     = Err (ErrorString "maintenance_window.0.type should be ANYTIME or WEEKLY")).
Proof.
  intros Hblock typeMW day.
  unfold expandKafkaMaintenanceWindow, GetOk_block. rewrite Hblock.
  rewrite !GetOk_string_eq. fold typeMW day. cbn [Nat.eqb negb iface_eqb].
  split; [|split].
  - intros ->. cbn [String.eqb Ascii.eqb Bool.eqb]. split.
    + intros hour Hh Hne. unfold GetOk_int. rewrite Hh.
      apply Z.eqb_neq in Hne as ->. reflexivity.
    + intros Hne. destruct (GetOk_int d _) as [hour []]; [exact I|].
      apply String.eqb_neq in Hne as ->. exact I.
  - intros ->. cbn [String.eqb Ascii.eqb Bool.eqb]. repeat split.
    + intros Hmon -> Hh. unfold GetOk_int, map_index. by rewrite Hh, Hmon.
    + intros Hempty Hd. unfold day, Get_string, GetOk_string, map_index.
      rewrite Hd. cbn [fst]. rewrite Hempty.
      by destruct (GetOk_int d _) as [hour []].
    + intros Hzero. unfold map_index. rewrite Hzero.
      by destruct (GetOk_int d _) as [hour []].
  - intros Hany Hweekly.
    apply String.eqb_neq in Hany as ->. by apply String.eqb_neq in Hweekly as ->.
Qed.

End MaintenanceWindow.

Lemma C6_maintenance_window_witness :
  expandKafkaMaintenanceWindow kafka_pb d_weekly_mon_3
  = Ok (Some {| Policy := Some (MaintenanceWindow_WeeklyMaintenanceWindow 1 3) |}).
Proof.
  apply (proj1 (proj1 (proj2 (C6_maintenance_window kafka_pb d_weekly_mon_3 0 eq_refl))
                 eq_refl));
    reflexivity.
Defined.

Example expandKafkaMaintenanceWindow_anytime_hour :
  expandKafkaMaintenanceWindow kafka_pb
    {| rd_string := {[ "maintenance_window.0.type" := "ANYTIME" ]};
       rd_int := {[ "maintenance_window.0.hour" := 5 ]};
       rd_bool := ∅; rd_set := ∅; rd_list := ∅;
       rd_block := {[ "maintenance_window" := 1%nat ]} |}
  = Err (ErrorString "hour should not be set, when using ANYTIME").
Proof. by vm_compute. Qed.

Example expandKafkaMaintenanceWindow_weekly_no_day :
  expandKafkaMaintenanceWindow kafka_pb
    {| rd_string := {[ "maintenance_window.0.type" := "WEEKLY" ]};
       rd_int := {[ "maintenance_window.0.hour" := 3 ]};
       rd_bool := ∅; rd_set := ∅; rd_list := ∅;
       rd_block := {[ "maintenance_window" := 1%nat ]} |}
  = Err errWeekDay.
Proof. by vm_compute. Qed.

(** ** Disk autoscaling *)

Lemma GetOk_int_value d path :
  (let '(v, ok) := GetOk_int d path in if ok then v else 0) = Get_int d path.
Proof.
  unfold Get_int, GetOk_int.
  destruct (rd_int d !! path) as [i|]; simpl; [|done].
  by destruct (Z.eqb_spec i 0).
Qed.

Lemma GetOk_int_toBytes d path :
  (let '(v, ok) := GetOk_int d path in if ok then toBytes v else 0)
  = toBytes (Get_int d path).
Proof.
  unfold Get_int, GetOk_int.
  destruct (rd_int d !! path) as [i|]; simpl; [|done].
  by destruct (Z.eqb_spec i 0) as [->|].
Qed.

(** C7. Flattening a disk autoscaling policy whose limit is 107374182400
    bytes yields 100 under disk_size_limit; flattening converts the limit to
    gigabytes and copies the two thresholds as they are; expansion returns a
    policy exactly when the block exists in the tree, and that policy holds
    the declared limit converted to bytes and the two declared thresholds as
    they are. *)
Theorem C7_disk_size_autoscaling :
  (∀ p, DiskSizeLimit p = 107374182400 →
     ∃ out, flattenKafkaDiskSizeAutoscaling (Some p) = [out]
            ∧ out !! "disk_size_limit" = Some (VInt 100))
  ∧ (∀ p, ∃ out, flattenKafkaDiskSizeAutoscaling (Some p) = [out]
       ∧ out !! "disk_size_limit" = Some (VInt (DiskSizeLimit p ÷ 2 ^ 30))
       ∧ out !! "planned_usage_threshold" = Some (VInt (PlannedUsageThreshold p))
       ∧ out !! "emergency_usage_threshold" = Some (VInt (EmergencyUsageThreshold p)))
  ∧ (∀ d, expandKafkaDiskSizeAutoscaling d
          = match rd_block d !! "config.0.disk_size_autoscaling" with
            | Some _ =>
                Some {| DiskSizeLimit :=
                          Get_int d "config.0.disk_size_autoscaling.0.disk_size_limit"
                          * 2 ^ 30;
                        PlannedUsageThreshold :=
                          Get_int d "config.0.disk_size_autoscaling.0.planned_usage_threshold";
                        EmergencyUsageThreshold :=
                          Get_int d "config.0.disk_size_autoscaling.0.emergency_usage_threshold" |}
            | None => None
            end).
Proof.
  split; [|split].
  - intros p Hp. eexists. split; [reflexivity|].
    cbv zeta. rewrite Hp. by vm_compute.
  - intros p. eexists. split; [reflexivity|]. cbv zeta.
    repeat split; by simplify_map_eq.
  - intros d. unfold expandKafkaDiskSizeAutoscaling, GetOkExists_block.
    destruct (rd_block d !! "config.0.disk_size_autoscaling"); simpl; [|done].
    by rewrite GetOk_int_toBytes, !GetOk_int_value.
Qed.

Example flattenKafkaDiskSizeAutoscaling_100GiB :
  flattenKafkaDiskSizeAutoscaling
    (Some {| PlannedUsageThreshold := 70; EmergencyUsageThreshold := 90;
             DiskSizeLimit := 107374182400 |})
  = [ <["emergency_usage_threshold" := VInt 90]>
      (<["planned_usage_threshold" := VInt 70]>
      (<["disk_size_limit" := VInt 100]> ∅)) ].
Proof. reflexivity. Qed.

Lemma C7_disk_size_autoscaling_witness :
  (∃ out,
     flattenKafkaDiskSizeAutoscaling
       (Some {| PlannedUsageThreshold := 70; EmergencyUsageThreshold := 90;
                DiskSizeLimit := 107374182400 |}) = [out]
     ∧ out !! "disk_size_limit" = Some (VInt 100))
  ∧ expandKafkaDiskSizeAutoscaling d_disk_size_autoscaling
    = Some {| PlannedUsageThreshold := 70; EmergencyUsageThreshold := 90;
              DiskSizeLimit := 107374182400 |}
  ∧ expandKafkaDiskSizeAutoscaling (d_version "3.5") = None.
Proof.
  split; [|split].
  - exact (proj1 C7_disk_size_autoscaling
             {| PlannedUsageThreshold := 70; EmergencyUsageThreshold := 90;
                DiskSizeLimit := 107374182400 |} eq_refl).
  - exact (proj2 (proj2 C7_disk_size_autoscaling) d_disk_size_autoscaling).
  - exact (proj2 (proj2 C7_disk_size_autoscaling) (d_version "3.5")).
Defined.

(** ** User diffing *)

Section UsersDiff.
Implicit Types (currUsers : list User) (targetUsers : list UserSpec).
Implicit Types (toDelete m : gmap string bool).

(** The first loop inserts every current name in both maps. *)
Lemma kafkaUsersDiff_loop1 currUsers toDelete m :
  foldl (λ '(toDelete, m) user,
           (<[User_Name user := true]> toDelete, <[User_Name user := true]> m))
        (toDelete, m) currUsers
  = (foldl (λ acc user, <[User_Name user := true]> acc) toDelete currUsers,
     foldl (λ acc user, <[User_Name user := true]> acc) m currUsers).
Proof.
  revert toDelete m. induction currUsers as [|u l IH]; intros; simpl; [done|].
  apply IH.
Qed.

Lemma insert_names_lookup currUsers m k :
  is_Some (foldl (λ acc user, <[User_Name user := true]> acc) m currUsers !! k)
  ↔ k ∈ (User_Name <$> currUsers) ∨ is_Some (m !! k).
Proof.
  revert m. induction currUsers as [|u l IH]; intros m; simpl.
  - rewrite elem_of_nil. tauto.
  - rewrite IH, elem_of_cons.
    destruct (decide (User_Name u = k)) as [->|Hne].
    + rewrite lookup_insert_eq. split; eauto.
    + rewrite lookup_insert_ne by done. split.
      * intros [?|?]; eauto.
      * intros [[?|?]|?]; eauto. congruence.
Qed.

(** The second loop removes every desired name from [toDelete] and appends
    the desired entries whose name [m] does not hold. *)
Lemma kafkaUsersDiff_loop2 targetUsers m toDelete (toAdd : list UserSpec) :
  foldl (λ '(toDelete, toAdd) user,
           let toDelete := delete (Name user) toDelete in
           match m !! Name user with
           | None => (toDelete, toAdd ++ [user])
           | Some _ => (toDelete, toAdd)
           end)
        (toDelete, toAdd) targetUsers
  = (foldl (λ acc user, delete (Name user) acc) toDelete targetUsers,
     toAdd ++ filter (λ user, m !! Name user = None) targetUsers).
Proof.
  revert toDelete toAdd.
  induction targetUsers as [|u l IH]; intros; simpl.
  - by rewrite app_nil_r.
  - destruct (m !! Name u) as [b|] eqn:Hm.
    + rewrite IH. rewrite filter_cons_False; [done|]. by rewrite Hm.
    + rewrite IH. rewrite filter_cons_True; [|done]. by rewrite <-app_assoc.
Qed.

Lemma delete_names_lookup targetUsers toDelete k :
  is_Some (foldl (λ acc user, delete (Name user) acc) toDelete targetUsers !! k)
  ↔ (k ∉ Name <$> targetUsers) ∧ is_Some (toDelete !! k).
Proof.
  revert toDelete. induction targetUsers as [|u l IH]; intros toDelete; simpl.
  - rewrite elem_of_nil. tauto.
  - rewrite IH, not_elem_of_cons.
    destruct (decide (Name u = k)) as [->|Hne].
    + rewrite lookup_delete_eq. split.
      * intros [_ []%is_Some_None].
      * intros [[[] _] _]. done.
    + rewrite lookup_delete_ne by done. split.
      * intros [? ?]. repeat split; [congruence|done..].
      * intros [[? ?] ?]. done.
Qed.

Lemma elem_of_map_keys toDelete k :
  k ∈ (map_to_list toDelete).*1 ↔ is_Some (toDelete !! k).
Proof.
  rewrite list_elem_of_fmap. split.
  - intros [[k' b] [-> Hin]]. apply elem_of_map_to_list in Hin. by eexists.
  - intros [b Hb]. exists (k, b). split; [done|]. by apply elem_of_map_to_list.
Qed.

(** The delete list holds, once each, the names of the current list that no
    desired entry bears. *)
Lemma kafkaUsersDiff_toDel currUsers targetUsers :
  NoDup (kafkaUsersDiff currUsers targetUsers).1
  ∧ ∀ name, name ∈ (kafkaUsersDiff currUsers targetUsers).1
            ↔ name ∈ (User_Name <$> currUsers) ∧ name ∉ (Name <$> targetUsers).
Proof.
  unfold kafkaUsersDiff.
  rewrite kafkaUsersDiff_loop1, kafkaUsersDiff_loop2. cbn [fst].
  split; [apply NoDup_fst_map_to_list|].
  intros name.
  rewrite elem_of_map_keys, delete_names_lookup, insert_names_lookup.
  rewrite lookup_empty. split; [|tauto].
  intros [? [?|[]%is_Some_None]]. done.
Qed.

(** The add list is the desired list, in order, without the entries whose
    name a current user bears. *)
Lemma kafkaUsersDiff_toAdd currUsers targetUsers :
  (kafkaUsersDiff currUsers targetUsers).2
  = filter (λ user, Name user ∉ (User_Name <$> currUsers)) targetUsers.
Proof.
  unfold kafkaUsersDiff.
  rewrite kafkaUsersDiff_loop1, kafkaUsersDiff_loop2. cbn [snd app].
  apply list_filter_iff. intros u.
  rewrite eq_None_not_Some, insert_names_lookup, lookup_empty. split.
  - intros H Hin. apply H. by left.
  - intros H [Hin|[]%is_Some_None]. done.
Qed.

(** C5. [kafkaUsersDiff] matches users by name only: the delete list has no
    repetition and a name is in it exactly when a current user bears it and no
    desired entry does; the add list is made of exactly the desired entries,
    whole, whose name no current user bears. *)
Theorem C5_users_diff_by_name currUsers targetUsers :
  NoDup (kafkaUsersDiff currUsers targetUsers).1
  ∧ (∀ name, name ∈ (kafkaUsersDiff currUsers targetUsers).1
           ↔ name ∈ (User_Name <$> currUsers) ∧ name ∉ (Name <$> targetUsers))
  ∧ (kafkaUsersDiff currUsers targetUsers).2
    = filter (λ user, Name user ∉ (User_Name <$> currUsers)) targetUsers
  ∧ (∀ user, user ∈ (kafkaUsersDiff currUsers targetUsers).2
             ↔ user ∈ targetUsers ∧ Name user ∉ (User_Name <$> currUsers)).
Proof.
  split; [apply kafkaUsersDiff_toDel|].
  split; [apply kafkaUsersDiff_toDel|]. split; [apply kafkaUsersDiff_toAdd|].
  intros user. rewrite kafkaUsersDiff_toAdd, list_elem_of_filter. tauto.
Qed.

(** C10. The two results of [kafkaUsersDiff] are disjoint by name, every name
    of the delete list is the name of a current user and every entry of the
    add list is an entry of the desired list. *)
Theorem C10_users_diff_disjoint currUsers targetUsers :
  (∀ user, user ∈ (kafkaUsersDiff currUsers targetUsers).2 →
           Name user ∉ (kafkaUsersDiff currUsers targetUsers).1)
  ∧ (∀ name, name ∈ (kafkaUsersDiff currUsers targetUsers).1 →
             name ∈ (User_Name <$> currUsers))
  ∧ (∀ user, user ∈ (kafkaUsersDiff currUsers targetUsers).2 →
             user ∈ targetUsers).
Proof.
  pose proof (kafkaUsersDiff_toDel currUsers targetUsers) as [_ Hdel].
  rewrite kafkaUsersDiff_toAdd. repeat split.
  - intros user [Hcur _]%list_elem_of_filter Hin. apply Hdel in Hin. tauto.
  - intros name Hin. apply Hdel in Hin. tauto.
  - by intros user [_ ?]%list_elem_of_filter.
Qed.

End UsersDiff.

Example kafkaUsersDiff_AB_BC :
  kafkaUsersDiff
    [ {| User_Name := "A"; User_Permissions := [] |};
      {| User_Name := "B"; User_Permissions := [] |} ]
    [ {| Name := "B"; Password := "secret-b"; Permissions := [] |};
      {| Name := "C"; Password := "secret-c";
         Permissions := [ {| TopicName := "events"; Role := 1; AllowHosts := [] |} ] |} ]
  = ( ["A"],
      [ {| Name := "C"; Password := "secret-c";
           Permissions := [ {| TopicName := "events"; Role := 1; AllowHosts := [] |} ] |} ] ).
Proof. by vm_compute. Qed.

(** ** Optional scalar fields *)

Lemma lookup_set_present_eq key o (res : gmap string Value) :
  set_present key o res !! key = match o with Some v => Some v | None => res !! key end.
Proof. destruct o; simpl; [apply lookup_insert_eq|done]. Qed.

Lemma lookup_set_present_ne key key' o (res : gmap string Value) :
  key ≠ key' → set_present key o res !! key' = res !! key'.
Proof. intros ?. destruct o; simpl; [by apply lookup_insert_ne|done]. Qed.

(** Looks a literal key up in a chain of [set_present] over the empty map. *)
Ltac lookup_set_present :=
  repeat (rewrite lookup_set_present_ne by discriminate);
  try (rewrite lookup_set_present_eq;
       match goal with
       | |- context [match ?o with Some _ => _ | None => _ end] => destruct o
       end;
       simpl; [reflexivity|
         repeat (rewrite lookup_set_present_ne by discriminate)]);
  try apply lookup_empty.

Section OptionalScalars.
Context (kafka : KafkaProto).

Lemma parseIntKafkaConfigParam_absent d paramName retErr :
  rd_string d !! (kafkaConfigPath +:+ "." +:+ paramName) = None →
  parseIntKafkaConfigParam d paramName retErr = (None, retErr).
Proof.
  intros Hd. unfold parseIntKafkaConfigParam, GetOk_string. by rewrite Hd.
Qed.

Lemma parseIntTopicConfigParam_absent d paramPath retErr :
  rd_string d !! paramPath = None →
  parseIntTopicConfigParam d paramPath retErr = (None, retErr).
Proof.
  intros Hd. unfold parseIntTopicConfigParam, GetOk_string. by rewrite Hd.
Qed.

(** Every integer field of a parsed Kafka config is what its own extractor
    returned. *)
Lemma parseKafkaConfig_int_field d res p :
  parseKafkaConfig kafka d = Ok res →
  kafkaIntParam_get p res
  = (parseIntKafkaConfigParam d (kafkaIntParam_name p) None).1.
Proof.
  unfold parseKafkaConfig, parseKafkaConfig_ints.
  repeat (rewrite RetErr_bind_nil by apply parseIntKafkaConfigParam_retErr_nil).
  cbn [mret RetErr_ret].
  destruct (let '(v, ok) := GetOk_string d _ in _) as [c|e]; simpl; [|done].
  destruct (let '(v, ok) := GetOk_set d _ in if ok then _ else Ok None) as [ms|e];
    simpl; [|done].
  intros [= <-]. by destruct p.
Qed.

Lemma parseKafkaConfig_bool_fields d res :
  parseKafkaConfig kafka d = Ok res →
  LogPreallocate res = None
  ∧ AutoCreateTopicsEnable res
    = (let '(v, ok) := GetOk_bool d (kafkaConfigPath +:+ ".auto_create_topics_enable") in
       if ok then Some v else None).
Proof.
  unfold parseKafkaConfig, parseKafkaConfig_ints.
  repeat (rewrite RetErr_bind_nil by apply parseIntKafkaConfigParam_retErr_nil).
  cbn [mret RetErr_ret].
  destruct (let '(v, ok) := GetOk_string d _ in _) as [c|e]; simpl; [|done].
  destruct (let '(v, ok) := GetOk_set d _ in if ok then _ else Ok None) as [ms|e];
    simpl; [|done].
  intros [= <-]. done.
Qed.

Lemma parseKafkaTopicConfig_fields d topicConfigPrefix res :
  parseKafkaTopicConfig kafka d topicConfigPrefix = Ok res →
  (∀ p, topicIntParam_get p res
        = (parseIntTopicConfigParam d (topicConfigPrefix +:+ topicIntParam_name p) None).1)
  ∧ Preallocate res
    = (let '(v, ok) := GetOk_bool d (topicConfigPrefix +:+ "preallocate") in
       if ok then Some v else None).
Proof.
  unfold parseKafkaTopicConfig, parseKafkaTopicConfig_ints.
  repeat (rewrite RetErr_bind_nil by apply parseIntTopicConfigParam_retErr_nil).
  cbn [mret RetErr_ret].
  destruct (if negb (String.eqb (Get_string d (topicConfigPrefix +:+ "cleanup_policy")) "")
            then _ else _) as [cp|e]; simpl; [|done].
  destruct (if negb (String.eqb (Get_string d (topicConfigPrefix +:+ "compression_type")) "")
            then _ else _) as [ct|e]; simpl; [|done].
  intros [= <-]. split; [|done]. by intros [].
Qed.

Lemma flattenKafkaConfigSettings_int_field kafkaConfig p :
  ∃ res, flattenKafkaConfigSettings kafka kafkaConfig = Ok res
         ∧ res !! kafkaIntParam_name p
           = formatInt64Value (kafkaIntParam_get p kafkaConfig).
Proof.
  eexists. split; [reflexivity|]. cbv zeta.
  destruct p; cbn [kafkaIntParam_name kafkaIntParam_get]; lookup_set_present.
Qed.

Lemma flattenKafkaConfigSettings_bool_fields kafkaConfig :
  ∃ res, flattenKafkaConfigSettings kafka kafkaConfig = Ok res
         ∧ res !! "auto_create_topics_enable"
           = boolValue (AutoCreateTopicsEnable kafkaConfig)
         ∧ res !! "log_preallocate" = None.
Proof.
  eexists. split; [reflexivity|]. cbv zeta. split; lookup_set_present.
Qed.

Lemma flattenKafkaTopicConfig_fields topicConfig :
  (∀ p, flattenKafkaTopicConfig kafka topicConfig !! topicIntParam_name p
        = formatInt64Value (topicIntParam_get p topicConfig))
  ∧ flattenKafkaTopicConfig kafka topicConfig !! "preallocate"
    = boolValue (Preallocate topicConfig).
Proof.
  unfold flattenKafkaTopicConfig. cbv zeta. split.
  - intros p. destruct p; cbn [topicIntParam_name topicIntParam_get]; lookup_set_present.
  - lookup_set_present.
Qed.

(** C8. Expansion: in a successfully parsed Kafka server config or topic
    config, every integer parameter and every boolean parameter that the tree
    does not hold is the absent marker, never a zero.  Flattening: every
    integer wrapper, and the boolean wrappers of auto_create_topics_enable and
    of a topic's preallocate, appear in the map under their key exactly when
    present, a present zero included, with their value; an absent wrapper
    leaves no key.  The server config's log_preallocate wrapper is never set
    by expansion and never written by flattening. *)
Theorem C8_optional_scalars :
  (∀ d res, parseKafkaConfig kafka d = Ok res →
     (∀ p, rd_string d !! (kafkaConfigPath +:+ "." +:+ kafkaIntParam_name p) = None →
           kafkaIntParam_get p res = None)
     ∧ (rd_bool d !! (kafkaConfigPath +:+ ".auto_create_topics_enable") = None →
        AutoCreateTopicsEnable res = None)
     ∧ LogPreallocate res = None)
  ∧ (∀ d topicConfigPrefix res,
     parseKafkaTopicConfig kafka d topicConfigPrefix = Ok res →
     (∀ p, rd_string d !! (topicConfigPrefix +:+ topicIntParam_name p) = None →
           topicIntParam_get p res = None)
     ∧ (rd_bool d !! (topicConfigPrefix +:+ "preallocate") = None →
        Preallocate res = None))
  ∧ (∀ kafkaConfig, ∃ res,
     flattenKafkaConfigSettings kafka kafkaConfig = Ok res
     ∧ (∀ p, res !! kafkaIntParam_name p
             = (λ v, VString (strconv.FormatInt v)) <$> kafkaIntParam_get p kafkaConfig)
     ∧ res !! "auto_create_topics_enable" = VBool <$> AutoCreateTopicsEnable kafkaConfig
     ∧ res !! "log_preallocate" = None)
  ∧ (∀ topicConfig,
     (∀ p, flattenKafkaTopicConfig kafka topicConfig !! topicIntParam_name p
           = (λ v, VString (strconv.FormatInt v)) <$> topicIntParam_get p topicConfig)
     ∧ flattenKafkaTopicConfig kafka topicConfig !! "preallocate"
       = VBool <$> Preallocate topicConfig).
Proof.
  split; [|split; [|split]].
  - intros d res Hres. split; [|split].
    + intros p Hp. rewrite (parseKafkaConfig_int_field d res p Hres).
      by rewrite parseIntKafkaConfigParam_absent.
    + intros Hb. destruct (parseKafkaConfig_bool_fields d res Hres) as [_ ->].
      unfold GetOk_bool. by rewrite Hb.
    + by destruct (parseKafkaConfig_bool_fields d res Hres).
  - intros d topicConfigPrefix res Hres.
    destruct (parseKafkaTopicConfig_fields d topicConfigPrefix res Hres) as [Hint Hbool].
    split.
    + intros p Hp. by rewrite Hint, parseIntTopicConfigParam_absent.
    + intros Hb. rewrite Hbool. unfold GetOk_bool. by rewrite Hb.
  - intros kafkaConfig.
    destruct (flattenKafkaConfigSettings_bool_fields kafkaConfig) as (res & Hres & Hb & Hp).
    exists res. repeat split; [done| |done..].
    intros p.
    destruct (flattenKafkaConfigSettings_int_field kafkaConfig p) as (res' & Hres' & Hp').
    assert (res' = res) as -> by congruence. exact Hp'.
  - apply flattenKafkaTopicConfig_fields.
Qed.

End OptionalScalars.

(** The present log_preallocate wrapper yields no key: the flattened map is
    empty. *)
Lemma C8_log_preallocate_counterexample :
  LogPreallocate kafkaConfig_log_preallocate = Some true
  ∧ flattenKafkaConfigSettings kafka_pb kafkaConfig_log_preallocate = Ok ∅.
Proof. split; reflexivity. Qed.

Lemma C8_optional_scalars_witness :
  parseKafkaConfig kafka_pb d_retention_zero = Ok kafkaConfig_retention_zero
  ∧ LogRetentionBytes kafkaConfig_retention_zero = None.
Proof.
  split; [reflexivity|].
  exact (proj1 (proj1 (C8_optional_scalars kafka_pb)
                  d_retention_zero kafkaConfig_retention_zero eq_refl)
           log_retention_bytes eq_refl).
Defined.

(** The rule is one of the two parameter blocks: the broker count of the
    cluster config is expanded to a nil wrapper when it is not declared, and
    [flattenKafkaConfig] writes 0 for that nil wrapper. *)
Example flattenKafkaConfig_brokers_count_nil :
  ∃ spec config,
    expandKafkaConfigSpec kafka_pb (d_version "2.8") = Ok spec
    ∧ BrokersCount spec = None
    ∧ flattenKafkaConfig kafka_pb spec = Ok [config]
    ∧ config !! "brokers_count" = Some (AValue (VInt 0)).
Proof. do 2 eexists. repeat split; reflexivity. Qed.

Example flattenKafkaConfigSettings_retention_zero :
  flattenKafkaConfigSettings kafka_pb kafkaConfig_retention_zero
  = Ok {[ "log_retention_ms" := VString "0" ]}.
Proof. reflexivity. Qed.

(** ** Sorting *)

Lemma string_ltb_not_le s t : String.ltb s t = true ↔ ¬ String.le t s.
Proof.
  unfold String.le, String.leb, String.ltb.
  rewrite (String.compare_antisym s t).
  destruct (String.compare t s); simpl.
  - split; [done|]. intros H. by destruct H.
  - split; [done|]. intros H. by destruct H.
  - split; [|done]. by intros _ [].
Qed.

#[global] Instance string_lexico_po : StrictOrder (@lexico string _).
Proof.
  split.
  - intros s Hs. apply string_ltb_not_le in Hs. by apply Hs.
  - intros a b c Hab Hbc. unfold lexico, string_lexico in *.
    rewrite string_ltb_not_le in *. intros Hca.
    destruct (total String.le a b) as [Hle|Hle]; [|done].
    apply Hbc. by trans a.
Qed.

#[global] Instance string_lexico_trichotomy : TrichotomyT (@lexico string _).
Proof.
  intros s t. unfold lexico, string_lexico, String.ltb.
  rewrite (String.compare_antisym s t).
  destruct (String.compare t s) eqn:Hc; simpl.
  - left; right. symmetry. by apply String.compare_eq_iff.
  - right. reflexivity.
  - left; left. reflexivity.
Defined.

Section SortSlice.
Context {A : Type} (less : A → A → bool).
Hypothesis less_asym : ∀ x y, less x y = true → less y x = false.

Lemma sift_Permutation x rprefix : sort.sift less x rprefix ≡ₚ x :: rprefix.
Proof.
  induction rprefix as [|y ys IH]; simpl; [done|].
  destruct (less x y); [|done]. rewrite IH. apply Permutation_swap.
Qed.

Lemma Slice_Permutation data : sort.Slice less data ≡ₚ data.
Proof.
  unfold sort.Slice. rewrite reverse_Permutation.
  assert (∀ acc, foldl (λ acc x, sort.sift less x acc) acc data ≡ₚ data ++ acc) as H.
  { induction data as [|x l IH]; intros acc; simpl; [done|].
    rewrite IH, sift_Permutation. by rewrite Permutation_middle. }
  rewrite H. by rewrite app_nil_r.
Qed.

Lemma sift_HdRel x y rprefix :
  less x y = true →
  HdRel (λ a b, less a b = false) y rprefix →
  HdRel (λ a b, less a b = false) y (sort.sift less x rprefix).
Proof.
  intros Hxy Hhd. destruct rprefix as [|z zs]; simpl.
  - constructor. by apply less_asym.
  - destruct (less x z); constructor; [by inv Hhd|by apply less_asym].
Qed.

Lemma sift_Sorted x rprefix :
  Sorted (λ a b, less a b = false) rprefix →
  Sorted (λ a b, less a b = false) (sort.sift less x rprefix).
Proof.
  induction 1 as [|y ys Hys IH Hhd]; simpl.
  - by repeat constructor.
  - destruct (less x y) eqn:Hxy.
    + constructor; [done|]. by apply sift_HdRel.
    + constructor; [by constructor|]. by constructor.
Qed.

(** The slice [sort.Slice] returns is ordered: no element is [less] than one
    before it. *)
Lemma Slice_Sorted data :
  Sorted (λ a b, less b a = false) (sort.Slice less data).
Proof.
  unfold sort.Slice. apply Sorted_reverse.
  assert (∀ acc, Sorted (λ a b, less a b = false) acc →
            Sorted (λ a b, less a b = false)
              (foldl (λ acc x, sort.sift less x acc) acc data)) as H.
  { induction data as [|x l IH]; intros acc Hacc; simpl; [done|].
    by apply IH, sift_Sorted. }
  apply H. constructor.
Qed.

End SortSlice.

Lemma Sorted_weaken {A} (R R' : relation A) l :
  (∀ a b, R a b → R' a b) → Sorted R l → Sorted R' l.
Proof.
  intros HR. induction 1 as [|x l _ IH Hhd]; constructor; [done|].
  destruct Hhd; constructor. by apply HR.
Qed.

(** [sort.Strings] leaves a slice it has already sorted as it is, so the
    in-place sort that [AllowHostsSortedToStr] runs on the hosts of an expanded
    permission does not alter them. *)
Lemma sort_Strings_idemp l : sort.Strings (sort.Strings l) = sort.Strings l.
Proof.
  assert (∀ x y : string, String.ltb x y = true → String.ltb y x = false) as Hasym.
  { intros x y Hxy. apply not_true_is_false. intros Hyx.
    by apply (irreflexivity lexico x); trans y. }
  assert (Transitive (λ a b : string, String.ltb b a = false)) as Htrans.
  { intros a b c Hab Hbc. apply not_true_is_false. intros Hca.
    destruct (trichotomy lexico a b) as [Hlt|[->|Hlt]].
    - assert (lexico c b) as Hcb by (by trans a).
      unfold lexico, string_lexico in Hcb. congruence.
    - congruence.
    - unfold lexico, string_lexico in Hlt. congruence. }
  apply (Sorted_unique_strong (λ a b, String.ltb b a = false)).
  - intros x y _ _ Hyx Hxy.
    destruct (trichotomy lexico x y) as [Hlt|[->|Hlt]]; [|done|];
      unfold lexico, string_lexico in Hlt; congruence.
  - by apply Slice_Sorted.
  - by apply Slice_Sorted.
  - apply Slice_Permutation.
Qed.

(** ** Permission expansion *)

Section Permissions.
Context (kafka : KafkaProto).

Lemma permissionLess_lexico p q :
  permissionLess kafka p q = true ↔ lexico (permKey kafka p) (permKey kafka q).
Proof.
  unfold permissionLess, permKey, lexico at 1, prod_lexico; simpl.
  unfold lexico at 2, prod_lexico; simpl. unfold lexico, string_lexico.
  rewrite !orb_true_iff, !andb_true_iff, !String.eqb_eq. tauto.
Qed.

Lemma permissionLess_asym p q :
  permissionLess kafka p q = true → permissionLess kafka q p = false.
Proof.
  intros Hpq. apply not_true_is_false. intros Hqp.
  apply permissionLess_lexico in Hpq, Hqp.
  by apply (irreflexivity lexico (permKey kafka p)); trans (permKey kafka q).
Qed.

Lemma permissionLess_false p q :
  permissionLess kafka q p = false ↔ permission_le kafka p q.
Proof.
  unfold permission_le. rewrite <-not_true_iff_false, permissionLess_lexico.
  destruct (trichotomy lexico (permKey kafka p) (permKey kafka q)) as [Hlt|[Heq|Hgt]].
  - split; [auto|]. intros _ Hgt.
    by apply (irreflexivity lexico (permKey kafka p)); trans (permKey kafka q).
  - split; [auto|]. intros _. rewrite Heq. apply irreflexivity, _.
  - split; [done|]. intros [Heq|Hlt].
    + rewrite Heq in Hgt. by apply irreflexivity in Hgt; [|apply _].
    + exfalso. by apply (irreflexivity lexico (permKey kafka p)); trans (permKey kafka q).
Qed.

#[local] Instance permission_le_trans : Transitive (permission_le kafka).
Proof.
  intros p q r [Hpq|Hpq] [Hqr|Hqr]; unfold permission_le.
  - left. congruence.
  - right. by rewrite Hpq.
  - right. by rewrite <-Hqr.
  - right. by trans (permKey kafka q).
Qed.


(** The hosts of an expanded permission are sorted already: the in-place
    sort of [AllowHostsSortedToStr], run by the [less] closure on the
    permission's own slice, leaves the permission as it is. *)
Lemma expandKafkaPermission_hosts_sorted b p :
  expandKafkaPermission kafka b = Ok p →
  sort.Strings (AllowHosts p) = AllowHosts p.
Proof.
  unfold expandKafkaPermission.
  destruct (match pb_role b with Some v => _ | None => _ end) as [role|e]; simpl; [|done].
  intros [= <-]. simpl. destruct (pb_allow_hosts b) as [hosts|]; [|done].
  unfold parseKafkaPermissionAllowHosts.
  destruct (Nat.eqb _ 0); [done|apply sort_Strings_idemp].
Qed.

(** [sortPermissions] returns a rearrangement of its argument that is
    ordered by the tuple. *)
Lemma sortPermissions_Permutation permissions :
  sortPermissions kafka permissions ≡ₚ permissions.
Proof. apply Slice_Permutation. Qed.

Lemma sortPermissions_Sorted permissions :
  StronglySorted (permission_le kafka) (sortPermissions kafka permissions).
Proof.
  apply Sorted_StronglySorted; [apply _|].
  eapply Sorted_weaken; [|apply (Slice_Sorted _ permissionLess_asym)].
  intros p q. apply permissionLess_false.
Qed.


(** The loop of [expandKafkaPermissions] succeeds exactly when every block
    does, with the permissions of the blocks in order. *)
Lemma expandKafkaPermissions_loop_Ok ps perms acc :
  Forall2 (λ b p, expandKafkaPermission kafka b = Ok p) ps perms →
  expandKafkaPermissions_loop kafka ps acc = Ok (acc ++ perms).
Proof.
  intros H. revert acc. induction H as [|b p ps perms Hb _ IH]; intros acc; simpl.
  - by rewrite app_nil_r.
  - rewrite Hb. simpl. by rewrite IH, <-app_assoc.
Qed.

Lemma Forall2_expand_Permutation ps1 ps2 perms1 :
  ps1 ≡ₚ ps2 →
  Forall2 (λ b p, expandKafkaPermission kafka b = Ok p) ps1 perms1 →
  ∃ perms2, perms1 ≡ₚ perms2
            ∧ Forall2 (λ b p, expandKafkaPermission kafka b = Ok p) ps2 perms2.
Proof.
  intros Hperm. revert perms1.
  induction Hperm as [|b ps1 ps2 _ IH|b b' ps|ps1 ps2 ps3 _ IH1 _ IH2]; intros perms1 H.
  - inv H. by exists [].
  - inv H. destruct (IH _ ltac:(eassumption)) as (perms2 & ? & ?).
    eexists (_ :: perms2). split; [by constructor|by constructor].
  - inv H. match goal with H : Forall2 _ (_ :: _) _ |- _ => inv H end.
    eexists (_ :: _ :: _). split; [apply Permutation_swap|by repeat constructor].
  - destruct (IH1 _ H) as (perms2 & ? & H2).
    destruct (IH2 _ H2) as (perms3 & ? & ?).
    exists perms3. split; [by trans perms2|done].
Qed.




End Permissions.

(** Two blocks with one hash string, which no set keyed by the hash holds
    together: as a plain list their two orders expand to different lists. *)
Example expandKafkaPermissions_same_hash_string :
  kafkaUserPermissionHash_buf block_one_host = kafkaUserPermissionHash_buf block_two_hosts
  ∧ expandKafkaPermissions kafka_pb [block_one_host; block_two_hosts]
    = Ok [ {| TopicName := "events"; Role := 2; AllowHosts := ["a,b"] |};
           {| TopicName := "events"; Role := 2; AllowHosts := ["a"; "b"] |} ]
  ∧ expandKafkaPermissions kafka_pb [block_two_hosts; block_one_host]
    = Ok [ {| TopicName := "events"; Role := 2; AllowHosts := ["a"; "b"] |};
           {| TopicName := "events"; Role := 2; AllowHosts := ["a,b"] |} ]
  ∧ expandKafkaPermissions kafka_pb [block_one_host; block_two_hosts]
    ≠ expandKafkaPermissions kafka_pb [block_two_hosts; block_one_host].
Proof.
  split; [reflexivity|]. split; [reflexivity|]. split; [reflexivity|].
  discriminate.
Qed.


Example expandKafkaPermissions_sorted :
  expandKafkaPermissions kafka_pb [block_events; block_audit]
  = Ok [permission_audit; permission_events].
Proof. reflexivity. Qed.

Example expandKafkaPermissions_invalid_role :
  expandKafkaPermissions kafka_pb
    [block_events;
     {| pb_topic_name := Some "audit"; pb_role := Some "reader"; pb_allow_hosts := None |}]
  = Err (EnumValueError "role" "reader").
Proof. reflexivity. Qed.

(** * Further properties *)

(** ** Decimal strings *)

Lemma digits_value_le d n : 0 ≤ n → n ≤ digits_value d n.
Proof.
  revert n. induction d as [|d IH|d IH|d IH|d IH|d IH|d IH|d IH|d IH|d IH|d IH];
    intros n Hn; simpl; [lia|..];
    (etrans; [|apply IH]; lia).
Qed.

Lemma digits_value_pos d acc :
  digits_value d (Z.pos acc) = Z.pos (Pos.of_uint_acc d acc).
Proof.
  revert acc. induction d as [|d IH|d IH|d IH|d IH|d IH|d IH|d IH|d IH|d IH|d IH];
    intros acc; simpl; [done|..];
    (rewrite <-IH; f_equal; lia).
Qed.

Lemma digits_value_0 d : digits_value d 0 = Z.of_N (Pos.of_uint d).
Proof.
  induction d as [|d IH|d IH|d IH|d IH|d IH|d IH|d IH|d IH|d IH|d IH];
    simpl; [done|done|..]; apply digits_value_pos.
Qed.

Lemma parse_digits_digit (c : ascii) (k : Z) (s : string) (n : Z) :
  Z.of_N (N_of_ascii c) = 48 + k → 0 ≤ k ≤ 9 →
  0 ≤ n → n * 10 + k ≤ strconv.maxUint64 →
  strconv.parse_digits (String c s) n = strconv.parse_digits s (n * 10 + k).
Proof.
  intros Hc Hk Hn Hmax. cbn [strconv.parse_digits]. rewrite Hc. cbv zeta.
  unfold strconv.maxUint64 in *.
  change (2 ^ 64 - 1) with 18446744073709551615 in *.
  change (18446744073709551615 / 10 + 1) with 1844674407370955162.
  replace (48 + k - 48) with k by lia.
  destruct (Z.leb_spec 48 (48 + k)); [|lia].
  destruct (Z.leb_spec (48 + k) 57); [|lia]. cbn [andb].
  destruct (Z.geb_spec n 1844674407370955162); [lia|].
  destruct (Z.gtb_spec (n * 10 + k) 18446744073709551615); [lia|done].
Qed.

Lemma parse_digits_string_of_uint d n :
  0 ≤ n → digits_value d n ≤ strconv.maxUint64 →
  strconv.parse_digits (NilEmpty.string_of_uint d) n = inr (digits_value d n).
Proof.
  revert n. induction d as [|d IH|d IH|d IH|d IH|d IH|d IH|d IH|d IH|d IH|d IH];
    intros n Hn Hmax; [done|..];
    cbn [NilEmpty.string_of_uint digits_value] in *;
    match goal with
    | |- context [digits_value d (n * 10 + ?k)] =>
        pose proof (digits_value_le d (n * 10 + k) ltac:(lia)) as Hle;
        rewrite (parse_digits_digit _ k) by (done || lia);
        apply IH; [lia|done]
    end.
Qed.

(** The decimal string of a signed 64-bit integer parses back to it. *)
Lemma ParseInt_FormatInt (i : Z) :
  - 2 ^ 63 ≤ i < 2 ^ 63 → strconv.ParseInt (strconv.FormatInt i) = Ok i.
Proof.
  intros Hi. unfold strconv.FormatInt. destruct i as [|p|p]; [done|..]; simpl.
  - pose proof (Unsigned.to_uint_nonnil p) as Hnil.
    pose proof (Unsigned.of_to p) as Hp.
    pose proof (digits_value_0 (Pos.to_uint p)) as Hv. rewrite Hp in Hv. simpl in Hv.
    pose proof (parse_digits_string_of_uint (Pos.to_uint p) 0 ltac:(done)) as Hparse.
    rewrite Hv in Hparse. unfold strconv.maxUint64 in Hparse.
    specialize (Hparse ltac:(lia)).
    unfold NilZero.string_of_uint.
    destruct (Pos.to_uint p) as [|d|d|d|d|d|d|d|d|d|d]; [done|..];
      cbn [NilEmpty.string_of_uint] in *;
      unfold strconv.ParseInt; cbn [Ascii.eqb Bool.eqb]; cbv iota;
      unfold strconv.ParseUint; rewrite Hparse; cbn [negb andb];
      (destruct (Z.geb_spec (Z.pos p) (2 ^ 63)); [lia|done]).
  - pose proof (Unsigned.to_uint_nonnil p) as Hnil.
    pose proof (Unsigned.of_to p) as Hp.
    pose proof (digits_value_0 (Pos.to_uint p)) as Hv. rewrite Hp in Hv. simpl in Hv.
    pose proof (parse_digits_string_of_uint (Pos.to_uint p) 0 ltac:(done)) as Hparse.
    rewrite Hv in Hparse. unfold strconv.maxUint64 in Hparse.
    specialize (Hparse ltac:(lia)).
    unfold NilZero.string_of_uint.
    destruct (Pos.to_uint p) as [|d|d|d|d|d|d|d|d|d|d]; [done|..];
      cbn [NilEmpty.string_of_uint] in *;
      unfold strconv.ParseInt; cbn [Ascii.eqb Bool.eqb]; cbv iota;
      unfold strconv.ParseUint; rewrite Hparse; cbn [negb andb];
      (destruct (Z.gtb_spec (Z.pos p) (2 ^ 63)); [lia|done]).
Qed.

(** ** Sorted strings *)

Lemma string_ltb_asym (x y : string) :
  String.ltb x y = true → String.ltb y x = false.
Proof.
  intros Hxy. apply not_true_is_false. intros Hyx.
  by apply (irreflexivity lexico x); trans y.
Qed.

Lemma string_not_ltb_antisym (x y : string) :
  String.ltb y x = false → String.ltb x y = false → x = y.
Proof.
  intros Hyx Hxy.
  destruct (trichotomy lexico x y) as [Hlt|[->|Hlt]]; [|done|];
    unfold lexico, string_lexico in Hlt; congruence.
Qed.

#[local] Instance string_not_ltb_trans :
  Transitive (λ a b : string, String.ltb b a = false).
Proof.
  intros a b c Hab Hbc. apply not_true_is_false. intros Hca.
  destruct (trichotomy lexico a b) as [Hlt|[->|Hlt]].
  - assert (lexico c b) as Hcb by (by trans a).
    unfold lexico, string_lexico in Hcb. congruence.
  - congruence.
  - unfold lexico, string_lexico in Hlt. congruence.
Qed.

(** [sort.Strings] returns the same slice for every order of its input. *)
Lemma sort_Strings_Permutation l1 l2 :
  l1 ≡ₚ l2 → sort.Strings l1 = sort.Strings l2.
Proof.
  intros Hperm.
  apply (Sorted_unique_strong (λ a b, String.ltb b a = false)).
  - intros x y _ _ Hyx Hxy. by apply string_not_ltb_antisym.
  - apply Slice_Sorted, string_ltb_asym.
  - apply Slice_Sorted, string_ltb_asym.
  - unfold sort.Strings.
    by rewrite !Slice_Permutation.
Qed.

Lemma sort_Strings_length l : length (sort.Strings l) = length l.
Proof.
  apply Permutation_length, Slice_Permutation.
Qed.

Lemma AllowHostsSortedToStr_Permutation l1 l2 :
  l1 ≡ₚ l2 → AllowHostsSortedToStr l1 = AllowHostsSortedToStr l2.
Proof.
  intros Hperm. unfold AllowHostsSortedToStr.
  rewrite (Permutation_length Hperm), (sort_Strings_Permutation l1 l2 Hperm). done.
Qed.

Lemma parseKafkaPermissionAllowHosts_Permutation l1 l2 :
  l1 ≡ₚ l2 → parseKafkaPermissionAllowHosts l1 = parseKafkaPermissionAllowHosts l2.
Proof.
  intros Hperm. unfold parseKafkaPermissionAllowHosts, parseSetToStringArray, convertStringSet.
  rewrite (Permutation_length Hperm), (sort_Strings_Permutation l1 l2 Hperm). done.
Qed.

(** X1. What [parseKafkaPermissionAllowHosts] returns is a rearrangement of
    the hosts it is given, in ascending order, and is the same slice for
    every order of the set; sorting it again or feeding it back changes
    nothing. *)
Theorem X1_allow_hosts_normal_form (allowHosts : list string) :
  parseKafkaPermissionAllowHosts allowHosts ≡ₚ allowHosts
  ∧ Sorted (λ a b, String.ltb b a = false) (parseKafkaPermissionAllowHosts allowHosts)
  ∧ (∀ allowHosts', allowHosts ≡ₚ allowHosts' →
       parseKafkaPermissionAllowHosts allowHosts'
       = parseKafkaPermissionAllowHosts allowHosts)
  ∧ parseKafkaPermissionAllowHosts (parseKafkaPermissionAllowHosts allowHosts)
    = parseKafkaPermissionAllowHosts allowHosts.
Proof.
  assert (parseKafkaPermissionAllowHosts allowHosts ≡ₚ allowHosts) as Hperm.
  { unfold parseKafkaPermissionAllowHosts, parseSetToStringArray, convertStringSet.
    destruct allowHosts as [|h l]; [done|]. cbn [length Nat.eqb].
    apply Slice_Permutation. }
  split; [done|]. split; [|split].
  - unfold parseKafkaPermissionAllowHosts, parseSetToStringArray, convertStringSet.
    destruct (Nat.eqb _ 0); [constructor|]. apply Slice_Sorted, string_ltb_asym.
  - intros l' Hl'. symmetry. by apply parseKafkaPermissionAllowHosts_Permutation.
  - by apply parseKafkaPermissionAllowHosts_Permutation.
Qed.

(** ** Permissions and users *)

Section PermissionsMore.
Context (kafka : KafkaProto).

Lemma expandKafkaPermissions_loop_inv ps acc res :
  expandKafkaPermissions_loop kafka ps acc = Ok res →
  ∃ perms, res = acc ++ perms
           ∧ Forall2 (λ b p, expandKafkaPermission kafka b = Ok p) ps perms.
Proof.
  revert acc. induction ps as [|b ps IH]; intros acc; simpl.
  - intros [= <-]. exists []. by rewrite app_nil_r.
  - destruct (expandKafkaPermission kafka b) as [p|e] eqn:Hb; simpl; [|done].
    intros (perms & -> & Hperms)%IH. exists (p :: perms).
    split; [by rewrite <-app_assoc|by constructor].
Qed.

Lemma expandKafkaPermissions_inv ps res :
  expandKafkaPermissions kafka ps = Ok res →
  ∃ perms, res = sortPermissions kafka perms
           ∧ Forall2 (λ b p, expandKafkaPermission kafka b = Ok p) ps perms.
Proof.
  unfold expandKafkaPermissions.
  destruct (expandKafkaPermissions_loop kafka ps []) as [perms|e] eqn:Hloop; simpl; [|done].
  intros [= <-]. apply expandKafkaPermissions_loop_inv in Hloop as (perms' & -> & ?).
  by exists perms'.
Qed.

Lemma expandKafkaPermissions_Forall2 ps perms :
  Forall2 (λ b p, expandKafkaPermission kafka b = Ok p) ps perms →
  expandKafkaPermissions kafka ps = Ok (sortPermissions kafka perms).
Proof.
  intros H. unfold expandKafkaPermissions.
  by rewrite (expandKafkaPermissions_loop_Ok kafka ps perms [] H).
Qed.

(** A block expands unless it names a role that the role table lacks. *)
Lemma expandKafkaPermission_Err b e :
  expandKafkaPermission kafka b = Err e ↔
  ∃ role, pb_role b = Some role
          ∧ Permission_AccessRole_value kafka !! role = None
          ∧ e = EnumValueError "role" role.
Proof.
  unfold expandKafkaPermission, parseKafkaPermissionRole, map_index.
  destruct (pb_role b) as [role|]; simpl.
  - destruct (_ !! role) as [v|] eqn:Hv; simpl.
    + split; [done|]. intros (role' & [= <-] & ? & _). congruence.
    + split.
      * intros [= <-]. by exists role.
      * by intros (role' & [= <-] & _ & ->).
  - split; [done|]. by intros (? & ? & _).
Qed.

(** X2. [expandKafkaPermissions] fails exactly on the first block, in list
    order, whose role is not a key of the role table, with the error that
    names that role; otherwise it returns as many permissions as there are
    blocks. *)
Theorem X2_expandKafkaPermissions_result (ps : list PermissionBlock) :
  match expandKafkaPermissions kafka ps with
  | Ok res =>
      length res = length ps
      ∧ Forall (λ b, ∃ p, expandKafkaPermission kafka b = Ok p) ps
  | Err e =>
      ∃ ps1 b ps2 role,
        ps = ps1 ++ b :: ps2
        ∧ Forall (λ b, ∃ p, expandKafkaPermission kafka b = Ok p) ps1
        ∧ pb_role b = Some role
        ∧ Permission_AccessRole_value kafka !! role = None
        ∧ e = EnumValueError "role" role
  end.
Proof.
  destruct (expandKafkaPermissions kafka ps) as [res|e] eqn:Hres.
  - apply expandKafkaPermissions_inv in Hres as (perms & -> & Hperms). split.
    + rewrite (Permutation_length (sortPermissions_Permutation kafka perms)).
      symmetry. by eapply Forall2_length.
    + clear -Hperms. induction Hperms; constructor; eauto.
  - unfold expandKafkaPermissions in Hres.
    destruct (expandKafkaPermissions_loop kafka ps []) as [perms|e'] eqn:Hloop;
      simpl in Hres; [done|]. injection Hres as ->.
    revert Hloop. generalize (@nil Permission).
    induction ps as [|b ps IH]; intros acc; simpl; [done|].
    destruct (expandKafkaPermission kafka b) as [p|e'] eqn:Hb; simpl.
    + intros (ps1 & b' & ps2 & role & -> & Hps1 & ?)%IH.
      exists (b :: ps1), b', ps2, role. split; [done|]. split; [|done].
      constructor; eauto.
    + intros [= ->]. apply expandKafkaPermission_Err in Hb as (role & ? & ? & ?).
      exists [], b, ps, role. by repeat split.
Qed.

Lemma userPermissionToStr_permKey p :
  userPermissionToStr kafka p = tupleToStr (permKey kafka p).
Proof. reflexivity. Qed.

Lemma permKey_sortPermissions_Permutation l1 l2 :
  l1 ≡ₚ l2 →
  permKey kafka <$> sortPermissions kafka l1 = permKey kafka <$> sortPermissions kafka l2.
Proof.
  intros Hperm.
  apply (StronglySorted_unique_strong (λ k1 k2, k1 = k2 ∨ lexico k1 k2)).
  - intros k1 k2 _ _ [Heq|H12] [Heq'|H21]; try done.
    exfalso. by apply (irreflexivity lexico k1); trans k2.
  - eapply StronglySorted_fmap; [|apply sortPermissions_Sorted]. by intros p q.
  - eapply StronglySorted_fmap; [|apply sortPermissions_Sorted]. by intros p q.
  - by rewrite !sortPermissions_Permutation, Hperm.
Qed.

Lemma UserPermissionsToStr_Permutation (l1 l2 : list Permission) :
  l1 ≡ₚ l2 → UserPermissionsToStr kafka l1 = UserPermissionsToStr kafka l2.
Proof.
  intros Hperm. unfold UserPermissionsToStr. cbv zeta. f_equal.
  rewrite <-!(list_fmap_ext _ _ _ (λ _ p _, eq_sym (userPermissionToStr_permKey p))).
  rewrite !(list_fmap_compose (permKey kafka) tupleToStr).
  by rewrite (permKey_sortPermissions_Permutation l1 l2 Hperm).
Qed.

(** X3. [UserPermissionsToStr] returns the same string for every order of
    the permissions it is given, whether or not their tuples tell them
    apart. *)
Theorem X3_UserPermissionsToStr_Permutation (l1 l2 : list Permission) :
  l1 ≡ₚ l2 → UserPermissionsToStr kafka l1 = UserPermissionsToStr kafka l2.
Proof. apply UserPermissionsToStr_Permutation. Qed.

End PermissionsMore.

Lemma X3_UserPermissionsToStr_Permutation_witness :
  UserPermissionsToStr kafka_pb [permission_events; permission_audit]
  = UserPermissionsToStr kafka_pb [permission_audit; permission_events].
Proof.
  apply (X3_UserPermissionsToStr_Permutation kafka_pb). apply Permutation_swap.
Defined.

Example UserPermissionsToStr_events_audit :
  UserPermissionsToStr kafka_pb [permission_events; permission_audit]
  = "audit:ACCESS_ROLE_CONSUMER:[],events:ACCESS_ROLE_PRODUCER:[host1.db.yandex.net,host2.db.yandex.net]".
Proof. reflexivity. Qed.

Section UsersMore.
Context (kafka : KafkaProto) (hashcode_String : string → Z).

Lemma expandKafkaPermissions_Permutation_str ps1 ps2 :
  ps1 ≡ₚ ps2 →
  UserPermissionsToStr kafka
    (match expandKafkaPermissions kafka ps1 with Ok permissions => permissions | Err _ => [] end)
  = UserPermissionsToStr kafka
      (match expandKafkaPermissions kafka ps2 with Ok permissions => permissions | Err _ => [] end).
Proof.
  assert (∀ ps1 ps2 res1, ps1 ≡ₚ ps2 →
    expandKafkaPermissions kafka ps1 = Ok res1 →
    ∃ res2, expandKafkaPermissions kafka ps2 = Ok res2 ∧ res1 ≡ₚ res2) as Hok.
  { intros l1 l2 res1 Hperm (perms1 & -> & H1)%expandKafkaPermissions_inv.
    destruct (Forall2_expand_Permutation kafka l1 l2 perms1 Hperm H1) as (perms2 & Hp & H2).
    exists (sortPermissions kafka perms2).
    split; [by apply expandKafkaPermissions_Forall2|].
    by rewrite !sortPermissions_Permutation. }
  intros Hperm.
  destruct (expandKafkaPermissions kafka ps1) as [res1|e1] eqn:H1.
  - destruct (Hok ps1 ps2 res1 Hperm H1) as (res2 & -> & Hres).
    by apply UserPermissionsToStr_Permutation.
  - destruct (expandKafkaPermissions kafka ps2) as [res2|e2] eqn:H2; [|done].
    destruct (Hok ps2 ps1 res2 (symmetry Hperm) H2) as (res1 & ? & _). congruence.
Qed.

(** X4. The composite hashes ignore order: the permission hash is the same
    for every order of the allow_hosts set, and the user hash is the same
    for every order of the permission blocks, valid or not. *)
Theorem X4_hashes_ignore_order :
  (∀ topic_name role allowHosts1 allowHosts2,
     allowHosts1 ≡ₚ allowHosts2 →
     kafkaUserPermissionHash hashcode_String
       {| pb_topic_name := topic_name; pb_role := role; pb_allow_hosts := Some allowHosts1 |}
     = kafkaUserPermissionHash hashcode_String
         {| pb_topic_name := topic_name; pb_role := role; pb_allow_hosts := Some allowHosts2 |})
  ∧ (∀ name password ps1 ps2,
     ps1 ≡ₚ ps2 →
     kafkaUserHash kafka hashcode_String
       {| ub_name := name; ub_password := password; ub_permission := Some ps1 |}
     = kafkaUserHash kafka hashcode_String
         {| ub_name := name; ub_password := password; ub_permission := Some ps2 |}).
Proof.
  split.
  - intros topic_name role l1 l2 Hperm.
    unfold kafkaUserPermissionHash, kafkaUserPermissionHash_buf; simpl.
    by rewrite (parseKafkaPermissionAllowHosts_Permutation l1 l2 Hperm).
  - intros name password ps1 ps2 Hperm.
    unfold kafkaUserHash, kafkaUserHash_buf; simpl.
    by rewrite (expandKafkaPermissions_Permutation_str ps1 ps2 Hperm).
Qed.

Lemma expandKafkaUsers_loop_Ok users specs acc :
  Forall2 (λ u s, expandKafkaUser kafka u = Ok s) users specs →
  expandKafkaUsers_loop kafka users acc = Ok (acc ++ specs).
Proof.
  intros H. revert acc. induction H as [|u s users specs Hu _ IH]; intros acc; simpl.
  - by rewrite app_nil_r.
  - rewrite Hu. simpl. by rewrite IH, <-app_assoc.
Qed.

Lemma expandKafkaUsers_loop_inv users acc :
  match expandKafkaUsers_loop kafka users acc with
  | Ok res =>
      ∃ specs, res = acc ++ specs
               ∧ Forall2 (λ u s, expandKafkaUser kafka u = Ok s) users specs
  | Err e =>
      ∃ users1 u users2,
        users = users1 ++ u :: users2
        ∧ Forall (λ u, ∃ s, expandKafkaUser kafka u = Ok s) users1
        ∧ expandKafkaUser kafka u = Err e
  end.
Proof.
  revert acc. induction users as [|u users IH]; intros acc; simpl.
  - exists []. by rewrite app_nil_r.
  - destruct (expandKafkaUser kafka u) as [s|e] eqn:Hu; simpl.
    + specialize (IH (acc ++ [s])).
      destruct (expandKafkaUsers_loop kafka users (acc ++ [s])) as [res|e].
      * destruct IH as (specs & -> & Hspecs). exists (s :: specs).
        split; [by rewrite <-app_assoc|by constructor].
      * destruct IH as (users1 & u' & users2 & -> & H1 & Hu').
        exists (u :: users1), u', users2. split; [done|]. split; [|done].
        constructor; eauto.
    + exists [], u, users. by repeat split.
Qed.

Lemma userLess_asym (a b : UserSpec) :
  String.ltb (Name a) (Name b) = true → String.ltb (Name b) (Name a) = false.
Proof. apply string_ltb_asym. Qed.

(** X5. [expandKafkaUsers] returns the expanded users rearranged in
    ascending order of name; it fails on the first user, in list order, one
    of whose permission blocks names a role outside the role table; and when
    no two of the returned users share a name, every order of the input
    yields that same list. *)
Theorem X5_expandKafkaUsers_result (users : list UserBlock) :
  match expandKafkaUsers kafka users with
  | Ok res =>
      (∃ specs, Forall2 (λ u s, expandKafkaUser kafka u = Ok s) users specs
                ∧ res ≡ₚ specs)
      ∧ Sorted (λ a b, String.ltb (Name b) (Name a) = false) res
      ∧ (NoDup (Name <$> res) →
         ∀ users', users ≡ₚ users' → expandKafkaUsers kafka users' = Ok res)
  | Err e =>
      ∃ users1 u users2,
        users = users1 ++ u :: users2
        ∧ Forall (λ u, ∃ s, expandKafkaUser kafka u = Ok s) users1
        ∧ expandKafkaUser kafka u = Err e
  end.
Proof.
  unfold expandKafkaUsers.
  pose proof (expandKafkaUsers_loop_inv users []) as Hloop.
  destruct (expandKafkaUsers_loop kafka users []) as [res|e]; simpl; [|done].
  destruct Hloop as (specs & -> & Hspecs). simpl.
  split; [|split].
  - exists specs. split; [done|]. apply Slice_Permutation.
  - apply Slice_Sorted, userLess_asym.
  - intros Hnodup users' Hperm.
    assert (∃ specs', specs ≡ₚ specs'
              ∧ Forall2 (λ u s, expandKafkaUser kafka u = Ok s) users' specs')
      as (specs' & Hp & Hspecs').
    { clear Hnodup. revert specs Hspecs.
      induction Hperm as [|u l1 l2 _ IH|u u' l|l1 l2 l3 _ IH1 _ IH2]; intros specs H.
      - inv H. by exists [].
      - inv H. destruct (IH _ ltac:(eassumption)) as (specs2 & ? & ?).
        eexists (_ :: specs2). split; by constructor.
      - inv H. match goal with H : Forall2 _ (_ :: _) _ |- _ => inv H end.
        eexists (_ :: _ :: _). split; [apply Permutation_swap|by repeat constructor].
      - destruct (IH1 _ H) as (specs2 & ? & H2).
        destruct (IH2 _ H2) as (specs3 & ? & ?).
        exists specs3. split; [by trans specs2|done]. }
    rewrite (expandKafkaUsers_loop_Ok users' specs' [] Hspecs'). simpl. f_equal.
    assert (Transitive (λ a b : UserSpec, String.ltb (Name b) (Name a) = false)).
    { intros a b c Hab Hbc. by apply (string_not_ltb_trans _ (Name b)). }
    apply (Sorted_unique_strong (λ a b : UserSpec, String.ltb (Name b) (Name a) = false)).
    + intros a b Ha Hb Hab Hba.
      assert (Name a = Name b) as Hname by (by apply string_not_ltb_antisym).
      rewrite Slice_Permutation, <-Hp in Ha.
      rewrite <-(Slice_Permutation (λ a b, String.ltb (Name a) (Name b)) specs) in Ha.
      clear -Hnodup Ha Hb Hname.
      induction (sort.Slice _ specs) as [|x l IH]; [by inv Ha|].
      simpl in Hnodup. apply NoDup_cons in Hnodup as [Hx Hl].
      apply elem_of_cons in Ha as [->|Ha], Hb as [->|Hb]; try done.
      * exfalso. apply Hx. rewrite Hname. by apply list_elem_of_fmap_2.
      * exfalso. apply Hx. rewrite <-Hname. by apply list_elem_of_fmap_2.
      * by apply IH.
    + apply Slice_Sorted, userLess_asym.
    + apply Slice_Sorted, userLess_asym.
    + by rewrite !Slice_Permutation.
Qed.

End UsersMore.

(** X6. The password map of [kafkaUsersPasswords] holds, for every name
    borne by a user of the list, the password of the last such user, and
    nothing for any other name. *)
Theorem X6_kafkaUsersPasswords_lookup (users : list UserSpec) (name : string) :
  kafkaUsersPasswords users !! name
  = Password <$> last (filter (λ u, Name u = name) users).
Proof.
  unfold kafkaUsersPasswords.
  induction users as [|u users IH] using rev_ind; [done|].
  rewrite foldl_snoc, filter_app.
  destruct (decide (Name u = name)) as [Hn|Hn].
  - rewrite Hn, lookup_insert_eq.
    rewrite filter_cons_True by done. by rewrite filter_nil, last_snoc.
  - rewrite lookup_insert_ne by done.
    rewrite filter_cons_False by done. by rewrite filter_nil, app_nil_r.
Qed.

(** X7. Applying the result of [kafkaUsersDiff] reaches the desired state:
    the names of the current users that are not deleted, together with the
    names of the added entries, are exactly the names of the desired
    entries. *)
Theorem X7_users_diff_reaches_target (currUsers : list User)
    (targetUsers : list UserSpec) (name : string) :
  (name ∈ (User_Name <$> currUsers)
   ∧ name ∉ (kafkaUsersDiff currUsers targetUsers).1)
  ∨ name ∈ (Name <$> (kafkaUsersDiff currUsers targetUsers).2)
  ↔ name ∈ (Name <$> targetUsers).
Proof.
  pose proof (kafkaUsersDiff_toDel currUsers targetUsers) as [_ Hdel].
  rewrite kafkaUsersDiff_toAdd. split.
  - intros [[Hcur Hndel]|Hadd].
    + destruct (decide (name ∈ Name <$> targetUsers)) as [Hin|Hnin]; [done|].
      exfalso. apply Hndel, Hdel. done.
    + apply list_elem_of_fmap in Hadd as (u & -> & Hu).
      apply list_elem_of_filter in Hu as [_ Hu]. by apply list_elem_of_fmap_2.
  - intros Hin. destruct (decide (name ∈ User_Name <$> currUsers)) as [Hc|Hc].
    + left. split; [done|]. intros Hd%Hdel. tauto.
    + right. apply list_elem_of_fmap in Hin as (u & -> & Hu).
      apply list_elem_of_fmap_2, list_elem_of_filter. done.
Qed.

(** ** Round trips of the integer wrappers *)

Lemma FormatInt_nonempty (v : Z) :
  - 2 ^ 63 ≤ v < 2 ^ 63 → String.eqb (strconv.FormatInt v) "" = false.
Proof.
  intros Hv. apply String.eqb_neq. intros Hempty.
  pose proof (ParseInt_FormatInt v Hv) as Hparse. by rewrite Hempty in Hparse.
Qed.

Section IntRoundTrip.
Context (kafka : KafkaProto).

(** X8. Flattening then extracting returns every integer wrapper of a Kafka
    server config: on a tree that holds, at the parameter's path, what
    [flattenKafkaConfigSettings] wrote under the parameter's key,
    [parseIntKafkaConfigParam] returns the wrapper of the config (absent when
    it was absent, the same 64-bit value, zero included, when it was
    present) and leaves [retErr] alone. *)
Theorem X8_kafka_int_round_trip (kafkaConfig : KafkaConfig)
    (res : gmap string Value) (d : ResourceData) (p : KafkaIntParam)
    (retErr : option error) :
  flattenKafkaConfigSettings kafka kafkaConfig = Ok res →
  (∀ v, kafkaIntParam_get p kafkaConfig = Some v → - 2 ^ 63 ≤ v < 2 ^ 63) →
  rd_string d !! (kafkaConfigPath +:+ "." +:+ kafkaIntParam_name p)
  = string_attr res (kafkaIntParam_name p) →
  parseIntKafkaConfigParam d (kafkaIntParam_name p) retErr
  = (kafkaIntParam_get p kafkaConfig, retErr).
Proof.
  intros Hres Hrange Hd.
  destruct (flattenKafkaConfigSettings_int_field kafka kafkaConfig p) as (res' & Hres' & Hp).
  assert (res' = res) as -> by congruence.
  unfold string_attr in Hd. rewrite Hp in Hd.
  destruct (kafkaIntParam_get p kafkaConfig) as [v|]; simpl in Hd.
  - unfold parseIntKafkaConfigParam, GetOk_string. rewrite Hd.
    rewrite FormatInt_nonempty, ParseInt_FormatInt by auto. done.
  - by apply parseIntKafkaConfigParam_absent.
Qed.

(** X9. Flattening then extracting returns every integer wrapper of a topic
    config, in the same way, through [flattenKafkaTopicConfig] and
    [parseIntTopicConfigParam]. *)
Theorem X9_topic_int_round_trip (topicConfig : TopicConfig)
    (d : ResourceData) (topicConfigPrefix : string) (p : TopicIntParam)
    (retErr : option error) :
  (∀ v, topicIntParam_get p topicConfig = Some v → - 2 ^ 63 ≤ v < 2 ^ 63) →
  rd_string d !! (topicConfigPrefix +:+ topicIntParam_name p)
  = string_attr (flattenKafkaTopicConfig kafka topicConfig) (topicIntParam_name p) →
  parseIntTopicConfigParam d (topicConfigPrefix +:+ topicIntParam_name p) retErr
  = (topicIntParam_get p topicConfig, retErr).
Proof.
  intros Hrange Hd.
  destruct (flattenKafkaTopicConfig_fields kafka topicConfig) as [Hp _].
  unfold string_attr in Hd. rewrite Hp in Hd.
  destruct (topicIntParam_get p topicConfig) as [v|]; simpl in Hd.
  - unfold parseIntTopicConfigParam, GetOk_string. rewrite Hd.
    rewrite FormatInt_nonempty, ParseInt_FormatInt by auto. done.
  - by apply parseIntTopicConfigParam_absent.
Qed.

End IntRoundTrip.

Lemma X8_kafka_int_round_trip_witness :
  parseIntKafkaConfigParam d_retention_zero "log_retention_ms" None = (Some 0, None).
Proof.
  apply (X8_kafka_int_round_trip kafka_pb kafkaConfig_retention_zero
           {[ "log_retention_ms" := VString "0" ]} d_retention_zero log_retention_ms None).
  - reflexivity.
  - intros v [= <-]. lia.
  - reflexivity.
Defined.

Lemma X9_topic_int_round_trip_witness :
  parseIntTopicConfigParam d_bad_topic_int "topic.0.topic_config.0.segment_bytes" None
  = (Some 1024, None).
Proof.
  apply (X9_topic_int_round_trip kafka_pb topicConfig_segment_1024 d_bad_topic_int
           "topic.0.topic_config.0." segment_bytes None).
  - intros v [= <-]. lia.
  - reflexivity.
Defined.

(** ** Maintenance window *)

Section MaintenanceWindowMore.
Context (kafka : KafkaProto).

(** X10. A maintenance window that expansion accepts flattens back to what
    was declared: flattening does not fail on it, the type is the declared
    type, a weekly window carries the declared hour and, when the name table
    gives back the declared day from its ordinal, the declared day; an
    anytime window carries neither hour nor day. *)
Theorem X10_maintenance_window_round_trip (d : ResourceData) (mw : MaintenanceWindow) :
  (∀ v, WeeklyMaintenanceWindow_WeekDay_value kafka
          !! Get_string d "maintenance_window.0.day" = Some v →
        WeeklyMaintenanceWindow_WeekDay_name kafka !! v
        = Some (Get_string d "maintenance_window.0.day")) →
  expandKafkaMaintenanceWindow kafka d = Ok (Some mw) →
  ∃ m, flattenKafkaMaintenanceWindow kafka (Some mw) = Ok [m]
       ∧ m !! "type" = Some (VString (Get_string d "maintenance_window.0.type"))
       ∧ (Get_string d "maintenance_window.0.type" = "WEEKLY" →
          m !! "hour" = Some (VInt (Get_int d "maintenance_window.0.hour"))
          ∧ m !! "day" = Some (VString (Get_string d "maintenance_window.0.day")))
       ∧ (Get_string d "maintenance_window.0.type" = "ANYTIME" →
          m !! "hour" = None ∧ m !! "day" = None).
Proof.
  intros Hinv. unfold expandKafkaMaintenanceWindow.
  destruct (GetOk_block d _) as [n []]; simpl; [|done].
  rewrite !GetOk_string_eq. cbn [iface_eqb].
  destruct (String.eqb_spec (Get_string d "maintenance_window.0.type") "ANYTIME")
    as [Hany|Hany].
  - rewrite Hany.
    destruct (GetOk_int d _) as [hour []]; simpl; [done|].
    destruct (negb (String.eqb _ "") && negb _); [done|].
    intros [= <-]. eexists. split; [reflexivity|]. repeat split; try done.
  - destruct (String.eqb_spec (Get_string d "maintenance_window.0.type") "WEEKLY")
      as [Hweekly|Hweekly]; [|done].
    rewrite Hweekly. unfold Get_int.
    destruct (GetOk_int d _) as [hour []]; simpl; [|done].
    unfold map_index.
    destruct (_ !! Get_string d "maintenance_window.0.day") as [day|] eqn:Hday;
      simpl; [|done].
    destruct (day =? 0); [done|].
    intros [= <-]. eexists. split; [reflexivity|]. simpl.
    rewrite (Hinv _ eq_refl). repeat split; try done.
Qed.

(** X11. The schema validator of the day and expansion agree: for a weekly
    window whose hour is set, expansion fails with the day error exactly when
    the validator reports an error for the declared day, and succeeds
    otherwise; the validator never warns. *)
Theorem X11_day_validator_agrees (d : ResourceData) (n : nat) (hour : Z) (k : string) :
  rd_block d !! "maintenance_window" = Some (S n) →
  Get_string d "maintenance_window.0.type" = "WEEKLY" →
  rd_int d !! "maintenance_window.0.hour" = Some hour → hour ≠ 0 →
  let day := Get_string d "maintenance_window.0.day" in
  (kafkaMaintenanceWindowSchemaValidateFunc kafka day k).1 = []
  ∧ match (kafkaMaintenanceWindowSchemaValidateFunc kafka day k).2 with
    | [] => ∃ ordinal,
          ordinal ≠ 0
          ∧ WeeklyMaintenanceWindow_WeekDay_value kafka !! day = Some ordinal
          ∧ expandKafkaMaintenanceWindow kafka d
            = Ok (Some {| Policy :=
                            Some (MaintenanceWindow_WeeklyMaintenanceWindow ordinal hour) |})
    | _ => expandKafkaMaintenanceWindow kafka d = Err errWeekDay
    end.
Proof.
  intros Hblock Htype Hhour Hne day.
  unfold kafkaMaintenanceWindowSchemaValidateFunc, expandKafkaMaintenanceWindow.
  unfold GetOk_block, GetOk_int. rewrite Hblock, Hhour, !GetOk_string_eq, Htype.
  fold day. apply Z.eqb_neq in Hne as Hne'. rewrite Hne'. cbn [Nat.eqb negb iface_eqb].
  cbn [String.eqb Ascii.eqb Bool.eqb]. cbv iota.
  unfold map_index. destruct (_ !! day) as [ordinal|]; simpl; [|done].
  destruct (Z.eqb_spec ordinal 0); simpl; [done|].
  split; [done|]. by exists ordinal.
Qed.

End MaintenanceWindowMore.

Lemma X10_maintenance_window_round_trip_witness :
  ∃ m, flattenKafkaMaintenanceWindow kafka_pb
         (Some {| Policy := Some (MaintenanceWindow_WeeklyMaintenanceWindow 1 3) |}) = Ok [m]
       ∧ m !! "type" = Some (VString "WEEKLY")
       ∧ m !! "hour" = Some (VInt 3)
       ∧ m !! "day" = Some (VString "MON").
Proof.
  destruct (X10_maintenance_window_round_trip kafka_pb d_weekly_mon_3
              {| Policy := Some (MaintenanceWindow_WeeklyMaintenanceWindow 1 3) |})
    as (m & Hm & Htype & Hweekly & _).
  - intros v [= <-]. reflexivity.
  - reflexivity.
  - exists m. split; [exact Hm|]. split; [exact Htype|]. exact (Hweekly eq_refl).
Defined.

Lemma X11_day_validator_agrees_witness :
  (kafkaMaintenanceWindowSchemaValidateFunc kafka_pb "MON" "maintenance_window.0.day").1 = []
  ∧ ∃ ordinal,
      ordinal ≠ 0
      ∧ WeeklyMaintenanceWindow_WeekDay_value kafka_pb !! "MON" = Some ordinal
      ∧ expandKafkaMaintenanceWindow kafka_pb d_weekly_mon_3
        = Ok (Some {| Policy :=
                        Some (MaintenanceWindow_WeeklyMaintenanceWindow ordinal 3) |}).
Proof.
  apply (X11_day_validator_agrees kafka_pb d_weekly_mon_3 0 3 "maintenance_window.0.day").
  - reflexivity.
  - reflexivity.
  - reflexivity.
  - discriminate.
Defined.

Example kafkaMaintenanceWindowSchemaValidateFunc_unspecified :
  kafkaMaintenanceWindowSchemaValidateFunc kafka_pb "WEEK_DAY_UNSPECIFIED" "day"
  = ([], [ErrorString ("expected day value should be one of " +:+ weekDayTokens
                       +:+ ". Current value is WEEK_DAY_UNSPECIFIED")]).
Proof. reflexivity. Qed.

(** ** Cipher suites and SASL mechanisms *)

Lemma GetOk_set_with_set_eq d path l :
  GetOk_set (with_set d path l) path = (l, negb (Nat.eqb (length l) 0)).
Proof. unfold GetOk_set, with_set; simpl. by rewrite lookup_insert_eq. Qed.

Lemma GetOk_set_with_set_ne d path path' l :
  path ≠ path' → GetOk_set (with_set d path l) path' = GetOk_set d path'.
Proof. intros ?. unfold GetOk_set, with_set; simpl. by rewrite lookup_insert_ne. Qed.

Section SetsOfStrings.
Context (kafka : KafkaProto).

Lemma parseKafkaConfig_with_cipher_suites d l :
  parseKafkaConfig kafka (with_set d (kafkaConfigPath +:+ ".ssl_cipher_suites") l)
  = (compressionType ←
       (let '(v, ok) := GetOk_string d (kafkaConfigPath +:+ ".compression_type") in
        if ok then parseKafkaCompression kafka v else Ok 0);
     saslEnabledMechanisms ←
       (let '(v, ok) := GetOk_set d (kafkaConfigPath +:+ ".sasl_enabled_mechanisms") in
        if ok then mechanisms ← parseSaslEnabledMechanisms kafka v; Ok (Some mechanisms)
        else Ok None);
     Ok ((parseKafkaConfig_ints d None).1
           (if Nat.eqb (length l) 0 then None else Some (sort.Strings l))
           (let '(v, ok) := GetOk_bool d (kafkaConfigPath +:+ ".auto_create_topics_enable") in
            if ok then Some v else None)
           saslEnabledMechanisms compressionType)).
Proof.
  unfold parseKafkaConfig.
  rewrite GetOk_set_with_set_eq.
  rewrite GetOk_set_with_set_ne by (by vm_compute).
  change (parseKafkaConfig_ints (with_set d _ l) None) with (parseKafkaConfig_ints d None).
  change (GetOk_string (with_set d _ l)) with (GetOk_string d).
  change (GetOk_bool (with_set d _ l)) with (GetOk_bool d).
  pose proof (parseKafkaConfig_ints_retErr_nil d) as Hnil.
  destruct (parseKafkaConfig_ints d None) as [res retErr]. simpl in Hnil. subst retErr.
  destruct (let '(v, ok) := GetOk_string d _ in _) as [c|e]; simpl; [|done].
  destruct (let '(v, ok) := GetOk_set d _ in _) as [ms|e]; simpl; [|done].
  unfold parseSslCipherSuites, parseSetToStringArray, convertStringSet.
  by destruct (Nat.eqb (length l) 0).
Qed.

Lemma parseKafkaConfig_ints_SslCipherSuites d sslCipherSuites autoCreate sasl compression :
  SslCipherSuites ((parseKafkaConfig_ints d None).1 sslCipherSuites autoCreate sasl compression)
  = sslCipherSuites.
Proof.
  unfold parseKafkaConfig_ints.
  repeat (rewrite RetErr_bind_nil by apply parseIntKafkaConfigParam_retErr_nil).
  reflexivity.
Qed.

(** X12. The cipher suites of a parsed Kafka server config are the declared
    set in ascending order, so that two trees that differ only in the order
    of that set parse to the same result; an empty set leaves the field
    nil. *)
Theorem X12_cipher_suites_sorted (d : ResourceData) (l1 l2 : list string) :
  l1 ≡ₚ l2 →
  parseKafkaConfig kafka (with_set d (kafkaConfigPath +:+ ".ssl_cipher_suites") l1)
  = parseKafkaConfig kafka (with_set d (kafkaConfigPath +:+ ".ssl_cipher_suites") l2)
  ∧ ∀ res,
      parseKafkaConfig kafka (with_set d (kafkaConfigPath +:+ ".ssl_cipher_suites") l1)
      = Ok res →
      match SslCipherSuites res with
      | Some suites =>
          l1 ≠ [] ∧ suites ≡ₚ l1 ∧ Sorted (λ a b, String.ltb b a = false) suites
      | None => l1 = []
      end.
Proof.
  intros Hperm. split.
  - rewrite !parseKafkaConfig_with_cipher_suites.
    by rewrite (Permutation_length Hperm), (sort_Strings_Permutation l1 l2 Hperm).
  - intros res. rewrite parseKafkaConfig_with_cipher_suites.
    destruct (let '(v, ok) := GetOk_string d _ in _) as [c|e]; simpl; [|done].
    destruct (let '(v, ok) := GetOk_set d _ in _) as [ms|e]; simpl; [|done].
    intros [= <-]. rewrite parseKafkaConfig_ints_SslCipherSuites.
    destruct l1 as [|x l1]; [done|]. simpl. split; [done|]. split.
    + apply Slice_Permutation.
    + apply Slice_Sorted, string_ltb_asym.
Qed.

Lemma parseSaslEnabledMechanisms_loop_result l acc :
  match parseSaslEnabledMechanisms_loop kafka l acc with
  | Ok res =>
      ∃ ms, res = acc ++ ms
            ∧ Forall2 (λ s v, parseKafkaSaslMechanism kafka s = Ok v) l ms
  | Err e =>
      ∃ l1 s l2,
        l = l1 ++ s :: l2
        ∧ Forall (λ s, ∃ v, parseKafkaSaslMechanism kafka s = Ok v) l1
        ∧ parseKafkaSaslMechanism kafka s = Err e
  end.
Proof.
  revert acc. induction l as [|s l IH]; intros acc; simpl.
  - exists []. by rewrite app_nil_r.
  - destruct (parseKafkaSaslMechanism kafka s) as [v|e] eqn:Hs; simpl.
    + specialize (IH (acc ++ [v])).
      destruct (parseSaslEnabledMechanisms_loop kafka l (acc ++ [v])) as [res|e].
      * destruct IH as (ms & -> & Hms). exists (v :: ms).
        split; [by rewrite <-app_assoc|by constructor].
      * destruct IH as (l1 & s' & l2 & -> & H1 & Hs').
        exists (s :: l1), s', l2. split; [done|]. split; [|done].
        constructor; eauto.
    + exists [], s, l. by repeat split.
Qed.

Lemma parseKafkaSaslMechanism_Ok s v :
  parseKafkaSaslMechanism kafka s = Ok v
  ↔ SaslMechanism_value kafka !! s = Some v ∧ s ≠ "SASL_MECHANISM_UNSPECIFIED".
Proof.
  unfold parseKafkaSaslMechanism, map_index.
  destruct (_ !! s) as [v'|]; simpl.
  - destruct (String.eqb_spec s "SASL_MECHANISM_UNSPECIFIED"); split.
    + done.
    + by intros [_ ?].
    + intros [= ->]. done.
    + by intros [[= ->] _].
  - split; [done|]. by intros [? _].
Qed.

(** X13. [parseSaslEnabledMechanisms] returns the ordinals of the declared
    mechanisms in the order of the set, each a key of the mechanism table
    other than the reserved "unspecified" one; it fails on the first
    mechanism, in that order, that is no such key, with the error naming
    it. *)
Theorem X13_parseSaslEnabledMechanisms_result (saslEnabledMechanisms : list string) :
  match parseSaslEnabledMechanisms kafka saslEnabledMechanisms with
  | Ok res =>
      Forall2 (λ s v, SaslMechanism_value kafka !! s = Some v
                      ∧ s ≠ "SASL_MECHANISM_UNSPECIFIED")
              saslEnabledMechanisms res
  | Err e =>
      ∃ l1 s l2,
        saslEnabledMechanisms = l1 ++ s :: l2
        ∧ Forall (λ s, is_Some (SaslMechanism_value kafka !! s)
                       ∧ s ≠ "SASL_MECHANISM_UNSPECIFIED") l1
        ∧ (SaslMechanism_value kafka !! s = None ∨ s = "SASL_MECHANISM_UNSPECIFIED")
        ∧ e = EnumValueError "sasl_mechanism" s
  end.
Proof.
  unfold parseSaslEnabledMechanisms, convertStringSet.
  pose proof (parseSaslEnabledMechanisms_loop_result saslEnabledMechanisms []) as H.
  destruct (parseSaslEnabledMechanisms_loop kafka saslEnabledMechanisms []) as [res|e].
  - destruct H as (ms & -> & Hms). simpl.
    eapply Forall2_impl; [exact Hms|]. intros s v. apply parseKafkaSaslMechanism_Ok.
  - destruct H as (l1 & s & l2 & -> & H1 & Hs). exists l1, s, l2.
    split; [done|]. split; [|].
    + eapply Forall_impl; [exact H1|]. intros s' [v Hv].
      apply parseKafkaSaslMechanism_Ok in Hv as [Hv ?]. by rewrite Hv.
    + unfold parseKafkaSaslMechanism, map_index in Hs.
      destruct (_ !! s) as [v|]; simpl in Hs.
      * destruct (String.eqb_spec s "SASL_MECHANISM_UNSPECIFIED"); [|done].
        injection Hs as <-. auto.
      * injection Hs as <-. auto.
Qed.

(** X19. The enabled SASL mechanisms survive parsing and conversion back
    to strings: when the name table gives back each declared mechanism from
    its ordinal, [convertSaslEnabledMechanismsToStrings] on what
    [parseSaslEnabledMechanisms] returned is the declared list, in the same
    order. *)
Theorem X19_sasl_mechanisms_round_trip (saslEnabledMechanisms : list string)
    (mechanisms : list Z) :
  (∀ s v, s ∈ saslEnabledMechanisms →
          SaslMechanism_value kafka !! s = Some v →
          SaslMechanism_name kafka !! v = Some s) →
  parseSaslEnabledMechanisms kafka saslEnabledMechanisms = Ok mechanisms →
  convertSaslEnabledMechanismsToStrings kafka mechanisms = saslEnabledMechanisms.
Proof.
  intros Hinv Hparse. unfold parseSaslEnabledMechanisms, convertStringSet in Hparse.
  pose proof (parseSaslEnabledMechanisms_loop_result saslEnabledMechanisms []) as H.
  rewrite Hparse in H. destruct H as (ms & -> & Hms). simpl. clear Hparse.
  unfold convertSaslEnabledMechanismsToStrings.
  induction Hms as [|s v l ms Hs Hms IH]; [done|].
  apply parseKafkaSaslMechanism_Ok in Hs as [Hs _]. cbn [fmap list_fmap].
  f_equal.
  - unfold enum_String. rewrite (Hinv s v); [done|left|done].
  - apply IH. intros s' v' Hin. apply Hinv. by right.
Qed.

End SetsOfStrings.

Lemma X19_sasl_mechanisms_round_trip_witness :
  convertSaslEnabledMechanismsToStrings kafka_pb [2; 1]
  = ["SASL_MECHANISM_SCRAM_SHA_512"; "SASL_MECHANISM_SCRAM_SHA_256"].
Proof.
  apply (X19_sasl_mechanisms_round_trip kafka_pb
           ["SASL_MECHANISM_SCRAM_SHA_512"; "SASL_MECHANISM_SCRAM_SHA_256"] [2; 1]).
  - intros s v Hin Hv.
    apply elem_of_cons in Hin as [->|Hin]; [by injection Hv as <-|].
    apply elem_of_cons in Hin as [->|Hin]; [by injection Hv as <-|].
    by apply elem_of_nil in Hin.
  - reflexivity.
Defined.

Lemma X12_cipher_suites_sorted_witness :
  parseKafkaConfig kafka_pb
    (with_set (d_version "3.5") (kafkaConfigPath +:+ ".ssl_cipher_suites")
       ["TLS_RSA_WITH_AES_256_GCM_SHA384"; "TLS_AKE_WITH_AES_128_GCM_SHA256"])
  = parseKafkaConfig kafka_pb
      (with_set (d_version "3.5") (kafkaConfigPath +:+ ".ssl_cipher_suites")
         ["TLS_AKE_WITH_AES_128_GCM_SHA256"; "TLS_RSA_WITH_AES_256_GCM_SHA384"]).
Proof.
  apply (X12_cipher_suites_sorted kafka_pb (d_version "3.5")). apply Permutation_swap.
Defined.

(** ** Cluster config round trip *)

Section ConfigRoundTrip.
Context (kafka : KafkaProto).

Lemma flattenKafkaConfigSettings_Ok kafkaConfig :
  ∃ res, flattenKafkaConfigSettings kafka kafkaConfig = Ok res.
Proof. by eexists. Qed.

Lemma GetOk_int_option d path :
  default 0 (let '(v, ok) := GetOk_int d path in if ok then Some v else None)
  = Get_int d path.
Proof.
  unfold Get_int, GetOk_int.
  destruct (rd_int d !! path) as [i|]; simpl; [|done].
  by destruct (Z.eqb_spec i 0).
Qed.

Lemma GetOk_bool_value d path :
  (let '(v, ok) := GetOk_bool d path in if ok then v else false) = (GetOk_bool d path).1.
Proof. unfold GetOk_bool. by destruct (rd_bool d !! path) as [[]|]. Qed.

Lemma GetOk_list_value d path :
  (let '(v, ok) := GetOk_list d path in if ok then v else []) = (GetOk_list d path).1.
Proof.
  unfold GetOk_list. destruct (rd_list d !! path) as [[|x l]|]; done.
Qed.

(** X14. A config spec that expansion produced flattens, without error, to a
    single block that gives back the declared version, broker count, public
    IP and schema registry flags and zones; it has a zookeeper (kraft) block
    exactly when one was declared, and an access (rest_api) block exactly
    when one exists in the tree, with the declared flag, false when the
    block does not set it. *)
Theorem X14_config_round_trip (d : ResourceData) (spec : ConfigSpec) :
  expandKafkaConfigSpec kafka d = Ok spec →
  ∃ config,
    flattenKafkaConfig kafka spec = Ok [config]
    ∧ config !! "version" = Some (AValue (VString (Get_string d "config.0.version")))
    ∧ config !! "brokers_count"
      = Some (AValue (VInt (Get_int d "config.0.brokers_count")))
    ∧ config !! "assign_public_ip"
      = Some (AValue (VBool (GetOk_bool d "config.0.assign_public_ip").1))
    ∧ config !! "schema_registry"
      = Some (AValue (VBool (GetOk_bool d "config.0.schema_registry").1))
    ∧ config !! "zones" = Some (AValue (VStrings (GetOk_list d "config.0.zones").1))
    ∧ (is_Some (config !! "zookeeper") ↔ (GetOk_block d "config.0.zookeeper").2 = true)
    ∧ (is_Some (config !! "kraft") ↔ (GetOk_block d "config.0.kraft").2 = true)
    ∧ config !! "access"
      = match rd_block d !! "config.0.access" with
        | Some _ =>
            Some (ABlocks
                    [ block_of {[ "data_transfer" :=
                                    VBool (GetOk_bool d "config.0.access.0.data_transfer").1 ]} ])
        | None => None
        end
    ∧ config !! "rest_api"
      = match rd_block d !! "config.0.rest_api" with
        | Some _ =>
            Some (ABlocks
                    [ block_of {[ "enabled" :=
                                    VBool (GetOk_bool d "config.0.rest_api.0.enabled").1 ]} ])
        | None => None
        end.
Proof.
  intros H. unfold expandKafkaConfigSpec in H.
  rewrite GetOk_string_value, !GetOk_bool_value, GetOk_list_value in H.
  destruct (if strings.HasPrefix _ "3" then _ else _) as [kc|e]; simpl in H; [|done].
  injection H as <-.
  unfold flattenKafkaConfig, flattenKafkaResources, flattenKafkaConfig2_8Settings,
    flattenKafkaConfig3Settings.
  unfold expandKafkaAccess, expandKafkaRestAPI, GetOkExists_block, flattenKafkaAccess,
    flattenKafkaRestAPI.
  rewrite !GetOk_bool_value.
  cbn [Kafka Kafka_Resources Kafka_KafkaConfig Zookeeper Kraft ConfigSpec_Access
       RestApiConfig ConfigSpec_DiskSizeAutoscaling BrokersCount AssignPublicIp
       SchemaRegistry ZoneId Version mbind result_bind].
  rewrite GetOk_int_option.
  assert (∃ res, match kc with
                 | KafkaConfig_2_8 cfg | KafkaConfig_3 cfg =>
                     flattenKafkaConfigSettings kafka cfg
                 end = Ok res) as [res ->].
  { destruct kc; apply flattenKafkaConfigSettings_Ok. }
  cbn [mbind result_bind].
  destruct (GetOk_block d "config.0.zookeeper") as [n1 [|]],
    (GetOk_block d "config.0.kraft") as [n2 [|]],
    (rd_block d !! "config.0.access") as [n3|],
    (rd_block d !! "config.0.rest_api") as [n4|];
    cbn [negb mbind result_bind ConfigSpec_Access RestApiConfig DataTransfer Enabled
         fmap list_fmap snd];
    (eexists; split; [reflexivity|]);
    repeat split;
    repeat first [ rewrite lookup_insert_eq
                 | rewrite lookup_insert_ne by discriminate
                 | rewrite lookup_empty ];
    try done; eauto; try (by intros []%is_Some_None).
Qed.

End ConfigRoundTrip.

Lemma X14_config_round_trip_witness :
  ∃ spec config,
    expandKafkaConfigSpec kafka_pb (d_version "2.8") = Ok spec
    ∧ flattenKafkaConfig kafka_pb spec = Ok [config]
    ∧ config !! "version" = Some (AValue (VString "2.8")).
Proof.
  eexists.
  destruct (X14_config_round_trip kafka_pb (d_version "2.8") _ eq_refl)
    as (config & Hconfig & Hversion & _).
  exists config. split; [reflexivity|]. split; [exact Hconfig|exact Hversion].
Defined.

(** ** Topics *)

Section TopicsMore.
Context (kafka : KafkaProto).
Context (TopicConfig2_8_CleanupPolicy_value TopicConfig3_CleanupPolicy_value : gmap string Z).
Context (TopicConfig2_8_CleanupPolicy_name TopicConfig3_CleanupPolicy_name : gmap Z string).

Lemma flattenKafkaTopicConfig_other_keys topicConfig :
  flattenKafkaTopicConfig kafka topicConfig !! "cleanup_policy" = None
  ∧ flattenKafkaTopicConfig kafka topicConfig !! "compression_type"
    = if tc_CompressionType topicConfig =? 0 then None
      else Some (VString (enum_String (CompressionType_name kafka)
                            (tc_CompressionType topicConfig))).
Proof.
  unfold flattenKafkaTopicConfig. cbv zeta. split; lookup_set_present.
Qed.

(** A topic config flattens to the empty map exactly when it sets nothing. *)
Lemma flattenKafkaTopicConfig_empty topicConfig :
  flattenKafkaTopicConfig kafka topicConfig = ∅
  ↔ tc_CompressionType topicConfig = 0
    ∧ (∀ p, topicIntParam_get p topicConfig = None)
    ∧ Preallocate topicConfig = None.
Proof.
  destruct (flattenKafkaTopicConfig_fields kafka topicConfig) as [Hint Hbool].
  destruct (flattenKafkaTopicConfig_other_keys topicConfig) as [_ Hcomp].
  split.
  - intros Hempty. rewrite Hempty in Hint, Hbool, Hcomp.
    rewrite lookup_empty in Hbool, Hcomp. split; [|split].
    + destruct (Z.eqb_spec (tc_CompressionType topicConfig) 0); done.
    + intros p. specialize (Hint p). rewrite lookup_empty in Hint.
      by destruct (topicIntParam_get p topicConfig).
    + by destruct (Preallocate topicConfig).
  - intros (Hc & Hp & Hb). unfold flattenKafkaTopicConfig. cbv zeta.
    pose proof (Hp delete_retention_ms) as H1. pose proof (Hp file_delete_delay_ms) as H2.
    pose proof (Hp flush_messages) as H3. pose proof (Hp flush_ms) as H4.
    pose proof (Hp min_compaction_lag_ms) as H5. pose proof (Hp retention_bytes) as H6.
    pose proof (Hp retention_ms) as H7. pose proof (Hp max_message_bytes) as H8.
    pose proof (Hp min_insync_replicas) as H9. pose proof (Hp segment_bytes) as H10.
    cbn [topicIntParam_get] in *.
    rewrite Hc, H1, H2, H3, H4, H5, H6, H7, H8, H9, H10, Hb. reflexivity.
Qed.

Lemma flattenKafkaTopicConfig2_8_empty c :
  flattenKafkaTopicConfig2_8 kafka TopicConfig2_8_CleanupPolicy_name c = ∅
  ↔ Pb_CleanupPolicy c = 0 ∧ flattenKafkaTopicConfig kafka (Pb_Spec c) = ∅.
Proof.
  unfold flattenKafkaTopicConfig2_8. cbv zeta.
  destruct (Z.eqb_spec (Pb_CleanupPolicy c) 0) as [->|Hne]; simpl.
  - tauto.
  - split; [|tauto]. intros H. by apply insert_non_empty in H.
Qed.

Lemma flattenKafkaTopicConfig3_empty c :
  flattenKafkaTopicConfig3 kafka TopicConfig3_CleanupPolicy_name c = ∅
  ↔ Pb_CleanupPolicy c = 0 ∧ flattenKafkaTopicConfig kafka (Pb_Spec c) = ∅.
Proof.
  unfold flattenKafkaTopicConfig3. cbv zeta.
  destruct (Z.eqb_spec (Pb_CleanupPolicy c) 0) as [->|Hne]; simpl.
  - tauto.
  - split; [|tauto]. intros H. by apply insert_non_empty in H.
Qed.

(** X15. [flattenKafkaTopics] returns one map per topic, in order, with the
    topic's name, partitions and replication factor (zero for an absent
    wrapper); the map has a topic_config block exactly when the topic has a
    config that sets at least one field, so a config that is present but
    sets nothing leaves no block. *)
Theorem X15_flattenKafkaTopics_result (topics : list (option Topic)) :
  length (flattenKafkaTopics kafka TopicConfig2_8_CleanupPolicy_name
            TopicConfig3_CleanupPolicy_name topics) = length topics
  ∧ ∀ i topic,
      topics !! i = Some (Some topic) →
      ∃ m,
        flattenKafkaTopics kafka TopicConfig2_8_CleanupPolicy_name
          TopicConfig3_CleanupPolicy_name topics !! i = Some m
        ∧ m !! "name" = Some (AValue (VString (Topic_Name topic)))
        ∧ m !! "partitions" = Some (AValue (VInt (default 0 (Topic_Partitions topic))))
        ∧ m !! "replication_factor"
          = Some (AValue (VInt (default 0 (Topic_ReplicationFactor topic))))
        ∧ (m !! "topic_config" = None
           ↔ match Topic_Config topic with
             | Some (Topic_TopicConfig_2_8 c) | Some (Topic_TopicConfig_3 c) =>
                 topicConfig_unset c
             | None => True
             end).
Proof.
  unfold flattenKafkaTopics. split; [apply length_fmap|].
  intros i topic Hi. eexists. split; [by rewrite list_lookup_fmap, Hi|].
  unfold flattenKafkaTopic. cbv zeta. cbn [mbind option_bind fmap option_fmap option_map default].
  set (cfg := match Topic_Config topic with
              | Some (Topic_TopicConfig_2_8 c) => _
              | Some (Topic_TopicConfig_3 c) => _
              | None => ∅
              end).
  assert (cfg = ∅ ↔ match Topic_Config topic with
                    | Some (Topic_TopicConfig_2_8 c) | Some (Topic_TopicConfig_3 c) =>
                        topicConfig_unset c
                    | None => True
                    end) as Hcfg.
  { unfold cfg, topicConfig_unset. destruct (Topic_Config topic) as [[c|c]|]; [| |done].
    - rewrite flattenKafkaTopicConfig2_8_empty, flattenKafkaTopicConfig_empty. tauto.
    - rewrite flattenKafkaTopicConfig3_empty, flattenKafkaTopicConfig_empty. tauto. }
  rewrite <-Hcfg, <-map_size_empty_iff.
  destruct (Nat.eqb_spec (size cfg) 0) as [Hsize|Hsize]; cbn [negb];
    repeat split;
    repeat first [ rewrite lookup_insert_eq
                 | rewrite lookup_insert_ne by discriminate
                 | rewrite lookup_empty ];
    try done.
Qed.

Lemma parseKafkaTopicConfig_CleanupPolicy d topicConfigPrefix res :
  parseKafkaTopicConfig kafka d topicConfigPrefix = Ok res →
  CleanupPolicy res = Get_string d (topicConfigPrefix +:+ "cleanup_policy")
  ∧ (CleanupPolicy res = ""
     ∨ parseKafkaTopicCleanupPolicy (CleanupPolicy res) = Ok
         (map_index Topic_CleanupPolicy_value (CleanupPolicy res)).1).
Proof.
  unfold parseKafkaTopicConfig, parseKafkaTopicConfig_ints.
  repeat (rewrite RetErr_bind_nil by apply parseIntTopicConfigParam_retErr_nil).
  cbn [mret RetErr_ret].
  destruct (String.eqb_spec (Get_string d (topicConfigPrefix +:+ "cleanup_policy")) "")
    as [Hcp|Hcp]; cbn [negb].
  - cbn [mbind result_bind].
    destruct (if negb (String.eqb (Get_string d (topicConfigPrefix +:+ "compression_type")) "")
              then _ else _) as [ct|e]; simpl; [|done].
    intros [= <-]. simpl. auto.
  - destruct (parseKafkaTopicCleanupPolicy _) as [v|e] eqn:Hparse; simpl; [|done].
    destruct (if negb (String.eqb (Get_string d (topicConfigPrefix +:+ "compression_type")) "")
              then _ else _) as [ct|e]; simpl; [|done].
    intros [= <-]. simpl. split; [done|]. right. rewrite Hparse. f_equal.
    unfold parseKafkaTopicCleanupPolicy in Hparse.
    destruct (map_index _ _) as [v' ok]. destruct (negb ok || _); [done|].
    by injection Hparse as ->.
Qed.

(** X16. [expandKafkaTopicConfig2_8] fails exactly when
    [parseKafkaTopicConfig] does, with its error.  Otherwise it returns a
    config whose cleanup policy is the ordinal that the 2.8 value table gives
    the declared policy, and 0, with no error, when the table has no entry
    for it (as for a policy that is not declared); flattening that config
    writes the name of a non-zero ordinal under cleanup_policy and no key for
    ordinal 0, so that the declared policy comes back whenever the table
    gives it a non-zero ordinal that the name table maps back to it. *)
Theorem X16_cleanup_policy_round_trip (d : ResourceData) (topicConfigPrefix : string) :
  let cleanupPolicy := Get_string d (topicConfigPrefix +:+ "cleanup_policy") in
  match parseKafkaTopicConfig kafka d topicConfigPrefix with
  | Err e =>
      expandKafkaTopicConfig2_8 kafka TopicConfig2_8_CleanupPolicy_value d topicConfigPrefix
      = Err e
  | Ok _ =>
      ∃ c,
        expandKafkaTopicConfig2_8 kafka TopicConfig2_8_CleanupPolicy_value d topicConfigPrefix
        = Ok c
        ∧ Pb_CleanupPolicy c
          = default 0 (TopicConfig2_8_CleanupPolicy_value !! cleanupPolicy)
        ∧ flattenKafkaTopicConfig2_8 kafka TopicConfig2_8_CleanupPolicy_name c
          !! "cleanup_policy"
          = (if Pb_CleanupPolicy c =? 0 then None
             else Some (VString (enum_String TopicConfig2_8_CleanupPolicy_name
                                   (Pb_CleanupPolicy c))))
        ∧ (∀ v, TopicConfig2_8_CleanupPolicy_value !! cleanupPolicy = Some v → v ≠ 0 →
                TopicConfig2_8_CleanupPolicy_name !! v = Some cleanupPolicy →
                flattenKafkaTopicConfig2_8 kafka TopicConfig2_8_CleanupPolicy_name c
                !! "cleanup_policy" = Some (VString cleanupPolicy))
  end.
Proof.
  intros cleanupPolicy. unfold expandKafkaTopicConfig2_8.
  destruct (parseKafkaTopicConfig kafka d topicConfigPrefix) as [tc|e] eqn:Htc;
    cbn [mbind result_bind]; [|done].
  apply parseKafkaTopicConfig_CleanupPolicy in Htc as [Hcp _]. fold cleanupPolicy in Hcp.
  eexists. split; [reflexivity|].
  unfold flattenKafkaTopicConfig2_8, map_index. cbv zeta. cbn [Pb_CleanupPolicy Pb_Spec].
  rewrite Hcp.
  destruct (flattenKafkaTopicConfig_other_keys (copyTopicConfig tc)) as [Hnone _].
  assert ((match TopicConfig2_8_CleanupPolicy_value !! cleanupPolicy with
           | Some v => (v, true)
           | None => (0, false)
           end).1 = default 0 (TopicConfig2_8_CleanupPolicy_value !! cleanupPolicy)) as ->.
  { by destruct (TopicConfig2_8_CleanupPolicy_value !! cleanupPolicy). }
  split; [done|].
  assert (∀ v, (if negb (v =? 0)
                then <["cleanup_policy" :=
                         VString (enum_String TopicConfig2_8_CleanupPolicy_name v)]>
                       (flattenKafkaTopicConfig kafka (copyTopicConfig tc))
                else flattenKafkaTopicConfig kafka (copyTopicConfig tc)) !! "cleanup_policy"
               = if v =? 0 then None
                 else Some (VString (enum_String TopicConfig2_8_CleanupPolicy_name v)))
    as Hlookup.
  { intros v. destruct (v =? 0); cbn [negb]; [done|apply lookup_insert_eq]. }
  split; [apply Hlookup|].
  intros v Hv Hne Hname. rewrite Hlookup, Hv. simpl.
  apply Z.eqb_neq in Hne as ->. unfold enum_String. by rewrite Hname.
Qed.

End TopicsMore.

Lemma X16_cleanup_policy_round_trip_witness :
  (∃ c, expandKafkaTopicConfig2_8 kafka_pb Topic_CleanupPolicy_value d_topic_compact
          "topic.0.topic_config.0." = Ok c
        ∧ Pb_CleanupPolicy c = 2
        ∧ flattenKafkaTopicConfig2_8 kafka_pb Topic_CleanupPolicy_name c !! "cleanup_policy"
          = Some (VString "CLEANUP_POLICY_COMPACT"))
  ∧ (∃ c, expandKafkaTopicConfig2_8 kafka_pb (delete "CLEANUP_POLICY_COMPACT"
                                                Topic_CleanupPolicy_value)
            d_topic_compact "topic.0.topic_config.0." = Ok c
          ∧ Pb_CleanupPolicy c = 0
          ∧ flattenKafkaTopicConfig2_8 kafka_pb Topic_CleanupPolicy_name c
            !! "cleanup_policy" = None)
  ∧ (∃ c, expandKafkaTopicConfig2_8 kafka_pb Topic_CleanupPolicy_value (d_version "2.8")
            "topic.0.topic_config.0." = Ok c
          ∧ Pb_CleanupPolicy c = 0
          ∧ flattenKafkaTopicConfig2_8 kafka_pb Topic_CleanupPolicy_name c
            !! "cleanup_policy" = None).
Proof.
  split; [|split].
  - destruct (X16_cleanup_policy_round_trip kafka_pb Topic_CleanupPolicy_value
                Topic_CleanupPolicy_name d_topic_compact "topic.0.topic_config.0.")
      as (c & Hc & Hord & _ & Hback).
    exists c. split; [exact Hc|]. split; [exact Hord|].
    apply (Hback 2); [reflexivity|discriminate|reflexivity].
  - destruct (X16_cleanup_policy_round_trip kafka_pb
                (delete "CLEANUP_POLICY_COMPACT" Topic_CleanupPolicy_value)
                Topic_CleanupPolicy_name d_topic_compact "topic.0.topic_config.0.")
      as (c & Hc & Hord & Hflat & _).
    exists c. split; [exact Hc|]. split; [exact Hord|].
    rewrite Hflat, Hord. reflexivity.
  - destruct (X16_cleanup_policy_round_trip kafka_pb Topic_CleanupPolicy_value
                Topic_CleanupPolicy_name (d_version "2.8") "topic.0.topic_config.0.")
      as (c & Hc & Hord & Hflat & _).
    exists c. split; [exact Hc|]. split; [exact Hord|].
    rewrite Hflat, Hord. reflexivity.
Defined.

(** ** Connectors *)

Section ConnectorsMore.
Context (strconv_Quote : string → string).

Lemma flattenKafkaClusterConnection_outcome cc :
  match flattenKafkaClusterConnection strconv_Quote cc with
  | Returned m => cluster_typed cc ∧ ∃ c, cc = Some c ∧ cluster_block c m
  | Errored e => ∃ alias, cluster_untyped cc alias ∧ e = errClusterConnectionType strconv_Quote alias
  | Panicked => cluster_nil cc
  end.
Proof.
  destruct cc as [[alias [[|[ecc|]]|]]|]; simpl; try done.
  - split; [eexists; split; [done|]; by left|].
    eexists. split; [done|]. unfold cluster_block. simpl.
    repeat first [ rewrite lookup_insert_eq
                 | rewrite lookup_insert_ne by discriminate
                 | rewrite lookup_empty ].
    done.
  - split; [eexists; split; [done|]; right; by eexists|].
    eexists. split; [done|]. unfold cluster_block. simpl.
    repeat first [ rewrite lookup_insert_eq
                 | rewrite lookup_insert_ne by discriminate
                 | rewrite lookup_empty ].
    split; [done|]. split; [done|]. eexists. split; [done|].
    unfold block_of. rewrite !lookup_fmap.
    repeat first [ rewrite lookup_insert_eq
                 | rewrite lookup_insert_ne by discriminate ].
    do 4 (split; [done|]).
    intros key. rewrite lookup_fmap, fmap_is_Some.
    rewrite !lookup_insert_is_Some', lookup_empty, !elem_of_cons, elem_of_nil.
    split.
    + intros [<-|[<-|[<-|[<-|[]%is_Some_None]]]]; auto.
    + intros [->|[->|[->|[->|[]]]]]; auto.
  - exists alias. split; [|done]. by eexists.
Qed.

(** X17. [flattenKafkaConnectorMirrormaker] on a non-nil connector has three
    outcomes that exclude each other.  It returns exactly when both clusters
    are set with a connection type (this cluster, or an external cluster that
    is not nil): the result is then one map whose source_cluster and
    target_cluster are single blocks that carry the alias and the block of
    the connection type that is set, and no key of the other type.  It
    returns an error exactly when the first cluster that does not flatten,
    the source before the target, has no connection type, and the error
    names that cluster's alias.  It panics exactly when that first cluster
    is nil or wraps a nil external cluster. *)
Theorem X17_mirrormaker_outcome (mm : ConnectorConfigMirrorMaker) :
  match flattenKafkaConnectorMirrormaker strconv_Quote (Some mm) with
  | Returned res =>
      cluster_typed (SourceCluster mm) ∧ cluster_typed (TargetCluster mm)
      ∧ ∃ config src tgt s t,
          res = [config]
          ∧ SourceCluster mm = Some src ∧ TargetCluster mm = Some tgt
          ∧ config !! "source_cluster" = Some (ABlocks [s]) ∧ cluster_block src s
          ∧ config !! "target_cluster" = Some (ABlocks [t]) ∧ cluster_block tgt t
  | Errored e =>
      ∃ alias,
        e = errClusterConnectionType strconv_Quote alias
        ∧ (cluster_untyped (SourceCluster mm) alias
           ∨ cluster_typed (SourceCluster mm) ∧ cluster_untyped (TargetCluster mm) alias)
  | Panicked =>
      cluster_nil (SourceCluster mm)
      ∨ cluster_typed (SourceCluster mm) ∧ cluster_nil (TargetCluster mm)
  end.
Proof.
  unfold flattenKafkaConnectorMirrormaker. cbv zeta.
  pose proof (flattenKafkaClusterConnection_outcome (SourceCluster mm)) as Hs.
  pose proof (flattenKafkaClusterConnection_outcome (TargetCluster mm)) as Ht.
  destruct (flattenKafkaClusterConnection strconv_Quote (SourceCluster mm)) as [s|e|];
    cbn [mbind outcome_bind].
  - destruct Hs as (Hsrc_typed & src & Hsrc & Hs).
    destruct (flattenKafkaClusterConnection strconv_Quote (TargetCluster mm)) as [t|e|];
      cbn [mbind outcome_bind].
    + destruct Ht as (Htgt_typed & tgt & Htgt & Ht).
      split; [done|]. split; [done|].
      eexists _, src, tgt, s, t. split; [reflexivity|].
      rewrite lookup_insert_eq, lookup_insert_ne, lookup_insert_eq by discriminate. done.
    + destruct Ht as (alias & Ht & ->). eauto 10.
    + eauto.
  - destruct Hs as (alias & Hs & ->). eauto.
  - by left.
Qed.

(** The three conditions on a cluster connection exclude each other, so each
    outcome of the flattener is met by its own condition only. *)
Lemma cluster_conditions_exclusive cc alias :
  ¬ (cluster_typed cc ∧ cluster_untyped cc alias)
  ∧ ¬ (cluster_typed cc ∧ cluster_nil cc)
  ∧ ¬ (cluster_untyped cc alias ∧ cluster_nil cc).
Proof.
  unfold cluster_typed, cluster_untyped, cluster_nil. repeat split.
  - intros [(c & -> & [H|[ecc H]]) (c' & [= <-] & H' & _)]; congruence.
  - intros [(c & -> & [H|[ecc H]]) H']; congruence.
  - intros [(c & -> & H & _) H']; congruence.
Qed.

Lemma flattenS3Connection_outcome s3Conn :
  match flattenS3Connection s3Conn with
  | Returned m =>
      ∃ c externalS3 ext,
        s3Conn = Some c ∧ Storage c = Some (S3Connection_ExternalS3 (Some externalS3))
        ∧ m !! "bucket_name" = Some (AValue (VString (BucketName c)))
        ∧ m !! "external_s3" = Some (ABlocks [ext])
        ∧ ∀ key, is_Some (ext !! key) ↔ key ∈ ["access_key_id"; "endpoint"; "region"]
  | Errored e => e = errS3ConnectionType ∧ ∃ c, s3Conn = Some c ∧ Storage c = None
  | Panicked => s3Conn = None
                ∨ ∃ c, s3Conn = Some c ∧ Storage c = Some (S3Connection_ExternalS3 None)
  end.
Proof.
  destruct s3Conn as [[bucket [[[externalS3|]]|]]|]; simpl; eauto.
  eexists _, _, _. split; [done|]. split; [done|].
  rewrite lookup_insert_eq, lookup_insert_ne, lookup_insert_eq by discriminate.
  split; [done|]. split; [done|]. intros key. unfold block_of.
  rewrite lookup_fmap, fmap_is_Some.
  rewrite !lookup_insert_is_Some', lookup_empty, !elem_of_cons, elem_of_nil.
  split.
  - intros [<-|[<-|[<-|[]%is_Some_None]]]; auto.
  - intros [->|[->|[->|[]]]]; auto.
Qed.

(** X18. [flattenKafkaConnectorS3Sink] on a non-nil connector returns only
    for an S3 connection whose storage is an external S3 storage: the result
    is then one map whose s3_connection block has the bucket name and an
    external_s3 block with the keys access_key_id, endpoint and region and no
    other key.  A connection with no storage gives the fixed error, and a nil
    connection or a nil storage pointer panics. *)
Theorem X18_s3_sink_outcome (s3Sink : ConnectorConfigS3Sink) :
  match flattenKafkaConnectorS3Sink (Some s3Sink) with
  | Returned res =>
      ∃ config conn c externalS3 ext,
        res = [config]
        ∧ s3_S3Connection s3Sink = Some c
        ∧ Storage c = Some (S3Connection_ExternalS3 (Some externalS3))
        ∧ config !! "s3_connection" = Some (ABlocks [conn])
        ∧ conn !! "bucket_name" = Some (AValue (VString (BucketName c)))
        ∧ conn !! "external_s3" = Some (ABlocks [ext])
        ∧ ∀ key, is_Some (ext !! key) ↔ key ∈ ["access_key_id"; "endpoint"; "region"]
  | Errored e =>
      e = errS3ConnectionType ∧ ∃ c, s3_S3Connection s3Sink = Some c ∧ Storage c = None
  | Panicked =>
      s3_S3Connection s3Sink = None
      ∨ ∃ c, s3_S3Connection s3Sink = Some c ∧ Storage c = Some (S3Connection_ExternalS3 None)
  end.
Proof.
  unfold flattenKafkaConnectorS3Sink. cbv zeta.
  pose proof (flattenS3Connection_outcome (s3_S3Connection s3Sink)) as Hc.
  destruct (flattenS3Connection (s3_S3Connection s3Sink)) as [conn|e|];
    cbn [mbind outcome_bind]; [|done..].
  destruct Hc as (c & externalS3 & ext & Hconn & Hst & Hb & He & Hkeys).
  eexists _, conn, c, externalS3, ext. split; [reflexivity|].
  rewrite lookup_insert_eq. done.
Qed.

End ConnectorsMore.
